(** * iKunMonitor desktop sampler: frame-rate estimation and sampler loop

    A shallow embedding of [desktop_sampler.py] (the metric acquisition and
    frame-rate estimation engine) together with the properties of its
    specification.

    Modelling conventions.
    - Python [int] is [Z]; counts parsed by the regular expression [\d+]
      are [N].
    - A Python [float] is the rational [Q] that the double denotes. In the
      streaming strategy, where tests on rounded results decide what is
      counted and published, the arithmetic is that of binary64: every
      subtraction, division and literal is rounded to the nearest double
      ([Float64.round]); infinities and NaN are not modelled, a timestamp
      is a finite double. Elsewhere (percentages, rates, the offline
      query) the arithmetic is exact and only signs and bounds are
      stated, which rounding keeps.
    - Text that the code only parses (the atrace dump, [/proc] files, the
      output of the trace processor, error messages) enters the model as
      the result of that parse: the list of regular-expression matches,
      the integers read, the classification of an error message.
    - Every remote command is an input of the iteration in which it is
      issued: either its parsed output or the exception it raised.
    - Local variables that live across iterations of a loop are fields of
      the state of that loop; one iteration is one function from state and
      inputs to state and outputs. *)

From stdpp Require Import gmap strings list.
From Stdlib Require Import Ascii ZArith QArith Qround Qpower Lqa Lia Sorted.

Local Open Scope Z_scope.

(** ** Python comparison and clamping on floats *)

(** [a > b] *)
Definition Qgtb (a b : Q) : bool := negb (Qle_bool a b).

(** [max(a, b)]: the first argument unless the second is larger *)
Definition py_max (a b : Q) : Q := if Qgtb b a then b else a.

(** [min(a, b)]: the first argument unless the second is smaller *)
Definition py_min (a b : Q) : Q := if Qgtb a b then b else a.

(** [float(n)] for an integer *)
Definition Zfloat (n : Z) : Q := inject_Z n.

(** [float(n)] for a length *)
Definition natfloat (n : nat) : Q := inject_Z (Z.of_nat n).

(** ** IEEE 754 binary64 arithmetic on the rationals *)

Module Float64.

(** The precision and the exponent of the smallest positive double,
    [2^-1074]. *)
Definition prec : Z := 53.
Definition emin : Z := -1074.

Definition two : Q := 2 # 1.

(** [floor(log2 q)] for [q > 0] *)
Definition ilog2 (q : Q) : Z :=
  let l := Z.log2 (Qnum q) - Z.log2 (Zpos (Qden q)) in
  if Qle_bool (two ^ l) q then l else l - 1.

(** The exponent of the unit in the last place of the doubles around
    [q > 0]: the doubles there are the multiples of [2^(ulp_exp q)]. *)
Definition ulp_exp (q : Q) : Z := Z.max emin (ilog2 q - (prec - 1)).

(** The nearest integer, the even one of two that are equally near. *)
Definition rne (z : Q) : Z :=
  let f := Qfloor z in
  match (z - inject_Z f ?= 1 # 2)%Q with
  | Lt => f
  | Gt => f + 1
  | Eq => if Z.even f then f else f + 1
  end.

Definition round_pos (q : Q) : Q :=
  let e := ulp_exp q in (inject_Z (rne (q / two ^ e)) * two ^ e)%Q.

(** The double nearest to [q], ties to even: the value of a literal, of
    [float(text)], and of the result of an operation whose exact result
    is [q]. *)
Definition round (q : Q) : Q :=
  match (q ?= 0)%Q with
  | Eq => 0%Q
  | Gt => round_pos q
  | Lt => (- round_pos (- q))%Q
  end.

(** [a - b] and [a / b] on doubles *)
Definition sub (a b : Q) : Q := round (a - b).
Definition div (a b : Q) : Q := round (a / b).

End Float64.

Arguments Float64.round : simpl never.

(** ** Python tests on strings *)

(** [s in l] for a list (or set) of strings *)
Definition str_in (s : string) (l : list string) : bool :=
  existsb (String.eqb s) l.

(** the truth value of a string: it is not empty *)
Definition nonempty (s : string) : bool := negb (String.eqb s EmptyString).

(** ** Parsing of the atrace text dump: [_count_frame_events] *)

Module FrameEvents.

(** The [method] string returned by [_count_frame_events]. *)
Inductive method : Type :=
| Unknown        (* "unknown" *)
| AtraceMarker   (* "atrace_marker" *)
| AtraceVsync    (* "atrace_vsync" *)
| NoEvents.      (* "no_events" *)

Definition _FRAME_MARKERS : list string :=
  ["queueBuffer"; "eglSwapBuffers"; "eglSwapBuffersWithDamageKHR"]%string.

(** One match of [_ATRACE_MARK_RE]: [float(m.group(1))] and
    [m.group(3).strip()]. *)
Record mark_match : Type := MarkMatch {
  mark_ts : Q;
  mark_name : string
}.

(** A dump of the trace buffer, as the two regular expressions see it:
    the matches of [_ATRACE_MARK_RE] and the timestamps
    [float(m.group(1))] of the matches of [_VSYNC_RE], in text order. *)
Record dump : Type := Dump {
  marks : list mark_match;
  vsyncs : list Q
}.

Definition is_frame_marker (s : string) : bool :=
  existsb (String.eqb s) _FRAME_MARKERS.

(** Method A: [marker in _FRAME_MARKERS and ts > since_ts] *)
Definition marker_timestamps (d : dump) (since_ts : Q) : list Q :=
  List.map mark_ts
    (List.filter (fun m => is_frame_marker (mark_name m) && Qgtb (mark_ts m) since_ts)
                 (marks d)).

(** Method B: [ts > since_ts] over the VSYNC/composition matches *)
Definition vsync_timestamps (d : dump) (since_ts : Q) : list Q :=
  List.filter (fun ts => Qgtb ts since_ts) (vsyncs d).

(** The list [timestamps] and [method] before the emptiness test. *)
Definition frame_timestamps (d : dump) (since_ts : Q) : list Q * method :=
  match marker_timestamps d since_ts with
  | (_ :: _) as a => (a, AtraceMarker)
  | [] =>
      match vsync_timestamps d since_ts with
      | (_ :: _) as b => (b, AtraceVsync)
      | [] => ([], Unknown)
      end
  end.

(** [timestamps.sort()]: a stable insertion sort. *)
Fixpoint insert_ts (t : Q) (l : list Q) : list Q :=
  match l with
  | [] => [t]
  | x :: r => if Qle_bool t x then t :: x :: r else x :: insert_ts t r
  end.

Definition sort_ts (l : list Q) : list Q := fold_right insert_ts [] l.

(** The literals [0.002] (the 2ms threshold) and [0.05] (the 50ms
    threshold): the doubles nearest to 2/1000 and to 5/100. *)
Definition dedup_gap : Q := Eval vm_compute in Float64.round (2 # 1000).
Definition min_span : Q := Eval vm_compute in Float64.round (5 # 100).

(** The loop [for t in timestamps[1:]: if t - deduped[-1] > 0.002:
    deduped.append(t)]; [prev] is [deduped[-1]], the result is what is
    appended after it. *)
Fixpoint dedup_from (prev : Q) (l : list Q) : list Q :=
  match l with
  | [] => []
  | t :: r =>
      if Qgtb (Float64.sub t prev) dedup_gap then t :: dedup_from t r
      else dedup_from prev r
  end.

(** [deduped] for a sorted list of timestamps. *)
Definition dedup_close (sorted : list Q) : list Q :=
  match sorted with
  | [] => []
  | t0 :: r => t0 :: dedup_from t0 r
  end.

(** Two timestamps, the second more than [0.002] after the first, which
    is more than 2ms. *)
Definition apart (a b : Q) : Prop := (dedup_gap < b - a)%Q.

(** The events retained from a dump: [deduped]. *)
Definition retained (d : dump) (since_ts : Q) : list Q :=
  dedup_close (sort_ts (fst (frame_timestamps d since_ts))).

(** [_count_frame_events(dump_text, since_ts)]:
    [(frame_count, min_ts, max_ts, method)]. *)
Definition _count_frame_events (d : dump) (since_ts : Q)
  : nat * Q * Q * method :=
  match fst (frame_timestamps d since_ts) with
  | [] => (0%nat, 0%Q, 0%Q, NoEvents)
  | _ :: _ =>
      let deduped := retained d since_ts in
      (length deduped, List.hd 0%Q deduped, List.last deduped 0%Q,
       snd (frame_timestamps d since_ts))
  end.

End FrameEvents.

(** ** The background worker [StreamingFpsBgWorker] *)

Module Worker.
Import FrameEvents.

(** [self._mode]: the empty string, ["atrace"] or ["perfetto"]. *)
Inductive mode_t : Type := ModeUnset | ModeAtrace | ModePerfetto.

(** [self._latest_detail]. The text is kept as its parts:
    [DetailAtrace m n (Some s)] is [f"{m} frames={n} span={s:.3f}s"],
    [DetailAtrace m n None] is [f"{m} frames={n} span=~1s"], and
    [DetailOffline d] is the detail returned by [_perfetto_once]. *)
Inductive detail_t : Type :=
| DetailEmpty
| DetailAtrace (m : method) (frames : nat) (span : option Q)
| DetailOffline (d : string).

(** The fields guarded by [self._lock]. *)
Record slot : Type := Slot {
  _latest_fps : option Q;
  _latest_fps_at_ms : Z;
  _latest_detail : detail_t;
  _sample_count : Z
}.

(** The fields written by [configure]. *)
Record conf : Type := Conf {
  _target_pkg : string;
  _layer_hint : string;
  _layer_candidates : list string;
  _sampling_ms : Z;
  _enabled : bool
}.

(** The worker: its shared slot, its configuration, [self._mode], the
    locals [last_max_ts] and [consecutive_empty] of [_loop_atrace], and
    whether the device-side atrace session started by [_atrace_start] has
    not yet been ended by [_atrace_stop]. *)
Record worker : Type := Mk {
  shared : slot;
  config : conf;
  _mode : mode_t;
  last_max_ts : Q;
  consecutive_empty : Z;
  atrace_running : bool
}.

(** [__init__] *)
Definition init : worker :=
  Mk (Slot None 0 DetailEmpty 0)
     (Conf EmptyString EmptyString [] 1000 false)
     ModeUnset 0%Q 0 false.

(** [configure(target_pkg, layer_hint, layer_candidates, sampling_ms,
    enabled)] *)
Definition configure (w : worker) (c : conf) : worker :=
  Mk (shared w) c (_mode w) (last_max_ts w) (consecutive_empty w)
     (atrace_running w).

(** [read_latest()] *)
Definition read_latest (w : worker) : option Q * Z * detail_t :=
  (_latest_fps (shared w), _latest_fps_at_ms (shared w),
   _latest_detail (shared w)).

(** the property [sample_count] *)
Definition sample_count (w : worker) : Z := _sample_count (shared w).

(** [self._enabled and self._target_pkg] *)
Definition active (w : worker) : bool :=
  _enabled (config w) && negb (String.eqb (_target_pkg (config w)) EmptyString).

(** What [_atrace_dump()] does in one iteration. *)
Inductive dump_result : Type :=
| DumpRaised
| DumpText (d : dump).

(** What [_perfetto_once()] does in one iteration: it raises, or it
    returns [(fps, detail)]. *)
Inductive offline_result : Type :=
| OfflineRaised
| OfflineReturned (fps : option Q) (detail : string).

(** The inputs of one iteration of the worker's loop. *)
Record tick : Type := Tick {
  dump_res : dump_result;
  offline_res : offline_result;
  now_ms : Z
}.

(** The block under [with self._lock] of [_loop_atrace]. *)
Definition publish (s : slot) (fps : Q) (at_ms : Z) (d : detail_t) : slot :=
  Slot (Some fps) at_ms d (_sample_count s + 1).

(** The block under [with self._lock] of [_loop_perfetto]. *)
Definition publish_offline (s : slot) (fps : option Q) (at_ms : Z) (d : string)
  : slot :=
  match fps with
  | Some f =>
      if Qle_bool 0 f
      then Slot (Some f) at_ms (DetailOffline d) (_sample_count s + 1)
      else Slot (_latest_fps s) (_latest_fps_at_ms s) (_latest_detail s)
                (_sample_count s + 1)
  | None =>
      Slot (_latest_fps s) (_latest_fps_at_ms s) (_latest_detail s)
           (_sample_count s + 1)
  end.

(** One iteration of the [while] loop of [_loop_perfetto]. *)
Definition _loop_perfetto_iter (w : worker) (t : tick) : worker :=
  if negb (active w) then w
  else
    match offline_res t with
    | OfflineRaised => w
    | OfflineReturned fps detail =>
        Mk (publish_offline (shared w) fps (now_ms t) detail)
           (config w) (_mode w) (last_max_ts w) (consecutive_empty w)
           (atrace_running w)
    end.

(** [self._atrace_stop(); self._mode = "perfetto"; self._loop_perfetto()]:
    the rest of the worker's life is spent in [_loop_perfetto]. *)
Definition switch_to_perfetto (w : worker) (empties : Z) : worker :=
  Mk (shared w) (config w) ModePerfetto (last_max_ts w) empties false.

(** One iteration of the [while] loop of [_loop_atrace]. *)
Definition _loop_atrace_iter (w : worker) (t : tick) : worker :=
  if negb (active w) then w
  else
    match dump_res t with
    | DumpRaised =>
        let ce := consecutive_empty w + 1 in
        if 5 <=? ce then switch_to_perfetto w ce
        else Mk (shared w) (config w) (_mode w) (last_max_ts w) ce
                (atrace_running w)
    | DumpText d =>
        let '(frame_count, min_ts, max_ts, method) :=
          _count_frame_events d (last_max_ts w) in
        if (0 <? Z.of_nat frame_count) && Qgtb max_ts min_ts then
          let span_s := Float64.sub max_ts min_ts in
          let fps := if Qgtb span_s min_span
                     then Float64.div (natfloat frame_count) span_s
                     else natfloat frame_count in
          Mk (publish (shared w) fps (now_ms t)
                      (DetailAtrace method frame_count (Some span_s)))
             (config w) (_mode w) max_ts 0 (atrace_running w)
        else if 0 <? Z.of_nat frame_count then
          let fps := natfloat frame_count in
          Mk (publish (shared w) fps (now_ms t)
                      (DetailAtrace method frame_count None))
             (config w) (_mode w)
             (if Qgtb max_ts 0 then max_ts else last_max_ts w)
             0 (atrace_running w)
        else
          let ce := consecutive_empty w + 1 in
          if 10 <=? ce then switch_to_perfetto w ce
          else Mk (shared w) (config w) (_mode w) (last_max_ts w) ce
                  (atrace_running w)
    end.

(** [_loop] after the wait for a configuration: [_atrace_start()]
    succeeded or not. *)
Definition start (w : worker) (atrace_ok : bool) : worker :=
  Mk (shared w) (config w)
     (if atrace_ok then ModeAtrace else ModePerfetto)
     0%Q 0 atrace_ok.

(** One iteration of whichever loop the worker is in. *)
Definition iter (w : worker) (t : tick) : worker :=
  match _mode w with
  | ModeUnset => w
  | ModeAtrace => _loop_atrace_iter w t
  | ModePerfetto => _loop_perfetto_iter w t
  end.

Definition run (w : worker) (ts : list tick) : worker :=
  fold_left iter ts w.

(** An iteration whose read of the trace buffer fails. *)
Definition dump_failed (t : tick) : Prop := dump_res t = DumpRaised.

(** The [frame_count] that an iteration gets for the events after
    [since_ts], when its read of the trace buffer succeeds. *)
Definition frames_of (since_ts : Q) (t : tick) : option nat :=
  match dump_res t with
  | DumpRaised => None
  | DumpText d => Some (fst (fst (fst (_count_frame_events d since_ts))))
  end.

(** An iteration whose snapshot holds no frame event after [since_ts]. *)
Definition snapshot_empty (since_ts : Q) (t : tick) : Prop :=
  frames_of since_ts t = Some 0%nat.

(** The streaming source has been torn down and the worker is in the
    offline strategy. *)
Definition offline (w : worker) : Prop :=
  _mode w = ModePerfetto /\ atrace_running w = false.

(** One iteration of the streaming loop that publishes nothing: the
    counter grows by one, and the worker is demoted exactly when the
    counter reaches [limit]. *)
Definition quiet_step (limit : Z) (w w' : worker) : Prop :=
  if limit <=? consecutive_empty w + 1 then offline w'
  else _mode w' = ModeAtrace /\ active w' = true /\
       last_max_ts w' = last_max_ts w /\
       consecutive_empty w' = consecutive_empty w + 1.

End Worker.

(** ** The offline trace query [perfetto_fps_from_trace] *)

Module Perfetto.

(** [str.strip()] on byte strings: the ASCII characters for which
    [str.isspace] holds are 9 to 13 and 28 to 32. *)
Definition is_space (a : Ascii.ascii) : bool :=
  let n := Ascii.nat_of_ascii a in
  ((9 <=? n)%nat && (n <=? 13)%nat) || ((28 <=? n)%nat && (n <=? 32)%nat).

Fixpoint lstrip (s : string) : string :=
  match s with
  | EmptyString => EmptyString
  | String a r => if is_space a then lstrip r else s
  end.

Fixpoint rstrip (s : string) : string :=
  match s with
  | EmptyString => EmptyString
  | String a r =>
      match rstrip r with
      | EmptyString => if is_space a then EmptyString else String a EmptyString
      | r' => String a r'
      end
  end.

Definition strip (s : string) : string := rstrip (lstrip s).

(** [s.replace("'", "''")] *)
Fixpoint double_quotes (s : string) : string :=
  match s with
  | EmptyString => EmptyString
  | String a r =>
      if Ascii.eqb a "'"%char
      then String "'"%char (String "'"%char (double_quotes r))
      else String a (double_quotes r)
  end.

(** [sql_quote(s)] *)
Definition sql_quote (s : string) : string :=
  ("'" ++ double_quotes s ++ "'")%string.

(** One entry [(key, where_sql, human)] of [filters]. *)
Record filter_t : Type := Filter {
  key : string;
  where_sql : string;
  human : string
}.

(** The loop that fills [cands] from [[layer_hint] + layer_candidates]. *)
Definition add_cand (cands : list string) (x : string) : list string :=
  let s := strip x in
  if nonempty s && negb (str_in s cands) then cands ++ [s] else cands.

Definition layer_cands (layer_hint : string) (layer_candidates : list string)
  : list string :=
  fold_left add_cand (layer_hint :: layer_candidates) [].

Definition layer_eq (c : string) : filter_t :=
  Filter "layer_name" (" where layer_name = " ++ sql_quote c) ("layer_eq=" ++ c).

Definition layer_like (c : string) : filter_t :=
  Filter "layer_name" (" where layer_name like " ++ sql_quote ("%" ++ c ++ "%"))
         ("layer_like=" ++ c).

Definition pkg_like (pkg : string) : filter_t :=
  Filter "layer_name" (" where layer_name like " ++ sql_quote ("%" ++ pkg ++ "%"))
         ("pkg_like=" ++ pkg).

Definition name_like (pkg : string) : filter_t :=
  Filter "name" (" where name like " ++ sql_quote ("%" ++ pkg ++ "%"))
         ("name_like=" ++ pkg).

Definition unfiltered : filter_t := Filter "-" EmptyString "unfiltered".

(** The entries of [filters] that carry a [where] clause: what is appended
    before the entry [unfiltered] is appended. *)
Definition named_filters (cols : list string) (target_pkg layer_hint : string)
           (layer_candidates : list string) : list filter_t :=
  let pkg := strip target_pkg in
  if str_in "layer_name" cols then
    let cands := take 10 (layer_cands layer_hint layer_candidates) in
    List.map layer_eq cands ++ List.map layer_like cands
      ++ (if nonempty pkg then [pkg_like pkg] else [])
  else if str_in "name" cols && nonempty pkg then [name_like pkg]
  else [].

(** The construction of [filters] from [cols], the target package and the
    layer candidates. *)
Definition build_filters (cols : list string) (target_pkg layer_hint : string)
           (layer_candidates : list string) : list filter_t :=
  named_filters cols target_pkg layer_hint layer_candidates ++ [unfiltered].

(** What one statistics query gives: [_tp_query] raises, the output does
    not match [(\d+)\|(\d+)\|(\d+)], or it holds count, minimum and
    maximum timestamp of the selected rows. *)
Inductive query_result : Type :=
| QRaised
| QNoMatch
| QStats (cnt min_ts max_ts : N).

(** The trace processor on the chosen table, as a function of the
    [where] clause. *)
Definition oracle : Type := string -> query_result.

(** [query_c_min_max(where_sql)]: without a [ts] column the query prints
    [count|0|0]. *)
Definition query_c_min_max (tp : oracle) (cols : list string) (w : string)
  : query_result :=
  match tp w with
  | QStats c mn mx => if str_in "ts" cols then QStats c mn mx else QStats c 0 0
  | r => r
  end.

(** The returned detail text, kept as its parts. *)
Inductive detail_t : Type :=
| DetailSpan (table human : string) (cnt : N) (span_s : Q)
    (* f"table={table} filter={human} count={cnt} spanMs={int(span_s*1000.0)}" *)
| DetailDur (table human : string) (cnt : N) (duration_ms : Z)
    (* f"table={table} filter={human} count={cnt} durMs={duration_ms}" *)
| DetailZeroCount (cnt0 : N)
    (* the message that the frame_timeline count is 0, with the
       unfiltered total [cnt0] *)
| DetailQueryFailed.
    (* the message that no frame_timeline statistics could be obtained *)

Definition Nfloat (n : N) : Q := inject_Z (Z.of_N n).

Definition ns_per_s : Q := inject_Z 1000000000.

(** [span_s] *)
Definition span_of (min_ts max_ts : N) : Q :=
  if (min_ts <? max_ts)%N && (0 <? min_ts)%N
  then ((Nfloat max_ts - Nfloat min_ts) / ns_per_s)%Q
  else 0%Q.

(** [(fps, detail)] for an accepted filter. *)
Definition accept (table : string) (f : filter_t) (cnt min_ts max_ts : N)
           (duration_ms : Z) : Q * detail_t :=
  let span_s := span_of min_ts max_ts in
  if Qgtb span_s 0
  then ((Nfloat cnt / span_s)%Q, DetailSpan table (human f) cnt span_s)
  else ((Nfloat cnt * inject_Z 1000 / Zfloat (Z.max 1 duration_ms))%Q,
        DetailDur table (human f) cnt duration_ms).

(** The state of the [for key, where_sql, human in filters] loop when it
    ends: an exception, [best], or no [best] and [unfiltered_stats]. *)
Inductive scan_result : Type :=
| ScanRaised
| ScanBest (fps : Q) (d : detail_t)
| ScanNone (unfiltered_stats : option (N * N * N)).

Fixpoint scan (tp : oracle) (cols : list string) (table : string)
         (duration_ms : Z) (fs : list filter_t)
         (unfiltered_stats : option (N * N * N)) : scan_result :=
  match fs with
  | [] => ScanNone unfiltered_stats
  | f :: rest =>
      match query_c_min_max tp cols (where_sql f) with
      | QRaised => ScanRaised
      | QNoMatch => scan tp cols table duration_ms rest unfiltered_stats
      | QStats cnt mn mx =>
          let u := if String.eqb (where_sql f) EmptyString
                   then Some (cnt, mn, mx) else unfiltered_stats in
          if (cnt <=? 0)%N then scan tp cols table duration_ms rest u
          else let '(fps, d) := accept table f cnt mn mx duration_ms in
               ScanBest fps d
      end
  end.

(** The outcome of the function: an exception, or [(fps, detail)]. *)
Inductive outcome : Type :=
| Raised
| Returned (fps : option Q) (d : detail_t).

(** [perfetto_fps_from_trace] from the point where [table] has been
    chosen and [cols] read. *)
Definition fps_from_table (tp : oracle) (table : string) (cols : list string)
           (target_pkg : string) (duration_ms : Z) (layer_hint : string)
           (layer_candidates : list string) : outcome :=
  let filters := build_filters cols target_pkg layer_hint layer_candidates in
  match scan tp cols table duration_ms filters None with
  | ScanRaised => Raised
  | ScanBest fps d => Returned (Some fps) d
  | ScanNone (Some (cnt0, _, _)) => Returned None (DetailZeroCount cnt0)
  | ScanNone None => Returned None DetailQueryFailed
  end.

(** A filter that the loop passes over: its query gives no statistics or
    a zero count. *)
Definition rejected (tp : oracle) (cols : list string) (f : filter_t) : Prop :=
  query_c_min_max tp cols (where_sql f) = QNoMatch \/
  exists mn mx, query_c_min_max tp cols (where_sql f) = QStats 0 mn mx.

End Perfetto.

(** ** The sampler loop [run_sampler_loop] *)

Module Sampler.

(** *** Per-session state *)

Record CpuState : Type := MkCpu {
  cpu_prev_ticks : option Z;
  cpu_prev_t_ms : option Z
}.

Record CpuTotalState : Type := MkCpuTotal {
  prev_total : option Z;
  prev_idle : option Z
}.

Record NetState : Type := MkNet {
  prev_rx_bytes : option Q;
  prev_tx_bytes : option Q;
  net_prev_t_ms : option Z
}.

Record GfxState : Type := MkGfx {
  gfx_prev_total : option Z;
  gfx_prev_janky : option Z;
  gfx_prev_t_ms : option Z;
  no_frame_streak : Z;
  fail_streak : Z;
  disabled : bool
}.

Record SfLatencyState : Type := MkSf {
  layer : option string;
  prev_max_present_ns : option Z;
  sf_prev_t_ms : option Z;
  last_layer_update_ms : Z;
  sf_no_frame_streak : Z;
  sf_fail_streak : Z;
  sf_disabled : bool
}.

(** The dataclass defaults. *)
Definition CpuState0 : CpuState := MkCpu None None.
Definition CpuTotalState0 : CpuTotalState := MkCpuTotal None None.
Definition NetState0 : NetState := MkNet None None None.
Definition GfxState0 : GfxState := MkGfx None None None 0 0 false.
Definition SfLatencyState0 : SfLatencyState := MkSf None None None 0 0 0 false.

(** *** The two remote paths *)

(** The path a reader or writer uses. *)
Inductive path : Type := External | RunAs.

(** [cfg_path_mode] and [metrics_path_mode]: the empty string,
    ["external"] or ["run-as"]. *)
Inductive path_mode : Type := ModeNone | Mode (p : path).

(** An exception raised by a remote command, as the handlers look at it:
    [isinstance(e, AdbError)], [_is_run_as_not_debuggable(e)],
    [_is_no_such_file(e)], [_is_permission_denied(e)]. *)
Record exn : Type := Exn {
  is_adb_error : bool;
  not_debuggable : bool;
  no_such_file : bool;
  permission_denied : bool
}.

(** The four values read from [cfg]: [bool(cfg.get("enabled"))],
    the stripped [cfg.get("targetPackage")] (the empty string when absent),
    [int(cfg.get("samplingMs") or 1000)], [cfg.get("metricKeys") or []]. *)
Record cfg_fields : Type := Cfg {
  enabled : bool;
  target_pkg : string;
  sampling_ms : Z;
  keys : list string
}.

(** The values read from [cfg = {}]: no text, or text that is not JSON. *)
Definition empty_cfg : cfg_fields := Cfg false EmptyString 1000 [].

(** What one reader does: it returns a text, here the four values read
    from it, or it raises. *)
Inductive read_result : Type :=
| ReadOk (c : cfg_fields)
| ReadRaised (e : exn).

(** [cfg_source] *)
Inductive source : Type :=
| SrcMissing | SrcExternal | SrcRunAs | SrcNotDebuggable.

Definition source_of (p : path) : source :=
  match p with External => SrcExternal | RunAs => SrcRunAs end.

(** The order [cfg_readers] (and [writers]) for a cached mode. *)
Definition order (m : path_mode) : list path :=
  match m with
  | Mode RunAs => [RunAs; External]
  | Mode External => [External; RunAs]
  | ModeNone => [External; RunAs]
  end.

(** The result of the reader loop: the values read, [cfg_source], the new
    [cfg_path_mode], and the readers that were called, in order. *)
Record read_out : Type := ReadOut {
  r_cfg : cfg_fields;
  r_source : source;
  r_mode : path_mode;
  r_probes : list path
}.

(** [for i, reader in enumerate(cfg_readers)] *)
Fixpoint try_readers (res : path -> read_result) (readers : list path)
         (mode : path_mode) : read_out :=
  match readers with
  | [] => ReadOut empty_cfg SrcMissing mode []
  | p :: rest =>
      match res p with
      | ReadOk c => ReadOut c (source_of p) (Mode p) [p]
      | ReadRaised e =>
          match rest with
          | [] =>
              ReadOut empty_cfg
                      (if is_adb_error e && not_debuggable e
                       then SrcNotDebuggable else SrcMissing)
                      mode [p]
          | _ :: _ =>
              if is_adb_error e && negb (no_such_file e || permission_denied e)
              then ReadOut empty_cfg SrcMissing mode [p]
              else
                let o := try_readers res rest mode in
                ReadOut (r_cfg o) (r_source o) (r_mode o) (p :: r_probes o)
          end
      end
  end.

Definition read_config (mode : path_mode) (res : path -> read_result)
  : read_out :=
  try_readers res (order mode) mode.

(** The result of the writer loop: [wrote], the new [metrics_path_mode],
    and the writers that were called, in order. *)
Record write_out : Type := WriteOut {
  w_wrote : bool;
  w_mode : path_mode;
  w_probes : list path
}.

(** [for i, (wmode, writer) in enumerate(writers)]; a writer returns
    ([None]) or raises ([Some e]). *)
Fixpoint try_writers (res : path -> option exn) (writers : list path)
         (mode : path_mode) : write_out :=
  match writers with
  | [] => WriteOut false mode []
  | p :: rest =>
      match res p with
      | None => WriteOut true (Mode p) [p]
      | Some e =>
          match rest with
          | [] => WriteOut false mode [p]
          | _ :: _ =>
              if is_adb_error e && negb (no_such_file e || permission_denied e)
              then WriteOut false mode [p]
              else
                let o := try_writers res rest mode in
                WriteOut (w_wrote o) (w_mode o) (p :: w_probes o)
          end
      end
  end.

Definition write_metrics (mode : path_mode) (res : path -> option exn)
  : write_out :=
  try_writers res (order mode) mode.

(** *** The last known good configuration *)

Record last_good : Type := LastGood {
  last_good_enabled : bool;
  last_good_target_pkg : string;
  last_good_sampling_ms : Z;
  last_good_keys : list string;
  cfg_read_fail_streak : Z
}.

Definition last_good0 : last_good := LastGood false EmptyString 1000 [] 0.

(** [enabled and target_pkg] *)
Definition valid (c : cfg_fields) : bool := enabled c && nonempty (target_pkg c).

(** [last_good_enabled and last_good_target_pkg] *)
Definition has_last_good (g : last_good) : bool :=
  last_good_enabled g && nonempty (last_good_target_pkg g).

(** The block that remembers or reuses the last good configuration: the
    new cache and the values of [enabled], [target_pkg], [sampling_ms],
    [keys] after it. *)
Definition resolve (g : last_good) (c : cfg_fields) : last_good * cfg_fields :=
  if valid c then
    (LastGood (enabled c) (target_pkg c) (sampling_ms c) (keys c) 0, c)
  else if has_last_good g then
    let streak := cfg_read_fail_streak g + 1 in
    if streak <=? 10 then
      (LastGood (last_good_enabled g) (last_good_target_pkg g)
                (last_good_sampling_ms g) (last_good_keys g) streak,
       Cfg (last_good_enabled g) (last_good_target_pkg g)
           (last_good_sampling_ms g) (last_good_keys g))
    else
      (LastGood false EmptyString (last_good_sampling_ms g) (last_good_keys g) 0,
       c)
  else (g, c).

(** *** Rate metrics *)

(** [max(0.0, min(100.0, pct))] *)
Definition clamp_pct (pct : Q) : Q := py_max 0 (py_min (inject_Z 100) pct).

(** The percentage computed in [_sample_pid_and_cpu] from the previous
    and the current tick count. *)
Definition cpu_pct (hz cores now_ms prev_t_ms ticks prev_ticks : Z) : Q :=
  let dt_ms := Z.max 1 (now_ms - prev_t_ms) in
  let dt_ticks := Z.max 0 (ticks - prev_ticks) in
  let cpu_sec := (Zfloat dt_ticks / Zfloat (Z.max 1 hz))%Q in
  let wall_sec := (Zfloat dt_ms / inject_Z 1000)%Q in
  let pct := (cpu_sec / (wall_sec * Zfloat cores) * inject_Z 100)%Q in
  clamp_pct pct.

(** [_sample_pid_and_cpu]: [pidof] raised ([None]) or printed a pid or
    nothing; reading and parsing [/proc/pid/stat] raised ([None]) or gave
    what [_parse_proc_stat_ticks] returns. The result is [_cpu_pct] and
    the new [cpu_state]. *)
Definition _sample_pid_and_cpu (hz cores now_ms : Z) (want_cpu want_pss : bool)
           (st : CpuState) (pidof : option (option string))
           (proc_stat : option (option Z)) : option Q * CpuState :=
  if negb (want_cpu || want_pss) then (None, st)
  else
    match pidof with
    | None => (None, st)
    | Some None => (None, st)
    | Some (Some _) =>
        if want_cpu then
          match proc_stat with
          | Some (Some ticks) =>
              (match cpu_prev_ticks st, cpu_prev_t_ms st with
               | Some pt, Some ptm => Some (cpu_pct hz cores now_ms ptm ticks pt)
               | _, _ => None
               end,
               MkCpu (Some ticks) (Some now_ms))
          | _ => (None, st)
          end
        else (None, st)
    end.

Definition sum_Z (l : list Z) : Z := fold_right Z.add 0 l.

(** [_parse_cpu_total(stat_line, prev_state)]: the line fails the tests
    on its tokens ([None]) or gives the seven integers [vals]. *)
Definition _parse_cpu_total (stat_line : option (list Z)) (st : CpuTotalState)
  : option Q * CpuTotalState :=
  match stat_line with
  | None => (None, st)
  | Some vals =>
      let total := sum_Z vals in
      let idle := nth 3 vals 0 in
      (match prev_total st, prev_idle st with
       | Some pt, Some pi =>
           let d_total := total - pt in
           let d_idle := idle - pi in
           if 0 <? d_total
           then Some (clamp_pct ((1 - Zfloat d_idle / Zfloat d_total) * inject_Z 100)%Q)
           else None
       | _, _ => None
       end,
       MkCpuTotal (Some total) (Some idle))
  end.

(** The [cpu_total_pct] part of [_sample_cpu_sys]. *)
Definition _sample_cpu_sys (want_cpu_total : bool) (st : CpuTotalState)
           (stat : option (option (list Z))) : option Q * CpuTotalState :=
  if want_cpu_total then
    match stat with
    | None => (None, st)
    | Some line => _parse_cpu_total line st
    end
  else (None, st).

(** [_sample_net]: reading [/proc/net/dev] raised ([None]) or gave the
    totals [(rx_total, tx_total)] summed by [_parse_net_stats]. The
    result is [(net_rx_kbps, net_tx_kbps)] when they are reported. *)
Definition _sample_net (now_ms : Z) (want_net : bool) (st : NetState)
           (dev : option (Z * Z)) : option (Q * Q) * NetState :=
  if want_net then
    match dev with
    | None => (None, st)
    | Some (rx_total, tx_total) =>
        if (0 <? rx_total) || (0 <? tx_total) then
          let rx_bytes := Zfloat rx_total in
          let tx_bytes := Zfloat tx_total in
          let st' := MkNet (Some rx_bytes) (Some tx_bytes) (Some now_ms) in
          match prev_rx_bytes st, net_prev_t_ms st with
          | Some prx, Some ptm =>
              match prev_tx_bytes st with
              | Some ptx =>
                  let dt_s := (Zfloat (Z.max 1 (now_ms - ptm)) / inject_Z 1000)%Q in
                  let d_rx := py_max 0 (rx_bytes - prx) in
                  let d_tx := py_max 0 (tx_bytes - ptx) in
                  (Some ((d_rx / inject_Z 1024 / dt_s * inject_Z 8)%Q,
                         (d_tx / inject_Z 1024 / dt_s * inject_Z 8)%Q), st')
              | None => (None, st)   (* TypeError, caught *)
              end
          | _, _ => (None, st')
          end
        else (None, st)
    end
  else (None, st).

(** *** The frame rate task [_sample_fps] *)

(** What [fps_bg.read_latest()] returns, without the detail. *)
Definition latest : Type := (option Q * Z)%type.

(** [pfps is not None and pfps >= 0 and pfps_at > last_fps_bg_at_ms],
    and then [max(0.0, pfps)]. *)
Definition fresh (r : latest) (last_at : Z) : option Q :=
  match r with
  | (Some pfps, pfps_at) =>
      if Qle_bool 0 pfps && (last_at <? pfps_at) then Some (py_max 0 pfps)
      else None
  | (None, _) => None
  end.

(** [pfps is not None and pfps >= 0], and then [max(0.0, pfps)]. *)
Definition stale (r : latest) : option Q :=
  match r with
  | (Some pfps, _) => if Qle_bool 0 pfps then Some (py_max 0 pfps) else None
  | (None, _) => None
  end.

(** Up to [n] calls of [read_latest], the first being call number [i] of
    the cycle, until one is fresh: the value returned, the number of the
    next call, and the last answer seen. *)
Fixpoint wait_fresh (read : nat -> latest) (last_at : Z) (i n : nat)
         (seen : latest) : option Q * nat * latest :=
  match n with
  | O => (None, i, seen)
  | S n' =>
      match fresh (read i) last_at with
      | Some v => (Some v, S i, read i)
      | None => wait_fresh read last_at (S i) n' (read i)
      end
  end.

Arguments wait_fresh : simpl never.

(** What [dumpsys gfxinfo] gives in one cycle: [run_adb] raised
    ([None]), or the pair [(total, janky)] of [_parse_gfx_totals]. *)
Definition gfx_result : Type := option (option Z * option Z).

Definition bump_fail (g : GfxState) : GfxState :=
  MkGfx (gfx_prev_total g) (gfx_prev_janky g) (gfx_prev_t_ms g)
        (no_frame_streak g) (fail_streak g + 1) (disabled g).

(** The body of [if not gfx_state.disabled:] up to, and without, the
    test that disables the counter. *)
Definition gfx_try (g : GfxState) (now_ms : Z) (r : gfx_result)
  : GfxState * option Q :=
  match r with
  | None => (bump_fail g, None)
  | Some (None, _) => (bump_fail g, None)
  | Some (Some total, janky) =>
      match gfx_prev_total g, gfx_prev_t_ms g with
      | Some pt, Some ptm =>
          let dt_ms := Z.max 1 (now_ms - ptm) in
          let d_total := Z.max 0 (total - pt) in
          if 0 <? d_total then
            (MkGfx (Some total) janky (Some now_ms) 0 0 (disabled g),
             Some (py_max 0 (Zfloat d_total * inject_Z 1000 / Zfloat dt_ms)%Q))
          else
            (MkGfx (Some total) janky (Some now_ms)
                   (no_frame_streak g + 1) (fail_streak g + 1) (disabled g),
             None)
      | _, _ =>
          (MkGfx (Some total) janky (Some now_ms)
                 (no_frame_streak g) (fail_streak g) (disabled g),
           None)
      end
  end.

(** [if gfx_state.fail_streak >= 3 and not gfx_state.disabled] *)
Definition gfx_disable (g : GfxState) : GfxState :=
  if (3 <=? fail_streak g) && negb (disabled g)
  then MkGfx (gfx_prev_total g) (gfx_prev_janky g) (gfx_prev_t_ms g)
             (no_frame_streak g) (fail_streak g) true
  else g.

(** The result of [_sample_fps]: the value returned, the new
    [gfx_state], whether [dumpsys gfxinfo] was run, and the number of
    calls of [read_latest]. *)
Record fps_out : Type := FpsOut {
  f_value : option Q;
  f_gfx : GfxState;
  f_gfx_called : bool;
  f_reads : nat
}.

Definition _sample_fps (now_ms : Z) (want_fps fps_bg_producing : bool)
           (last_fps_bg_at_ms : Z) (g : GfxState) (gfxinfo : gfx_result)
           (read : nat -> latest) : fps_out :=
  if negb want_fps then FpsOut None g false 0
  else if fps_bg_producing then
    match wait_fresh read last_fps_bg_at_ms 0 7 (None, 0) with
    | (Some v, n, _) => FpsOut (Some v) g false n
    | (None, n, seen) => FpsOut (stale seen) g false n
    end
  else
    let '(g1, fps_val, called) :=
      if disabled g then (g, None, false)
      else let '(g', v) := gfx_try g now_ms gfxinfo in (gfx_disable g', v, true) in
    match fps_val with
    | Some v => FpsOut (Some v) g1 called 0
    | None =>
        let '(v, n, _) := wait_fresh read last_fps_bg_at_ms 0 11 (None, 0) in
        FpsOut v g1 called n
    end.

(** *** One iteration of the [while True] loop *)

(** The state that lives across iterations. *)
Record state : Type := State {
  cpu_state : CpuState;
  cpu_total_state : CpuTotalState;
  net_state : NetState;
  gfx_state : GfxState;
  sf_state : SfLatencyState;
  last_fps_bg_at_ms : Z;
  fps_bg_producing : bool;
  good : last_good;
  cfg_path_mode : path_mode;
  metrics_path_mode : path_mode
}.

(** The state before the first iteration. *)
Definition init : state :=
  State CpuState0 CpuTotalState0 NetState0 GfxState0 SfLatencyState0
        0 false last_good0 ModeNone ModeNone.

(** The inputs of one iteration: what each remote command gives, the
    clock, and what the background worker shows. *)
Record inputs : Type := Inputs {
  cfg_read : path -> read_result;
  now_ms : Z;
  pidof : option (option string);
  proc_stat : option (option Z);
  stat_line : option (option (list Z));
  net_dev : option (Z * Z);
  gfxinfo : gfx_result;
  bg_sample_count : Z;
  bg_read : nat -> latest;
  metrics_write : path -> option exn
}.

Inductive phase : Type := Idle | Sampling.

(** What one iteration does that is seen from outside: whether it
    sampled, for which package, the metrics it put in [values],
    the readers and writers it called, [wrote], and whether it ran
    [dumpsys gfxinfo]. *)
Record outputs : Type := Outputs {
  o_phase : phase;
  o_pkg : string;
  o_values : gmap string Q;
  o_cfg_probes : list path;
  o_write_probes : list path;
  o_wrote : bool;
  o_gfx_called : bool
}.

(** [values[k] = v] when [v is not None] *)
Definition put (k : string) (v : option Q) (m : gmap string Q) : gmap string Q :=
  match v with Some x => <[k := x]> m | None => m end.

(** One iteration of the loop, for the constants [hz] and [cores] read
    before it. The tasks of the pool touch disjoint parts of the state
    and are run here one after the other. The metrics that need no
    state (memory, battery, core frequencies) and the calls of
    [fps_bg.configure], which only write the worker's configuration, are
    left out. *)
Definition cycle (hz cores : Z) (s : state) (i : inputs) : state * outputs :=
  let rd := read_config (cfg_path_mode s) (cfg_read i) in
  let '(good', c) := resolve (good s) (r_cfg rd) in
  if negb (enabled c) || negb (nonempty (target_pkg c)) then
    (State (cpu_state s) CpuTotalState0 NetState0 GfxState0 SfLatencyState0
           0 false good' (r_mode rd) (metrics_path_mode s),
     Outputs Idle (target_pkg c) ∅ (r_probes rd) [] false false)
  else
    let want := keys c in
    let want_cpu := str_in "cpu_fg_app_pct" want in
    let want_pss := str_in "app_pss_mb" want in
    let want_fps := str_in "fps_app" want in
    let want_cpu_total := str_in "cpu_total_pct" want in
    let want_net := str_in "net_rx_kbps" want || str_in "net_tx_kbps" want in
    let producing :=
      if negb (fps_bg_producing s) && (2 <=? bg_sample_count i) then true
      else fps_bg_producing s in
    let '(cpu_val, cpu') :=
      _sample_pid_and_cpu hz cores (now_ms i) want_cpu want_pss (cpu_state s)
                          (pidof i) (proc_stat i) in
    let f := _sample_fps (now_ms i) want_fps producing (last_fps_bg_at_ms s)
                         (gfx_state s) (gfxinfo i) (bg_read i) in
    let '(tot_val, tot') :=
      _sample_cpu_sys want_cpu_total (cpu_total_state s) (stat_line i) in
    let '(net_val, net') := _sample_net (now_ms i) want_net (net_state s) (net_dev i) in
    let last_at :=
      match f_value f with
      | Some fps_val =>
          if Qle_bool 0 fps_val then
            match bg_read i (f_reads f) with
            | (Some pfps, pfps_at) =>
                if Qeq_bool pfps fps_val && (last_fps_bg_at_ms s <? pfps_at)
                then pfps_at else last_fps_bg_at_ms s
            | (None, _) => last_fps_bg_at_ms s
            end
          else last_fps_bg_at_ms s
      | None => last_fps_bg_at_ms s
      end in
    let values :=
      put "net_tx_kbps" (option_map snd net_val)
        (put "net_rx_kbps" (option_map fst net_val)
           (put "cpu_total_pct" tot_val
              (put "fps_app" (f_value f)
                 (put "cpu_fg_app_pct" cpu_val ∅)))) in
    let wr := write_metrics (metrics_path_mode s) (metrics_write i) in
    (State cpu' tot' net' (f_gfx f) (sf_state s) last_at producing good'
           (r_mode rd) (w_mode wr),
     Outputs Sampling (target_pkg c) values (r_probes rd) (w_probes wr)
             (w_wrote wr) (f_gfx_called f)).

(** An iteration in which no reader gives a configuration that enables
    monitoring of a package: each one raises, or what it reads is empty,
    is not JSON, is disabled or names no package. *)
Definition no_valid_cfg (i : inputs) : Prop :=
  forall p, match cfg_read i p with
            | ReadOk c => valid c = false
            | ReadRaised _ => True
            end.

(** What [dumpsys gfxinfo] gives counts as a failure of the legacy counter:
    the command raised, no total was found, or the total did not grow
    since the previous sample. *)
Definition gfx_failure (g : GfxState) (r : gfx_result) : bool :=
  match r with
  | None => true
  | Some (None, _) => true
  | Some (Some total, _) =>
      match gfx_prev_total g, gfx_prev_t_ms g with
      | Some pt, Some _ => negb (0 <? Z.max 0 (total - pt))
      | _, _ => false
      end
  end.

(** The loop over a list of inputs: the final state and what each
    iteration did. *)
Fixpoint run (hz cores : Z) (s : state) (l : list inputs)
  : state * list outputs :=
  match l with
  | [] => (s, [])
  | i :: rest =>
      let '(s1, o) := cycle hz cores s i in
      let '(s2, os) := run hz cores s1 rest in
      (s2, o :: os)
  end.

End Sampler.

(** ** Layer-name candidates: [sf_latency_candidates] *)

Module Candidates.

(** [sf_latency_candidates(layer, target_pkg)]. Its inner function [add] is
    [Perfetto.add_cand]. The two regular expressions are applied to
    [base], the stripped layer: [prefix] is [m.group(1)], the leading
    [SurfaceView[...]] when the match succeeds, and [inner] is
    [m2.group(1)], the text between the brackets when the search
    succeeds. *)
Definition sf_latency_candidates (layer target_pkg : string)
           (prefix inner : option string) : list string :=
  let base := Perfetto.strip layer in
  let c1 := Perfetto.add_cand [] base in
  let c2 := match prefix with
            | Some g => Perfetto.add_cand c1 g
            | None => c1
            end in
  let c3 := match inner with
            | Some g =>
                let wa := Perfetto.strip g in
                Perfetto.add_cand
                  (Perfetto.add_cand (Perfetto.add_cand c2 wa)
                                     ("SurfaceView - " ++ wa ++ "#0"))
                  ("SurfaceView - " ++ wa)
            | None => c2
            end in
  take 8 (Perfetto.add_cand c3 target_pkg).

(** The candidates that [run_sampler_loop] hands to the worker:
    [sf_latency_candidates(layer_hint, target_pkg) if layer_hint else
    [target_pkg]]. *)
Definition loop_candidates (layer_hint target_pkg : string)
           (prefix inner : option string) : list string :=
  if nonempty layer_hint
  then sf_latency_candidates layer_hint target_pkg prefix inner
  else [target_pkg].

End Candidates.

(** ** The marker scan [_ftrace_slice_fps] and [perfetto_fps_from_trace] *)

Module Ftrace.

(** The list [frame_markers]. *)
Definition frame_markers : list string :=
  ["Choreographer#doFrame"; "DrawFrame"; "doFrame"; "queueBuffer";
   "HIDL::IComposerClient::executeCommands_2_2"]%string.

(** The query for the [slice] table: it raises, or its output holds a
    first line of digits [count_val] or none. *)
Inductive check_result : Type :=
| CheckRaised
| CheckCount (count_val : option N).

(** The statistics query for one marker: it raises, its output does not
    match, or it gives count, minimum and maximum timestamp. *)
Inductive marker_result : Type :=
| MRaised
| MNoMatch
| MStats (cnt min_ts max_ts : N).

(** The detail text returned, kept as its parts. *)
Inductive detail_t : Type :=
| DetailNoSlice
    (* the message that the slice table does not exist *)
| DetailSliceFailed
    (* the message that the slice table query failed *)
| DetailNoMarker
    (* the message that the slice table holds no known frame marker *)
| DetailMarker (marker : string) (cnt : N) (span_s : Q).
    (* f"ftrace_slice marker={marker} count={cnt} spanS={span_s:.2f}" *)

(** [span_s] *)
Definition span_of (min_ts max_ts : N) : Q :=
  if (min_ts <? max_ts)%N
  then ((Perfetto.Nfloat max_ts - Perfetto.Nfloat min_ts) / Perfetto.ns_per_s)%Q
  else 0%Q.

(** [fps] for a marker with more than one event *)
Definition marker_fps (cnt : N) (span_s : Q) (duration_ms : Z) : Q :=
  if Qgtb span_s 0
  then (Perfetto.Nfloat cnt / span_s)%Q
  else (Perfetto.Nfloat cnt * inject_Z 1000 / Zfloat (Z.max 1 duration_ms))%Q.

(** The loop [for marker in frame_markers]; an exception in its body is
    caught and the loop goes on. *)
Fixpoint scan_markers (q : string -> marker_result) (duration_ms : Z)
         (markers : list string) : option Q * detail_t :=
  match markers with
  | [] => (None, DetailNoMarker)
  | marker :: rest =>
      match q marker with
      | MRaised => scan_markers q duration_ms rest
      | MNoMatch => scan_markers q duration_ms rest
      | MStats cnt mn mx =>
          if (cnt <=? 1)%N then scan_markers q duration_ms rest
          else (Some (marker_fps cnt (span_of mn mx) duration_ms),
                DetailMarker marker cnt (span_of mn mx))
      end
  end.

(** A marker that the loop passes over: its query raises, its output does
    not match, or it counts at most one event. *)
Definition skipped (q : string -> marker_result) (marker : string) : Prop :=
  match q marker with
  | MRaised | MNoMatch => True
  | MStats cnt _ _ => (cnt <= 1)%N
  end.

(** [_ftrace_slice_fps(tp_query, target_pkg, duration_ms)] *)
Definition _ftrace_slice_fps (check : check_result) (q : string -> marker_result)
           (duration_ms : Z) : option Q * detail_t :=
  match check with
  | CheckRaised => (None, DetailSliceFailed)
  | CheckCount (Some 0%N) => (None, DetailNoSlice)
  | CheckCount _ => scan_markers q duration_ms frame_markers
  end.

(** The list [prefer]. *)
Definition prefer : list string :=
  ["actual_frame_timeline_slice"; "frame_timeline_slice";
   "android_frame_timeline_slice"; "expected_frame_timeline_slice"]%string.

(** [next((t for t in prefer if t in tables), tables[0])] for a list of
    tables that is not empty. *)
Definition choose_table (t0 : string) (ts : list string) : string :=
  match List.find (fun t => str_in t (t0 :: ts)) prefer with
  | Some t => t
  | None => t0
  end.

(** A pulled trace as the function sees it: whether the file exists, the
    cleaned names of the frame-timeline tables ([None]: the query raised),
    the answers of the slice table, and for each table its columns
    ([None]: the query raised) and its statistics. *)
Record trace : Type := Trace {
  file_exists : bool;
  tables : option (list string);
  slice_check : check_result;
  marker_query : string -> marker_result;
  table_cols : string -> option (list string);
  table_stats : string -> Perfetto.oracle
}.

(** The detail of [perfetto_fps_from_trace]. *)
Inductive detail : Type :=
| TraceMissing
    (* the message that the trace file does not exist *)
| NoTimeline
    (* the message that no frame_timeline table was found *)
| FromMarkers (d : detail_t)
| FromTable (d : Perfetto.detail_t).

Inductive outcome : Type :=
| Raised
| Returned (fps : option Q) (d : detail).

(** [perfetto_fps_from_trace(trace_processor, trace_path, target_pkg,
    duration_ms, layer_hint=..., layer_candidates=...)] *)
Definition perfetto_fps_from_trace (tr : trace) (target_pkg : string)
           (duration_ms : Z) (layer_hint : string)
           (layer_candidates : list string) : outcome :=
  if negb (file_exists tr) then Returned None TraceMissing
  else
    match tables tr with
    | None => Raised
    | Some [] =>
        match _ftrace_slice_fps (slice_check tr) (marker_query tr) duration_ms with
        | (Some fps, d) => Returned (Some fps) (FromMarkers d)
        | (None, _) => Returned None NoTimeline
        end
    | Some (t0 :: ts) =>
        let table := choose_table t0 ts in
        match table_cols tr table with
        | None => Raised
        | Some cols =>
            match Perfetto.fps_from_table (table_stats tr table) table cols
                                          target_pkg duration_ms layer_hint
                                          layer_candidates with
            | Perfetto.Raised => Raised
            | Perfetto.Returned fps d => Returned fps (FromTable d)
            end
        end
    end.

End Ftrace.

(** ** The trace capture [perfetto_capture_frame_timeline] *)

Module Capture.

(** The two entries of [cmds]: [perfetto ...] and [cmd perfetto ...]. *)
Inductive cmd : Type := PerfettoCmd | CmdPerfettoCmd.

(** The remote commands of one capture, without the best-effort removal
    of old files and start of the daemon, which never raise: a capture
    into [remote_out], a capture into the fallback location, the copy of
    the fallback file and the link to it. *)
Inductive step : Type :=
| RunPrimary (c : cmd)
| RunAlt (c : cmd)
| Copy
| Link.

(** What the device answers to each of them: nothing or an exception, of
    which the code looks at [_is_permission_denied] and
    [_is_no_such_file]. *)
Record device : Type := Device {
  primary : cmd -> option Sampler.exn;
  alt : cmd -> option Sampler.exn;
  cp : option Sampler.exn;
  ln : option Sampler.exn
}.

(** [dur] *)
Definition dur (duration_ms : Z) : Z := Z.max 800 duration_ms.

(** [file_write_period_ms] *)
Definition file_write_period_ms (duration_ms : Z) : Z :=
  Z.max 500 (dur duration_ms / 2).

(** The loop [for c in cmds]: whether the function returns ([true]) or
    raises [RuntimeError] ([false]), and the commands it ran. *)
Fixpoint try_cmds (dev : device) (cmds : list cmd) : bool * list step :=
  match cmds with
  | [] => (false, [])
  | c :: rest =>
      match primary dev c with
      | None => (true, [RunPrimary c])
      | Some e =>
          if Sampler.permission_denied e then
            match alt dev c with
            | None =>
                (true,
                 [RunPrimary c; RunAlt c; Copy]
                   ++ match cp dev with None => [] | Some _ => [Link] end)
            | Some _ => (false, [RunPrimary c; RunAlt c])
            end
          else if negb (Sampler.no_such_file e) then (false, [RunPrimary c])
          else
            let r := try_cmds dev rest in
            (fst r, RunPrimary c :: snd r)
      end
  end.

(** [perfetto_capture_frame_timeline(adb, serial, remote_out,
    duration_ms)] *)
Definition perfetto_capture_frame_timeline (dev : device) : bool * list step :=
  try_cmds dev [PerfettoCmd; CmdPerfettoCmd].

Definition is_capture (s : step) : bool :=
  match s with RunPrimary _ | RunAlt _ => true | _ => false end.

End Capture.

(** ** One offline attempt: [_perfetto_once] *)

Module Once.

(** What the search for the trace processor gives when [self._tp] is not
    set ([resolve_trace_processor_shell], then
    [ensure_trace_processor_shell_installed]): an exception, nothing, or a
    path. *)
Inductive lookup : Type := LookupRaised | LookupNone | LookupFound.

(** The inputs of one call: the search, the answers of the device to the
    capture, the exception of [adb pull] if it raises, and the pulled
    trace as the analysis sees it. *)
Record attempt : Type := Attempt {
  tp_lookup : lookup;
  dev : Capture.device;
  pull : option Sampler.exn;
  pulled : Ftrace.trace
}.

(** [dur_ms] *)
Definition dur_ms : Z := 1500.

(** The detail returned, kept as its parts. *)
Inductive detail : Type :=
| NoProcessor
    (* the message that the trace processor is not available *)
| Analysed (d : Ftrace.detail).

Inductive outcome : Type :=
| Raised
| Returned (fps : option Q) (d : detail).

(** [_perfetto_once()]. [tp_set] tells whether [self._tp] holds a path;
    the first component of the result is its value after the call. *)
Definition _perfetto_once (tp_set : bool) (c : Worker.conf) (a : attempt)
  : bool * outcome :=
  let found :=
    if tp_set then Some true
    else match tp_lookup a with
         | LookupRaised => None
         | LookupNone => Some false
         | LookupFound => Some true
         end in
  match found with
  | None => (tp_set, Raised)
  | Some false => (false, Returned None NoProcessor)
  | Some true =>
      (true,
       if fst (Capture.perfetto_capture_frame_timeline (dev a)) then
         match pull a with
         | Some _ => Raised
         | None =>
             match Ftrace.perfetto_fps_from_trace
                     (pulled a) (Worker._target_pkg c) dur_ms
                     (Worker._layer_hint c) (Worker._layer_candidates c) with
             | Ftrace.Raised => Raised
             | Ftrace.Returned fps d => Returned fps (Analysed d)
             end
         end
       else Raised)
  end.

(** What [_loop_perfetto] gets from the call, for a rendering [render] of
    the detail as text. *)
Definition offline_res (render : detail -> string) (o : outcome)
  : Worker.offline_result :=
  match o with
  | Raised => Worker.OfflineRaised
  | Returned fps d => Worker.OfflineReturned fps (render d)
  end.

End Once.

(** ** The default device: [pick_default_serial] *)

Module Devices.

(** A line of [adb devices -l] that matches [_DEVICE_LINE_RE]: the group
    [serial] and the state, the first token of the group [rest]. *)
Record device_line : Type := Line {
  serial : string;
  state : string
}.

(** [is_supported_serial(serial)] *)
Definition is_supported_serial (serial : string) : bool :=
  nonempty (Perfetto.strip serial).

Inductive outcome : Type :=
| AdbRaised
    (* [run_adb] raised *)
| NoDevice
    (* the error that no device is in the state [device] *)
| NoSupportedDevice
    (* the error that none of the devices is usable *)
| Picked (serial : string).

(** [pick_default_serial(adb)], from the matching lines of the output of
    [adb devices -l], or [None] when the command raises. *)
Definition pick_default_serial (out : option (list device_line)) : outcome :=
  match out with
  | None => AdbRaised
  | Some serials =>
      let devices :=
        List.map serial
                 (List.filter (fun l => String.eqb (state l) "device") serials) in
      match devices with
      | [] => NoDevice
      | _ :: _ =>
          match List.filter is_supported_serial devices with
          | [] => NoSupportedDevice
          | s :: _ => Picked s
          end
      end
  end.

(** The strings that the pattern [\S+] matches as a whole: not empty and
    without a white-space character. *)
Fixpoint no_space (s : string) : bool :=
  match s with
  | EmptyString => true
  | String a r => negb (Perfetto.is_space a) && no_space r
  end.

Definition non_space_text (s : string) : Prop :=
  nonempty s = true /\ no_space s = true.

End Devices.

(** ** Quoting for the shell: [sh_double_quote], [sh_single_quote] *)

Module Quote.

(** The characters backslash, double quote, dollar, backquote and single
    quote. *)
Definition backslash : Ascii.ascii := "092"%char.
Definition dquote : Ascii.ascii := "034"%char.
Definition dollar : Ascii.ascii := "$"%char.
Definition backquote : Ascii.ascii := "`"%char.
Definition squote : Ascii.ascii := "'"%char.

(** [s.replace(c, rep)] for a pattern [c] of one character *)
Fixpoint replace_char (c : Ascii.ascii) (rep : string) (s : string) : string :=
  match s with
  | EmptyString => EmptyString
  | String a r =>
      if Ascii.eqb a c then (rep ++ replace_char c rep r)%string
      else String a (replace_char c rep r)
  end.

Definition escaped (c : Ascii.ascii) : string := String backslash (String c EmptyString).

(** [sh_double_quote(s)] *)
Definition sh_double_quote (s : string) : string :=
  String dquote
         (replace_char backquote (escaped backquote)
            (replace_char dollar (escaped dollar)
               (replace_char dquote (escaped dquote)
                  (replace_char backslash (escaped backslash) s)))
          ++ String dquote EmptyString)%string.

(** [sh_single_quote(s)]: a single quote becomes the four characters
    quote, backslash, quote, quote. *)
Definition sh_single_quote (s : string) : string :=
  String squote
         (replace_char squote
                       (String squote (String backslash
                          (String squote (String squote EmptyString)))) s
          ++ String squote EmptyString)%string.

(** The characters that [sh_double_quote] escapes. *)
Definition special (a : Ascii.ascii) : bool :=
  Ascii.eqb a backslash || Ascii.eqb a dquote || Ascii.eqb a dollar
  || Ascii.eqb a backquote.

(** Escaping in one pass: a backslash before every special character. *)
Fixpoint escape (s : string) : string :=
  match s with
  | EmptyString => EmptyString
  | String a r =>
      if special a then String backslash (String a (escape r))
      else String a (escape r)
  end.

End Quote.

(** ** Invariants of the two loops *)

Module Invariants.

(** What every state of the background worker satisfies once its loop
    has started: the counter of quiet iterations is not negative and below
    10 while streaming, the sample count and the consumed boundary are not
    negative, a published FPS is not negative, and atrace only runs in the
    streaming mode. *)
Definition worker_ok (w : Worker.worker) : Prop :=
  0 <= Worker.consecutive_empty w /\
  (Worker._mode w = Worker.ModeAtrace -> Worker.consecutive_empty w < 10) /\
  0 <= Worker.sample_count w /\
  (forall f, Worker._latest_fps (Worker.shared w) = Some f -> (0 <= f)%Q) /\
  (0 <= Worker.last_max_ts w)%Q /\
  (Worker.atrace_running w = true -> Worker._mode w = Worker.ModeAtrace).

(** An iteration of the streaming loop that publishes a value. *)
Definition publishes (w : Worker.worker) (t : Worker.tick) : Prop :=
  Worker._mode w = Worker.ModeAtrace /\ Worker.active w = true /\
  exists n, Worker.frames_of (Worker.last_max_ts w) t = Some (S n).

(** What happens to the worker: the sampler calls [configure], the thread
    enters [_loop] and starts atrace with or without success, the loop
    makes one iteration. *)
Inductive worker_event : Type :=
| DoConfigure (c : Worker.conf)
| DoStart (atrace_ok : bool)
| DoTick (t : Worker.tick).

Definition worker_apply (w : Worker.worker) (e : worker_event) : Worker.worker :=
  match e with
  | DoConfigure c => Worker.configure w c
  | DoStart atrace_ok => Worker.start w atrace_ok
  | DoTick t => Worker.iter w t
  end.

Definition worker_trace (w : Worker.worker) (es : list worker_event)
  : Worker.worker :=
  fold_left worker_apply es w.

(** What every state of the sampler loop satisfies about the cached
    configuration: the failure streak is between 0 and 10, it is 0 when no
    configuration is cached, and a cached configuration names a package. *)
Definition good_ok (g : Sampler.last_good) : Prop :=
  0 <= Sampler.cfg_read_fail_streak g <= 10 /\
  (Sampler.has_last_good g = false -> Sampler.cfg_read_fail_streak g = 0) /\
  (Sampler.last_good_enabled g = true ->
   nonempty (Sampler.last_good_target_pkg g) = true).

(** The configuration a cycle works with: what it read, or the cached
    one. *)
Definition effective (s : Sampler.state) (i : Sampler.inputs) : Sampler.cfg_fields :=
  snd (Sampler.resolve
         (Sampler.good s)
         (Sampler.r_cfg (Sampler.read_config (Sampler.cfg_path_mode s)
                                             (Sampler.cfg_read i)))).

End Invariants.

(** ** Concrete inputs used by the examples *)

Module Examples.
Import FrameEvents.

(** A worker configured for package [x] whose [_atrace_start] succeeded. *)
Definition streaming_worker : Worker.worker :=
  Worker.start
    (Worker.configure Worker.init (Worker.Conf "x" EmptyString ["x"%string] 1000 true))
    true.

(** [float(text)] for a timestamp written with six decimals, given in
    microseconds. *)
Definition stamp (micros : Z) : Q :=
  Float64.round (Qmake micros 1000000).

(** A dump with four buffer swaps at 1.000000, 1.001000, 1.020000 and
    1.500000. *)
Definition four_swaps : dump :=
  Dump [MarkMatch (stamp 1000000) "queueBuffer";
        MarkMatch (stamp 1500000) "eglSwapBuffers";
        MarkMatch (stamp 1001000) "queueBuffer";
        MarkMatch (stamp 1020000) "queueBuffer"] [].

(** Dumps with two buffer swaps, written 2ms apart and 50ms apart. *)
Definition two_ms_swaps : dump :=
  Dump [MarkMatch (stamp 1000000) "queueBuffer";
        MarkMatch (stamp 1002000) "queueBuffer"] [].

Definition fifty_ms_swaps : dump :=
  Dump [MarkMatch (stamp 1000000) "queueBuffer";
        MarkMatch (stamp 1050000) "queueBuffer"] [].

(** A dump with a single composition event at 2.000s. *)
Definition one_vsync : dump := Dump [] [stamp 2000000].

(** Iterations of the worker: the read of the buffer fails, the buffer
    holds nothing, the buffer holds the four swaps. *)
Definition failed_tick : Worker.tick :=
  Worker.Tick Worker.DumpRaised Worker.OfflineRaised 5000.

Definition empty_tick : Worker.tick :=
  Worker.Tick (Worker.DumpText (Dump [] [])) Worker.OfflineRaised 5000.

Definition swaps_tick : Worker.tick :=
  Worker.Tick (Worker.DumpText four_swaps) Worker.OfflineRaised 5000.

(** A worker configured for package [x] whose [_atrace_start] failed, and
    an iteration in which the offline analysis returns no FPS value. *)
Definition offline_worker : Worker.worker :=
  Worker.start
    (Worker.configure Worker.init (Worker.Conf "x" EmptyString ["x"%string] 1000 true))
    false.


(** An iteration of the worker whose snapshot holds the composition event
    at 2.000s, and a streaming worker that has published twice. *)
Definition vsync_tick : Worker.tick :=
  Worker.Tick (Worker.DumpText one_vsync) Worker.OfflineRaised 6000.

Definition producing_worker : Worker.worker :=
  Worker.run streaming_worker [swaps_tick; vsync_tick].

(** A frame-timeline table with a [layer_name] column. *)
Definition timeline_cols : list string :=
  ["id"; "ts"; "dur"; "layer_name"; "upid"]%string.

(** A trace with counts exact: 0, like: 12, unfiltered: 40 for the layer
    candidate [SurfaceView[pkg]#0], the rows spread over one second. *)
Definition like_trace : Perfetto.oracle := fun w =>
  if String.eqb w " where layer_name = 'SurfaceView[pkg]#0'"
  then Perfetto.QStats 0 0 0
  else if String.eqb w " where layer_name like '%SurfaceView[pkg]#0%'"
  then Perfetto.QStats 12 1000000000 2000000000
  else if String.eqb w EmptyString
  then Perfetto.QStats 40 1000000000 2000000000
  else Perfetto.QStats 0 0 0.

(** A trace in which no layer name matches and the table holds 40 rows
    spread over one second. *)
Definition other_layers_trace : Perfetto.oracle := fun w =>
  if String.eqb w EmptyString
  then Perfetto.QStats 40 1000000000 2000000000
  else Perfetto.QStats 0 0 0.

(** A trace whose table is empty. *)
Definition empty_trace : Perfetto.oracle := fun _ => Perfetto.QStats 0 0 0.

(** A trace in which 12 rows, spread over one second, have a layer name
    that contains [pkg], none has the layer name [pkg], and the table
    holds 40 rows. *)
Definition pkg_trace : Perfetto.oracle := fun w =>
  if String.eqb w " where layer_name like '%pkg%'"
  then Perfetto.QStats 12 1000000000 2000000000
  else if String.eqb w EmptyString
  then Perfetto.QStats 40 1000000000 2000000000
  else Perfetto.QStats 0 0 0.

(** A device on which every command of the capture succeeds. *)
Definition willing_device : Capture.device :=
  Capture.Device (fun _ => None) (fun _ => None) None None.

(** A pulled trace whose only frame-timeline table holds the 40 rows of
    [other_layers_trace]. *)
Definition pulled_trace : Ftrace.trace :=
  Ftrace.Trace true (Some ["actual_frame_timeline_slice"%string])
               Ftrace.CheckRaised (fun _ => Ftrace.MRaised)
               (fun _ => Some timeline_cols) (fun _ => other_layers_trace).

(** An offline attempt in which the trace processor is found, the capture
    and the pull succeed, and the pulled trace is [pulled_trace]. *)
Definition good_attempt : Once.attempt :=
  Once.Attempt Once.LookupFound willing_device None pulled_trace.

(** Two lines of [adb devices -l]: an emulator that is offline and a
    phone. *)
Definition device_lines : list Devices.device_line :=
  [Devices.Line "emulator-5554" "offline"; Devices.Line "R58M12345" "device"].

(** A configuration that enables monitoring of package [x]. *)
Definition wanted : list string :=
  ["cpu_fg_app_pct"; "fps_app"; "cpu_total_pct"; "net_rx_kbps"]%string.

Definition cfg_x : Sampler.cfg_fields := Sampler.Cfg true "x" 1000 wanted.

(** The error of a remote command that timed out. *)
Definition adb_timeout : Sampler.exn := Sampler.Exn true false false false.




(** A background worker that has published nothing. *)
Definition no_latest : nat -> Sampler.latest := fun _ => (None, 0).

(** An iteration at time [now] with the device answering: the
    configuration is read, the process has used [ticks] ticks, the
    aggregate counters, the byte counters and the frame counter have grown
    with it, and the metrics are written. *)
Definition sample_at (now ticks : Z) : Sampler.inputs :=
  Sampler.Inputs (fun _ => Sampler.ReadOk cfg_x) now
                 (Some (Some "4242"%string)) (Some (Some ticks))
                 (Some (Some [ticks; 0; 50; 800 + ticks; 0; 0; 50]))
                 (Some (ticks * 1000, ticks * 10))
                 (Some (Some ticks, Some 0))
                 0 no_latest (fun _ => None).

(** The same iteration when the background worker is in state [w] for
    the whole cycle. *)
Definition sample_seeing (w : Worker.worker) (now ticks : Z) : Sampler.inputs :=
  Sampler.Inputs (fun _ => Sampler.ReadOk cfg_x) now
                 (Some (Some "4242"%string)) (Some (Some ticks))
                 (Some (Some [ticks; 0; 50; 800 + ticks; 0; 0; 50]))
                 (Some (ticks * 1000, ticks * 10))
                 (Some (Some ticks, Some 0))
                 (Worker.sample_count w) (fun _ => fst (Worker.read_latest w))
                 (fun _ => None).

(** An iteration at time [now] with the device not answering: every
    remote command times out. *)
Definition unreachable_at (now : Z) : Sampler.inputs :=
  Sampler.Inputs (fun _ => Sampler.ReadRaised adb_timeout) now
                 None None None None None
                 0 no_latest (fun _ => Some adb_timeout).

(** A session: one sample, then [n] iterations without an answer, one
    every two seconds. *)
Definition outage (n : nat) : list Sampler.inputs :=
  sample_at 1000 100
    :: List.map (fun k => unreachable_at (1000 + 2000 * Z.of_nat k)) (seq 1 n).

(** The same session followed by a sample after the device is back. *)
Definition outage_and_back (n : nat) : list Sampler.inputs :=
  outage n ++ [sample_at 60000 150].

End Examples.

(** ** Proof steps shared by the properties of the sampler loop *)

(** Case analysis on one iteration: idle or sampling, and the results of
    the tasks. *)
Ltac cycle_cases :=
  unfold Sampler.cycle;
  match goal with
  | |- context [Sampler.resolve ?g ?c] => destruct (Sampler.resolve g c) as [? ?] eqn:?
  end;
  match goal with
  | |- context [if ?b then _ else _] => destruct b eqn:?
  end;
  [ | repeat match goal with
             | |- context [let '(_, _) := ?e in _] => destruct e as [? ?] eqn:?
             end ];
  simpl.

(** Case analysis on every test that is left in the goal or in a
    hypothesis. *)
Ltac split_ifs :=
  repeat match goal with
         | H : context [if ?b then _ else _] |- _ => destruct b
         | |- context [if ?b then _ else _] => destruct b
         end.

(** The four parts of a statement about one iteration of the worker, and
    the part about a publishing iteration when the iteration publishes
    nothing. *)
Ltac four_parts := split; [|split; [|split]].

Ltac not_publishing :=
  let H := fresh in
  intros H; destruct H as (? & ? & ? & ?); congruence.

(** Case analysis on the answers of the two paths for each cached mode. *)
Ltac split_ifs_eq :=
  repeat match goal with
         | |- context [if ?b then _ else _] => destruct b eqn:?
         end.

Ltac read_cases mode res :=
  unfold Sampler.read_config;
  destruct mode as [|[|]]; simpl;
  destruct (res Sampler.External) as [?c|?e] eqn:?E;
  destruct (res Sampler.RunAs) as [?c|?e] eqn:?E; simpl;
  split_ifs_eq; simpl.

Ltac write_cases mode res :=
  unfold Sampler.write_metrics;
  destruct mode as [|[|]]; simpl;
  destruct (res Sampler.External) as [?e|] eqn:?E;
  destruct (res Sampler.RunAs) as [?e|] eqn:?E; simpl;
  split_ifs_eq; simpl.

(** Case analysis on the membership facts about the commands of a
    capture. *)
Ltac capture_facts :=
  repeat match goal with
         | H : _ \/ _ |- _ => destruct H as [H|H]
         | H : False |- _ => contradiction
         | H : _ /\ _ |- _ => destruct H
         | H : exists _, _ |- _ => destruct H
         | H : Capture.RunPrimary _ = Capture.RunPrimary _ |- _ =>
             inversion H; clear H; subst
         | H : Capture.RunAlt _ = Capture.RunAlt _ |- _ =>
             inversion H; clear H; subst
         | H : _ = _ |- _ => discriminate H
         end.

Ltac capture_iff :=
  split; intros; capture_facts; try congruence;
  first [ solve [eauto 8]
        | solve [repeat split; eauto 8]
        | solve [eexists; repeat split; eauto 8]
        | solve [left; eexists; repeat split; eauto 8]
        | solve [split; [eauto 8|eexists; repeat split; eauto 8]] ].

(** * Properties *)

(** ** Comparisons and clamping *)

Lemma Qgtb_true (a b : Q) : Qgtb a b = true <-> (b < a)%Q.
Proof.
  unfold Qgtb. rewrite negb_true_iff. split; intros H.
  - apply Qnot_le_lt. intros L. apply Qle_bool_iff in L. congruence.
  - destruct (Qle_bool a b) eqn:E; [|reflexivity].
    apply Qle_bool_iff in E. lra.
Qed.

Lemma Qgtb_false (a b : Q) : Qgtb a b = false <-> (a <= b)%Q.
Proof. unfold Qgtb. rewrite negb_false_iff. apply Qle_bool_iff. Qed.

Lemma py_max_lower (a b : Q) : (a <= py_max a b)%Q.
Proof.
  unfold py_max. destruct (Qgtb b a) eqn:E.
  - apply Qgtb_true in E. lra.
  - lra.
Qed.

Lemma py_max_cases (a b : Q) : py_max a b = a \/ py_max a b = b.
Proof. unfold py_max. destruct (Qgtb b a); auto. Qed.

Lemma py_min_upper (a b : Q) : (py_min a b <= a)%Q.
Proof.
  unfold py_min. destruct (Qgtb a b) eqn:E.
  - apply Qgtb_true in E. lra.
  - lra.
Qed.

Lemma clamp_pct_bounds (pct : Q) :
  (0 <= Sampler.clamp_pct pct /\ Sampler.clamp_pct pct <= inject_Z 100)%Q.
Proof.
  unfold Sampler.clamp_pct. split; [apply py_max_lower|].
  destruct (py_max_cases 0 (py_min (inject_Z 100) pct)) as [-> | ->].
  - compute. discriminate.
  - apply py_min_upper.
Qed.

(** ** Rounding to the nearest double *)

Section Rounding.
Import Float64.

Lemma two_gt_1 : (1 < two)%Q.
Proof. reflexivity. Qed.

Lemma two_neq_0 : ~ (two == 0)%Q.
Proof. discriminate. Qed.

Lemma two_pow_pos (e : Z) : (0 < two ^ e)%Q.
Proof. apply Qpower_0_lt. reflexivity. Qed.

Lemma two_pow_succ (e : Z) : (two ^ (e + 1) == 2 * two ^ e)%Q.
Proof. rewrite Qpower_plus by apply two_neq_0. change (two ^ 1)%Q with two. unfold two. lra. Qed.

Lemma two_pow_Z (n : Z) : 0 <= n -> (two ^ n == inject_Z (2 ^ n))%Q.
Proof. intros H. rewrite Zpower_Qpower by exact H. reflexivity. Qed.

Lemma ilog2_spec (q : Q) :
  (0 < q)%Q -> (two ^ ilog2 q <= q /\ q < two ^ (ilog2 q + 1))%Q.
Proof.
  intros Hq. unfold ilog2.
  set (a := Qnum q). set (b := Zpos (Qden q)).
  set (l := Z.log2 a - Z.log2 b).
  assert (Ha : 0 < a) by (unfold Qlt in Hq; simpl in Hq; subst a; lia).
  assert (Hb : 0 < b) by (subst b; lia).
  destruct (Z.log2_spec a Ha) as [Ha1 Ha2].
  destruct (Z.log2_spec b Hb) as [Hb1 Hb2].
  pose proof (Z.log2_nonneg a) as Hla. pose proof (Z.log2_nonneg b) as Hlb.
  assert (HA1 : (two ^ Z.log2 a <= inject_Z a)%Q)
    by (rewrite two_pow_Z by lia; rewrite <- Zle_Qle; exact Ha1).
  assert (HA2 : (inject_Z a < 2 * two ^ Z.log2 a)%Q).
  { rewrite <- two_pow_succ, two_pow_Z by lia. rewrite <- Zlt_Qlt.
    replace (Z.log2 a + 1) with (Z.succ (Z.log2 a)) by lia. exact Ha2. }
  assert (HB1 : (two ^ Z.log2 b <= inject_Z b)%Q)
    by (rewrite two_pow_Z by lia; rewrite <- Zle_Qle; exact Hb1).
  assert (HB2 : (inject_Z b < 2 * two ^ Z.log2 b)%Q).
  { rewrite <- two_pow_succ, two_pow_Z by lia. rewrite <- Zlt_Qlt.
    replace (Z.log2 b + 1) with (Z.succ (Z.log2 b)) by lia. exact Hb2. }
  assert (HT : (two ^ l * two ^ Z.log2 b == two ^ Z.log2 a)%Q).
  { rewrite <- Qpower_plus by apply two_neq_0. subst l.
    replace (Z.log2 a - Z.log2 b + Z.log2 b) with (Z.log2 a) by lia. reflexivity. }
  assert (Hqab : (q * inject_Z b == inject_Z a)%Q).
  { subst a b. destruct q as [n d]. unfold Qeq, Qmult, inject_Z. simpl. lia. }
  pose proof (two_pow_pos l) as HTpos.
  pose proof (two_pow_pos (Z.log2 b)) as HPB.
  assert (HBpos : (0 < inject_Z b)%Q) by (rewrite Zlt_Qlt in Hb; exact Hb).
  pose proof (two_pow_succ l) as Hs.
  pose proof (two_pow_succ (l - 1)) as Hp.
  replace (l - 1 + 1) with l in * by lia.
  set (T := (two ^ l)%Q) in *. set (T' := (two ^ (l - 1))%Q) in *.
  set (PA := (two ^ Z.log2 a)%Q) in *. set (PB := (two ^ Z.log2 b)%Q) in *.
  set (A := inject_Z a) in *. set (B := inject_Z b) in *.
  destruct (Qle_bool T q) eqn:E.
  - apply Qle_bool_iff in E. split; [exact E|].
    rewrite Hs.
    destruct (Qlt_le_dec q (2 * T)) as [H|H]; [exact H|exfalso].
    assert (2 * T * B <= q * B)%Q by (apply Qmult_le_compat_r; lra).
    assert (T * PB <= T * B)%Q by (apply Qmult_le_l; lra).
    nra.
  - assert (Hlt : (q < T)%Q).
    { destruct (Qlt_le_dec q T) as [H|H]; [exact H|].
      apply Qle_bool_iff in H. congruence. }
    split; [|replace (l - 1 + 1) with l by lia; exact Hlt].
    destruct (Qlt_le_dec q T') as [H|H]; [exfalso|exact H].
    assert (q * B < T' * B)%Q by (apply Qmult_lt_compat_r; lra).
    assert (T * B < T * (2 * PB))%Q by (apply Qmult_lt_l; lra).
    nra.
Qed.

Lemma ilog2_mono (x y : Q) : (0 < x)%Q -> (x <= y)%Q -> ilog2 x <= ilog2 y.
Proof.
  intros Hx Hxy.
  destruct (ilog2_spec x Hx) as [H1 _].
  destruct (ilog2_spec y) as [_ H2]; [lra|].
  assert (H : (two ^ ilog2 x < two ^ (ilog2 y + 1))%Q) by lra.
  apply Qpower_lt_compat_l_inv in H; [lia|apply two_gt_1].
Qed.

Lemma rne_bounds (z : Q) : Qfloor z <= rne z <= Qfloor z + 1.
Proof.
  unfold rne. destruct (_ ?= _)%Q; [destruct (Z.even _)| |]; lia.
Qed.

Lemma rne_mono (z z' : Q) : (z <= z')%Q -> rne z <= rne z'.
Proof.
  intros H. pose proof (Qfloor_resp_le z z' H) as Hf.
  destruct (Z.eq_dec (Qfloor z) (Qfloor z')) as [E|E].
  - unfold rne. rewrite <- E.
    destruct (Qcompare_spec (z - inject_Z (Qfloor z)) (1 # 2)) as [A|A|A];
      destruct (Qcompare_spec (z' - inject_Z (Qfloor z)) (1 # 2)) as [B|B|B];
      try lia; try (exfalso; lra); destruct (Z.even (Qfloor z)); lia.
  - pose proof (rne_bounds z). pose proof (rne_bounds z'). lia.
Qed.

Lemma rne_Z (k : Z) : rne (inject_Z k) = k.
Proof.
  unfold rne. rewrite Qfloor_Z.
  destruct (Qcompare_spec (inject_Z k - inject_Z k) (1 # 2)) as [A|A|A];
    [exfalso; lra|reflexivity|exfalso; lra].
Qed.

Lemma ulp_exp_spec (q : Q) :
  (0 < q)%Q ->
  emin <= ulp_exp q /\ (q < two ^ (ulp_exp q + prec))%Q /\
  (emin < ulp_exp q -> (two ^ (ulp_exp q + (prec - 1)) <= q)%Q).
Proof.
  intros Hq. destruct (ilog2_spec q Hq) as [H1 H2]. unfold ulp_exp, prec.
  split; [lia|]. split.
  - eapply Qlt_le_trans; [exact H2|].
    apply Qpower_le_compat_l; [lia|discriminate].
  - intros He.
    replace (Z.max emin (ilog2 q - (53 - 1)) + (53 - 1)) with (ilog2 q) by lia.
    exact H1.
Qed.

Lemma ulp_exp_mono (x y : Q) : (0 < x)%Q -> (x <= y)%Q -> ulp_exp x <= ulp_exp y.
Proof.
  intros Hx Hxy. pose proof (ilog2_mono x y Hx Hxy). unfold ulp_exp. lia.
Qed.

Lemma scaled_le (x : Q) (e k : Z) :
  0 <= k -> (x <= two ^ (e + k))%Q -> (x / two ^ e <= inject_Z (2 ^ k))%Q.
Proof.
  intros Hk H. pose proof (two_pow_pos e) as He.
  apply Qle_shift_div_r; [exact He|].
  rewrite <- two_pow_Z by exact Hk. rewrite <- Qpower_plus by apply two_neq_0.
  replace (k + e) with (e + k) by lia. exact H.
Qed.

Lemma scaled_ge (x : Q) (e k : Z) :
  0 <= k -> (two ^ (e + k) <= x)%Q -> (inject_Z (2 ^ k) <= x / two ^ e)%Q.
Proof.
  intros Hk H. pose proof (two_pow_pos e) as He.
  apply Qle_shift_div_l; [exact He|].
  rewrite <- two_pow_Z by exact Hk. rewrite <- Qpower_plus by apply two_neq_0.
  replace (k + e) with (e + k) by lia. exact H.
Qed.

Lemma round_pos_upper (q : Q) :
  (0 < q)%Q -> (round_pos q <= two ^ (ulp_exp q + prec))%Q.
Proof.
  intros Hq. destruct (ulp_exp_spec q Hq) as (_ & H & _).
  unfold round_pos. set (e := ulp_exp q) in *.
  pose proof (two_pow_pos e) as He.
  assert (Hr : rne (q / two ^ e) <= 2 ^ prec).
  { rewrite <- (rne_Z (2 ^ prec)). apply rne_mono.
    apply scaled_le; [unfold prec; lia|lra]. }
  rewrite Zle_Qle in Hr.
  rewrite Qpower_plus by apply two_neq_0.
  rewrite (two_pow_Z prec) by (unfold prec; lia).
  rewrite (Qmult_comm (two ^ e)). apply Qmult_le_compat_r; lra.
Qed.

Lemma round_pos_lower (q : Q) :
  (0 < q)%Q -> emin < ulp_exp q ->
  (two ^ (ulp_exp q + (prec - 1)) <= round_pos q)%Q.
Proof.
  intros Hq Hn. destruct (ulp_exp_spec q Hq) as (_ & _ & H). specialize (H Hn).
  unfold round_pos. set (e := ulp_exp q) in *.
  pose proof (two_pow_pos e) as He.
  assert (Hr : 2 ^ (prec - 1) <= rne (q / two ^ e)).
  { rewrite <- (rne_Z (2 ^ (prec - 1))). apply rne_mono.
    apply scaled_ge; [unfold prec; lia|exact H]. }
  rewrite Zle_Qle in Hr.
  rewrite Qpower_plus by apply two_neq_0.
  rewrite (two_pow_Z (prec - 1)) by (unfold prec; lia).
  rewrite (Qmult_comm (two ^ e)). apply Qmult_le_compat_r; lra.
Qed.

Lemma round_pos_nonneg (q : Q) : (0 < q)%Q -> (0 <= round_pos q)%Q.
Proof.
  intros Hq. unfold round_pos. set (e := ulp_exp q).
  pose proof (two_pow_pos e) as He.
  assert (Hr : 0 <= rne (q / two ^ e)).
  { rewrite <- (rne_Z 0). apply rne_mono.
    apply Qle_shift_div_l; [exact He|].
    change (inject_Z 0) with 0%Q. rewrite Qmult_0_l. apply Qlt_le_weak, Hq. }
  rewrite Zle_Qle in Hr. change (inject_Z 0) with 0%Q in Hr.
  apply Qmult_le_0_compat; [exact Hr|apply Qlt_le_weak, He].
Qed.

Lemma round_pos_mono (x y : Q) :
  (0 < x)%Q -> (x <= y)%Q -> (round_pos x <= round_pos y)%Q.
Proof.
  intros Hx Hxy. assert (Hy : (0 < y)%Q) by lra.
  pose proof (ulp_exp_mono x y Hx Hxy) as He.
  destruct (Z.eq_dec (ulp_exp x) (ulp_exp y)) as [E|E].
  - unfold round_pos. rewrite <- E. set (e := ulp_exp x).
    pose proof (two_pow_pos e) as Hp.
    assert (Hr : rne (x / two ^ e) <= rne (y / two ^ e)).
    { apply rne_mono. apply Qmult_le_compat_r; [exact Hxy|].
      apply Qlt_le_weak, Qinv_lt_0_compat, Hp. }
    rewrite Zle_Qle in Hr. apply Qmult_le_compat_r; lra.
  - pose proof (round_pos_upper x Hx) as Hu.
    destruct (ulp_exp_spec x Hx) as (Hmin & _ & _).
    assert (Hn : emin < ulp_exp y) by lia.
    pose proof (round_pos_lower y Hy Hn) as Hl.
    assert (Hpow : (two ^ (ulp_exp x + prec) <= two ^ (ulp_exp y + (prec - 1)))%Q).
    { apply Qpower_le_compat_l; [unfold prec; lia|discriminate]. }
    lra.
Qed.

(** Rounding to the nearest double is monotone, so it keeps signs. *)
Lemma round_mono (x y : Q) : (x <= y)%Q -> (round x <= round y)%Q.
Proof.
  intros H. unfold round.
  destruct (Qcompare_spec x 0) as [X|X|X]; destruct (Qcompare_spec y 0) as [Y|Y|Y];
    try (exfalso; lra).
  - lra.
  - apply round_pos_nonneg, Y.
  - assert (0 <= round_pos (- x))%Q by (apply round_pos_nonneg; lra). lra.
  - assert (round_pos (- y) <= round_pos (- x))%Q by (apply round_pos_mono; lra). lra.
  - assert (0 <= round_pos (- x))%Q by (apply round_pos_nonneg; lra).
    assert (0 <= round_pos y)%Q by (apply round_pos_nonneg; lra). lra.
  - apply round_pos_mono; assumption.
Qed.

Lemma round_nonneg (x : Q) : (0 <= x)%Q -> (0 <= round x)%Q.
Proof. intros H. apply (round_mono 0 x H). Qed.

Lemma round_nonpos (x : Q) : (x <= 0)%Q -> (round x <= 0)%Q.
Proof. intros H. apply (round_mono x 0 H). Qed.

End Rounding.

(** The two thresholds are doubles, a little above 2ms and 50ms. *)
Lemma dedup_gap_double :
  (Float64.round FrameEvents.dedup_gap == FrameEvents.dedup_gap)%Q /\
  (2 # 1000 < FrameEvents.dedup_gap)%Q.
Proof. split; vm_compute; reflexivity. Qed.

Lemma min_span_double :
  (Float64.round FrameEvents.min_span == FrameEvents.min_span)%Q /\
  (5 # 100 < FrameEvents.min_span)%Q.
Proof. split; vm_compute; reflexivity. Qed.

(** A difference of doubles that tests larger than [0.002] is larger
    than [0.002]. *)
Lemma sub_gt_gap (a b : Q) :
  Qgtb (Float64.sub b a) FrameEvents.dedup_gap = true -> FrameEvents.apart a b.
Proof.
  intros H. apply Qgtb_true in H. unfold FrameEvents.apart.
  destruct (Qlt_le_dec FrameEvents.dedup_gap (b - a)) as [L|L]; [exact L|exfalso].
  apply round_mono in L. destruct dedup_gap_double as [E _]. rewrite E in L.
  unfold Float64.sub in H. lra.
Qed.

(** ** Deduplication of frame events *)

Section Dedup.
Import FrameEvents.

Lemma dedup_from_apart (l : list Q) :
  forall prev,
    Forall (apart prev) (dedup_from prev l) /\
    ForallOrdPairs apart (dedup_from prev l).
Proof.
  induction l as [|t r IH]; intros prev; simpl.
  - split; constructor.
  - destruct (Qgtb (Float64.sub t prev) dedup_gap) eqn:E.
    + apply sub_gt_gap in E. destruct (IH t) as [Ht Hp]. split.
      * constructor; [exact E|].
        eapply Forall_impl; [exact Ht|].
        unfold apart, dedup_gap in *. intros x Hx. simpl in Hx. lra.
      * constructor; assumption.
    + apply IH.
Qed.

Lemma dedup_close_apart (l : list Q) : ForallOrdPairs apart (dedup_close l).
Proof.
  destruct l as [|t0 r]; simpl; [constructor|].
  destruct (dedup_from_apart r t0). constructor; assumption.
Qed.

Lemma dedup_from_length (l : list Q) :
  forall prev, (length (dedup_from prev l) <= length l)%nat.
Proof.
  induction l as [|t r IH]; intros prev; simpl; [lia|].
  destruct (Qgtb (Float64.sub t prev) dedup_gap); simpl.
  - specialize (IH t). lia.
  - specialize (IH prev). lia.
Qed.

Lemma dedup_close_length (l : list Q) :
  (length (dedup_close l) <= length l)%nat.
Proof.
  destruct l as [|t0 r]; simpl; [lia|].
  pose proof (dedup_from_length r t0). lia.
Qed.

Lemma insert_ts_length (t : Q) (l : list Q) :
  length (insert_ts t l) = S (length l).
Proof.
  induction l as [|x r IH]; simpl; [reflexivity|].
  destruct (Qle_bool t x); simpl; congruence.
Qed.

Lemma sort_ts_length (l : list Q) : length (sort_ts l) = length l.
Proof.
  induction l as [|x r IH]; simpl; [reflexivity|].
  rewrite insert_ts_length. congruence.
Qed.

(** [sort_ts] sorts: its result is a permutation of its argument in
    non-decreasing order. *)
Lemma insert_ts_perm (t : Q) (l : list Q) : Permutation (t :: l) (insert_ts t l).
Proof.
  induction l as [|x r IH]; simpl; [reflexivity|].
  destruct (Qle_bool t x); [reflexivity|].
  rewrite <- IH. apply perm_swap.
Qed.

Lemma sort_ts_perm (l : list Q) : Permutation l (sort_ts l).
Proof.
  induction l as [|x r IH]; simpl; [reflexivity|].
  rewrite <- insert_ts_perm. constructor. exact IH.
Qed.

Lemma insert_ts_sorted (t : Q) (l : list Q) :
  StronglySorted Qle l -> StronglySorted Qle (insert_ts t l).
Proof.
  induction 1 as [|x r Hr IH Hx]; simpl.
  - repeat constructor.
  - destruct (Qle_bool t x) eqn:E.
    + apply Qle_bool_iff in E. constructor; [constructor; assumption|].
      constructor; [exact E|].
      eapply Forall_impl; [exact Hx|]. intros y Hy. simpl in Hy. lra.
    + assert (x <= t)%Q as Hxt.
      { destruct (Qlt_le_dec x t) as [H|H]; [lra|].
        apply Qle_bool_iff in H. congruence. }
      constructor; [exact IH|].
      rewrite <- insert_ts_perm. constructor; assumption.
Qed.

Lemma sort_ts_sorted (l : list Q) : StronglySorted Qle (sort_ts l).
Proof.
  induction l as [|x r IH]; simpl; [constructor|].
  apply insert_ts_sorted, IH.
Qed.

Lemma sort_ts_nonempty (l : list Q) : l <> [] -> sort_ts l <> [].
Proof.
  intros H E. apply (f_equal length) in E. rewrite sort_ts_length in E.
  destruct l; [congruence|discriminate].
Qed.

Lemma dedup_close_nonempty (l : list Q) : l <> [] -> dedup_close l <> [].
Proof. destruct l; [congruence|discriminate]. Qed.

(** The first retained event is the earliest and the last one the
    latest. *)
Lemma apart_last_bound (l : list Q) :
  ForallOrdPairs apart l ->
  forall a, Forall (apart a) l -> l <> [] -> apart a (List.last l 0%Q).
Proof.
  induction 1 as [|x l Hx Hl IH]; intros a Ha Hne; [congruence|].
  destruct l as [|y l'].
  - simpl. inversion Ha; assumption.
  - change (List.last (x :: y :: l') 0%Q) with (List.last (y :: l') 0%Q).
    apply IH; [|discriminate]. inversion Ha; assumption.
Qed.

Lemma apart_between (l : list Q) :
  ForallOrdPairs apart l ->
  Forall (fun t => List.hd 0%Q l <= t /\ t <= List.last l 0%Q)%Q l.
Proof.
  induction 1 as [|x l Hx Hl IH]; [constructor|].
  destruct l as [|y l'].
  - constructor; [simpl; lra|constructor].
  - assert (Hlast : apart x (List.last (y :: l') 0%Q))
      by (apply apart_last_bound; [assumption|assumption|discriminate]).
    change (List.last (x :: y :: l') 0%Q) with (List.last (y :: l') 0%Q).
    unfold apart, dedup_gap in *. simpl List.hd in *.
    constructor.
    + split; lra.
    + rewrite Forall_forall in *. intros t Ht.
      specialize (Hx t Ht). destruct (IH t Ht) as [_ Hu].
      simpl in Hx. split; lra.
Qed.

End Dedup.

(** ** C1: deduplication and frame rate of the streaming strategy *)

Lemma count_frame_events_some (d : FrameEvents.dump) (since_ts : Q) :
  fst (FrameEvents.frame_timestamps d since_ts) <> [] ->
  let kept := FrameEvents.retained d since_ts in
  FrameEvents._count_frame_events d since_ts
  = (length kept, List.hd 0%Q kept, List.last kept 0%Q,
     snd (FrameEvents.frame_timestamps d since_ts))
  /\ (0 < length kept)%nat.
Proof.
  intros Hne kept. unfold FrameEvents._count_frame_events. split.
  - destruct (fst (FrameEvents.frame_timestamps d since_ts)); [congruence|reflexivity].
  - assert (kept <> []) as Hk.
    { apply dedup_close_nonempty, sort_ts_nonempty, Hne. }
    destruct kept; [congruence|simpl; lia].
Qed.

(** C1. In the streaming (atrace) strategy, for every parsed snapshot the
    retained frame-boundary timestamps are pairwise more than [0.002]
    apart, which is more than 2ms; they are at most as many as the raw
    events, and they lie between the reported minimum and maximum. When
    the snapshot has events, the published FPS is
    [eventCount / (maxTs - minTs)] if the span [maxTs - minTs] exceeds
    [0.05] and [eventCount] otherwise, the difference, the quotient and
    the two literals being those of the doubles (the thresholds are the
    doubles nearest to 2/1000 and to 5/100); in particular the FPS does
    not exceed [eventCount] when the span is at most 0. *)
Theorem C1_dedup_and_fps
        (w : Worker.worker) (t : Worker.tick) (d : FrameEvents.dump) :
  Worker._mode w = Worker.ModeAtrace ->
  Worker.active w = true ->
  Worker.dump_res t = Worker.DumpText d ->
  let raw := fst (FrameEvents.frame_timestamps d (Worker.last_max_ts w)) in
  let kept := FrameEvents.retained d (Worker.last_max_ts w) in
  let n := length kept in
  let min_ts := List.hd 0%Q kept in
  let max_ts := List.last kept 0%Q in
  let span := Float64.sub max_ts min_ts in
  let fps := Worker._latest_fps (Worker.shared (Worker.iter w t)) in
  ForallOrdPairs FrameEvents.apart kept /\
  (forall a b, FrameEvents.apart a b -> (2 # 1000 < b - a)%Q) /\
  (FrameEvents.dedup_gap = Float64.round (2 # 1000) /\
   FrameEvents.min_span = Float64.round (5 # 100)) /\
  (n <= length raw)%nat /\
  Forall (fun x => (min_ts <= x /\ x <= max_ts)%Q) kept /\
  (raw <> [] ->
   FrameEvents._count_frame_events d (Worker.last_max_ts w)
   = (n, min_ts, max_ts, snd (FrameEvents.frame_timestamps d (Worker.last_max_ts w))) /\
   (0 < n)%nat /\
   fps = Some (if Qgtb span FrameEvents.min_span
               then Float64.div (natfloat n) span else natfloat n) /\
   ((span <= 0)%Q -> exists f, fps = Some f /\ (f <= natfloat n)%Q)).
Proof.
  intros Hmode Hact Hdump raw kept n min_ts max_ts span fps.
  assert (Hpairs : ForallOrdPairs FrameEvents.apart kept)
    by apply dedup_close_apart.
  split; [exact Hpairs|]. split.
  { intros a b Hab. unfold FrameEvents.apart in Hab.
    destruct dedup_gap_double as [_ Hgap]. lra. }
  split; [split; vm_compute; reflexivity|].
  split.
  { subst n kept raw. unfold FrameEvents.retained.
    etransitivity; [apply dedup_close_length|]. rewrite sort_ts_length. lia. }
  split; [apply apart_between, Hpairs|].
  intros Hne. destruct (count_frame_events_some d (Worker.last_max_ts w) Hne) as [Hcnt Hpos].
  fold kept in Hcnt, Hpos. fold n min_ts max_ts in Hcnt. fold n in Hpos.
  split; [exact Hcnt|]. split; [exact Hpos|].
  assert (Hspan0 : (0 < FrameEvents.min_span)%Q) by (destruct min_span_double; lra).
  assert (Hfps : fps = Some (if Qgtb span FrameEvents.min_span
                             then Float64.div (natfloat n) span else natfloat n)).
  { subst fps. unfold Worker.iter. rewrite Hmode. unfold Worker._loop_atrace_iter.
    rewrite Hact, Hdump. simpl negb. cbv iota. rewrite Hcnt.
    assert (Hn : (0 <? Z.of_nat n) = true) by (apply Z.ltb_lt; lia).
    rewrite Hn. simpl andb.
    destruct (Qgtb max_ts min_ts) eqn:E; simpl.
    - reflexivity.
    - apply Qgtb_false in E.
      destruct (Qgtb span FrameEvents.min_span) eqn:E2; [|reflexivity].
      apply Qgtb_true in E2. subst span. exfalso.
      assert (Float64.sub max_ts min_ts <= 0)%Q by (apply round_nonpos; lra). lra. }
  split; [exact Hfps|].
  intros Hspan. eexists. split; [exact Hfps|].
  destruct (Qgtb span FrameEvents.min_span) eqn:E2.
  - apply Qgtb_true in E2. exfalso. lra.
  - lra.
Qed.

(** The theorem at three dumps. Four buffer swaps, two of them written
    1ms apart: three events are retained over a span of 0.5s, which
    gives 6 FPS. Two swaps written 2ms apart (1.000000 and 1.002000): the
    doubles are more than [0.002] apart and both are retained. Two swaps
    written 50ms apart (1.000000 and 1.050000): the span of the doubles
    exceeds [0.05] and the published FPS is the quotient, just below
    40. *)
Lemma C1_witness :
  let published d :=
    Worker._latest_fps
      (Worker.shared
         (Worker.iter Examples.streaming_worker
                      (Worker.Tick (Worker.DumpText d) Worker.OfflineRaised 5000))) in
  (exists f,
      published Examples.four_swaps = Some f /\
      length (FrameEvents.retained Examples.four_swaps 0) = 3%nat /\ (f == 6)%Q) /\
  (length (FrameEvents.retained Examples.two_ms_swaps 0) = 2%nat /\
   ForallOrdPairs FrameEvents.apart (FrameEvents.retained Examples.two_ms_swaps 0)) /\
  (exists f,
      published Examples.fifty_ms_swaps = Some f /\
      f = Float64.div (natfloat 2)
                      (Float64.sub (Examples.stamp 1050000) (Examples.stamp 1000000)) /\
      (39 < f)%Q /\ (f < 40)%Q).
Proof.
  intros published. subst published. cbv beta.
  pose proof (fun d => C1_dedup_and_fps
                         Examples.streaming_worker
                         (Worker.Tick (Worker.DumpText d) Worker.OfflineRaised 5000)
                         d eq_refl eq_refl eq_refl) as H.
  cbv zeta in H.
  split; [|split].
  - destruct (H Examples.four_swaps) as (_ & _ & _ & _ & _ & Hd).
    destruct Hd as (_ & _ & Hf & _); [vm_compute; discriminate|].
    rewrite Hf. eexists. split; [reflexivity|].
    split; vm_compute; reflexivity.
  - destruct (H Examples.two_ms_swaps) as (Hp & _).
    split; [vm_compute; reflexivity|exact Hp].
  - destruct (H Examples.fifty_ms_swaps) as (_ & _ & _ & _ & _ & Hd).
    destruct Hd as (_ & _ & Hf & _); [vm_compute; discriminate|].
    rewrite Hf. eexists. split; [reflexivity|].
    split; [vm_compute; reflexivity|]. split; vm_compute; reflexivity.
Defined.

(** ** C7: demotion of the streaming strategy *)

Section Demotion.
Import Worker.

Lemma offline_iter (w : worker) (t : tick) : offline w -> offline (iter w t).
Proof.
  intros [Hm Hr]. unfold iter. rewrite Hm. unfold _loop_perfetto_iter.
  destruct (negb (active w)); [split; assumption|].
  destruct (offline_res t); split; assumption.
Qed.

Lemma offline_run (ts : list tick) : forall w, offline w -> offline (run w ts).
Proof.
  induction ts as [|t ts IH]; intros w H; [exact H|].
  apply IH, offline_iter, H.
Qed.

Lemma failed_iter (w : worker) (t : tick) :
  _mode w = ModeAtrace -> active w = true -> dump_failed t ->
  quiet_step 5 w (iter w t).
Proof.
  intros Hm Ha Hf. unfold quiet_step, iter. rewrite Hm.
  unfold _loop_atrace_iter. rewrite Ha, Hf. simpl negb. cbv iota.
  destruct (5 <=? consecutive_empty w + 1).
  - split; reflexivity.
  - simpl. auto.
Qed.

Lemma empty_iter (w : worker) (t : tick) :
  _mode w = ModeAtrace -> active w = true ->
  snapshot_empty (last_max_ts w) t ->
  quiet_step 10 w (iter w t).
Proof.
  intros Hm Ha He. unfold quiet_step, iter. rewrite Hm.
  unfold _loop_atrace_iter. rewrite Ha. simpl negb. cbv iota.
  unfold snapshot_empty, frames_of in He.
  destruct (dump_res t) as [|d]; [discriminate|].
  destruct (FrameEvents._count_frame_events d (last_max_ts w))
    as [[[n mn] mx] m].
  simpl in He. injection He as ->. simpl.
  destruct (10 <=? consecutive_empty w + 1).
  - split; reflexivity.
  - simpl. auto.
Qed.

(** Enough quiet iterations in a row demote the worker. *)
Lemma quiet_run (limit : Z) (P : Q -> tick -> Prop) :
  (forall w t, _mode w = ModeAtrace -> active w = true ->
               P (last_max_ts w) t -> quiet_step limit w (iter w t)) ->
  forall ts w,
    _mode w = ModeAtrace -> active w = true ->
    Forall (P (last_max_ts w)) ts ->
    limit <= consecutive_empty w + Z.of_nat (length ts) ->
    0 < Z.of_nat (length ts) ->
    offline (run w ts).
Proof.
  intros Hstep. induction ts as [|t ts IH]; intros w Hm Ha Hall Hlen Hpos.
  - simpl in Hpos. lia.
  - inversion Hall as [|? ? Ht Hts]; subst.
    specialize (Hstep w t Hm Ha Ht). unfold quiet_step in Hstep.
    change (run w (t :: ts)) with (run (iter w t) ts).
    destruct (limit <=? consecutive_empty w + 1) eqn:E.
    + apply offline_run, Hstep.
    + apply Z.leb_gt in E. destruct Hstep as (Hm' & Ha' & Hl' & Hc').
      simpl length in Hlen.
      destruct ts as [|t2 ts2]; [simpl in Hlen; lia|].
      apply IH;
        [assumption | assumption | rewrite Hl'; exact Hts
        | rewrite Hc'; lia | simpl; lia].
Qed.

(** Fewer quiet iterations than the limit, counted from a counter at 0,
    leave the worker streaming. *)
Lemma quiet_run_below (limit : Z) (P : Q -> tick -> Prop) :
  (forall w t, _mode w = ModeAtrace -> active w = true ->
               P (last_max_ts w) t -> quiet_step limit w (iter w t)) ->
  forall ts w,
    _mode w = ModeAtrace -> active w = true ->
    Forall (P (last_max_ts w)) ts ->
    consecutive_empty w + Z.of_nat (length ts) < limit ->
    _mode (run w ts) = ModeAtrace /\
    consecutive_empty (run w ts) = consecutive_empty w + Z.of_nat (length ts).
Proof.
  intros Hstep. induction ts as [|t ts IH]; intros w Hm Ha Hall Hlen.
  - simpl. split; [assumption|lia].
  - inversion Hall as [|? ? Ht Hts]; subst.
    specialize (Hstep w t Hm Ha Ht). unfold quiet_step in Hstep.
    change (run w (t :: ts)) with (run (iter w t) ts).
    simpl length in Hlen.
    destruct (limit <=? consecutive_empty w + 1) eqn:E.
    + apply Z.leb_le in E. lia.
    + destruct Hstep as (Hm' & Ha' & Hl' & Hc').
      destruct (IH (iter w t)) as [R1 R2];
        [assumption | assumption | rewrite Hl'; exact Hts | rewrite Hc'; lia |].
      split; [exact R1|]. rewrite R2, Hc'. simpl length. lia.
Qed.

End Demotion.

(** C7. In the streaming strategy, 5 consecutive failed reads of the trace
    buffer, or 10 consecutive snapshots without frame events, tear the
    streaming source down (atrace stopped) and put the worker in the
    offline (Perfetto) strategy; a snapshot with frame events resets the
    count of consecutive failures and empty snapshots, which is one
    counter. Counted from a counter at 0, fewer failures or empty
    snapshots leave the worker streaming. *)
Theorem C7_streaming_demotion (w : Worker.worker) :
  Worker._mode w = Worker.ModeAtrace ->
  Worker.active w = true ->
  0 <= Worker.consecutive_empty w ->
  (forall ts, length ts = 5%nat -> Forall Worker.dump_failed ts ->
              Worker.offline (Worker.run w ts)) /\
  (forall ts, length ts = 10%nat ->
              Forall (Worker.snapshot_empty (Worker.last_max_ts w)) ts ->
              Worker.offline (Worker.run w ts)) /\
  (forall t n, Worker.frames_of (Worker.last_max_ts w) t = Some n -> (0 < n)%nat ->
               Worker.consecutive_empty (Worker.iter w t) = 0 /\
               Worker._mode (Worker.iter w t) = Worker.ModeAtrace /\
               Worker.atrace_running (Worker.iter w t) = Worker.atrace_running w) /\
  (Worker.consecutive_empty w = 0 ->
   (forall ts, (length ts < 5)%nat -> Forall Worker.dump_failed ts ->
               Worker._mode (Worker.run w ts) = Worker.ModeAtrace) /\
   (forall ts, (length ts < 10)%nat ->
               Forall (Worker.snapshot_empty (Worker.last_max_ts w)) ts ->
               Worker._mode (Worker.run w ts) = Worker.ModeAtrace)).
Proof.
  intros Hm Ha Hc. split; [|split; [|split]].
  - intros ts Hlen Hall.
    apply (quiet_run 5 (fun _ => Worker.dump_failed)); try assumption.
    + intros; apply failed_iter; assumption.
    + lia.
    + lia.
  - intros ts Hlen Hall.
    apply (quiet_run 10 Worker.snapshot_empty); try assumption.
    + intros; apply empty_iter; assumption.
    + lia.
    + lia.
  - intros t n H Hpos.
    unfold Worker.frames_of in H.
    destruct (Worker.dump_res t) as [|d] eqn:Hd; [discriminate|].
    unfold Worker.iter. rewrite Hm. unfold Worker._loop_atrace_iter.
    rewrite Ha, Hd. simpl negb. cbv iota.
    destruct (FrameEvents._count_frame_events d (Worker.last_max_ts w))
      as [[[k mn] mx] m].
    simpl in H. injection H as ->.
    assert (Hn : (0 <? Z.of_nat n) = true) by (apply Z.ltb_lt; lia).
    rewrite Hn. destruct (Qgtb mx mn); simpl; auto.
  - intros Hzero. split.
    + intros ts Hlen Hall.
      apply (quiet_run_below 5 (fun _ => Worker.dump_failed)); try assumption.
      * intros; apply failed_iter; assumption.
      * lia.
    + intros ts Hlen Hall.
      apply (quiet_run_below 10 Worker.snapshot_empty); try assumption.
      * intros; apply empty_iter; assumption.
      * lia.
Qed.

(** The theorem at a freshly started streaming worker: five failed reads
    or ten empty snapshots demote it, four failed reads or nine empty
    snapshots do not, and a snapshot with three frames resets the
    counter. *)
Lemma C7_witness :
  Worker.offline (Worker.run Examples.streaming_worker (repeat Examples.failed_tick 5)) /\
  Worker.offline (Worker.run Examples.streaming_worker (repeat Examples.empty_tick 10)) /\
  Worker.consecutive_empty (Worker.iter Examples.streaming_worker Examples.swaps_tick) = 0 /\
  Worker._mode (Worker.run Examples.streaming_worker (repeat Examples.failed_tick 4))
  = Worker.ModeAtrace /\
  Worker._mode (Worker.run Examples.streaming_worker (repeat Examples.empty_tick 9))
  = Worker.ModeAtrace.
Proof.
  destruct (C7_streaming_demotion Examples.streaming_worker eq_refl eq_refl (Z.le_refl 0))
    as (H5 & H10 & Hreset & Hbelow).
  destruct (Hbelow eq_refl) as [H4 H9].
  split; [|split; [|split; [|split]]].
  - apply H5; [reflexivity|]. repeat (constructor; [reflexivity|]). constructor.
  - apply H10; [reflexivity|]. repeat (constructor; [reflexivity|]). constructor.
  - apply (Hreset Examples.swaps_tick 3%nat); [reflexivity|lia].
  - apply H4; [simpl; lia|]. repeat (constructor; [reflexivity|]). constructor.
  - apply H9; [simpl; lia|]. repeat (constructor; [reflexivity|]). constructor.
Defined.

(** ** C6: percentages stay in [0, 100] *)

(** C6. The per-process CPU percentage and the total CPU percentage lie in
    the closed interval [0, 100] whenever they are computed, and they are
    computed for every pair of counters where the later count is at least
    the earlier one (for the total percentage: strictly larger, since no
    percentage is reported when the aggregate counter did not advance). *)
Theorem C6_percentages_in_range :
  (forall hz cores now_ms want_cpu want_pss st pidof proc_stat p,
      fst (Sampler._sample_pid_and_cpu hz cores now_ms want_cpu want_pss st
                                       pidof proc_stat) = Some p ->
      (0 <= p /\ p <= inject_Z 100)%Q) /\
  (forall stat_line st p,
      fst (Sampler._parse_cpu_total stat_line st) = Some p ->
      (0 <= p /\ p <= inject_Z 100)%Q) /\
  (forall hz cores now_ms want_pss pid prev_ticks prev_t_ms ticks,
      prev_ticks <= ticks ->
      exists p,
        fst (Sampler._sample_pid_and_cpu
               hz cores now_ms true want_pss
               (Sampler.MkCpu (Some prev_ticks) (Some prev_t_ms))
               (Some (Some pid)) (Some (Some ticks))) = Some p /\
        (0 <= p /\ p <= inject_Z 100)%Q) /\
  (forall vals prev_total prev_idle,
      prev_total < Sampler.sum_Z vals ->
      exists p,
        fst (Sampler._parse_cpu_total
               (Some vals)
               (Sampler.MkCpuTotal (Some prev_total) (Some prev_idle))) = Some p /\
        (0 <= p /\ p <= inject_Z 100)%Q).
Proof.
  split; [|split; [|split]].
  - intros hz cores now_ms want_cpu want_pss st pidof proc_stat p.
    unfold Sampler._sample_pid_and_cpu.
    destruct (negb (want_cpu || want_pss)); [discriminate|].
    destruct pidof as [[pid|]|]; try discriminate.
    destruct want_cpu; [|discriminate].
    destruct proc_stat as [[ticks|]|]; try discriminate.
    destruct (Sampler.cpu_prev_ticks st), (Sampler.cpu_prev_t_ms st);
      simpl; try discriminate.
    intros [= <-]. apply clamp_pct_bounds.
  - intros stat_line st p. unfold Sampler._parse_cpu_total.
    destruct stat_line as [vals|]; [|discriminate].
    destruct (Sampler.prev_total st), (Sampler.prev_idle st);
      simpl; try discriminate.
    destruct (0 <? _); [|discriminate].
    intros [= <-]. apply clamp_pct_bounds.
  - intros hz cores now_ms want_pss pid pt ptm ticks _.
    eexists. split; [reflexivity|]. apply clamp_pct_bounds.
  - intros vals pt pi Hlt. unfold Sampler._parse_cpu_total. simpl.
    assert (E : (0 <? Sampler.sum_Z vals - pt) = true) by (apply Z.ltb_lt; lia).
    rewrite E. eexists. split; [reflexivity|]. apply clamp_pct_bounds.
Qed.

(** The theorem at two concrete samples: 50 ticks of a 100Hz clock in one
    second on 8 cores, and an aggregate line that advanced by 500 ticks of
    which 350 were idle. *)
Lemma C6_witness :
  (0 <= Sampler.cpu_pct 100 8 2000 1000 150 100
   /\ Sampler.cpu_pct 100 8 2000 1000 150 100 <= inject_Z 100)%Q /\
  (0 <= Sampler.clamp_pct ((1 - Zfloat 350 / Zfloat 500) * inject_Z 100)
   /\ Sampler.clamp_pct ((1 - Zfloat 350 / Zfloat 500) * inject_Z 100)
      <= inject_Z 100)%Q /\
  (exists p,
      fst (Sampler._sample_pid_and_cpu
             100 8 2000 true false
             (Sampler.MkCpu (Some 100) (Some 1000))
             (Some (Some "4242"%string)) (Some (Some 150))) = Some p /\
      (0 <= p /\ p <= inject_Z 100)%Q) /\
  (exists p,
      fst (Sampler._parse_cpu_total
             (Some [100; 0; 50; 800; 0; 0; 50])
             (Sampler.MkCpuTotal (Some 500) (Some 450))) = Some p /\
      (0 <= p /\ p <= inject_Z 100)%Q).
Proof.
  destruct C6_percentages_in_range as (Hcpu & Htot & Hcpu_ex & Htot_ex).
  split; [|split; [|split]].
  - apply (Hcpu 100 8 2000 true false
                (Sampler.MkCpu (Some 100) (Some 1000))
                (Some (Some "4242"%string)) (Some (Some 150))).
    reflexivity.
  - apply (Htot (Some [100; 0; 50; 800; 0; 0; 50])
                (Sampler.MkCpuTotal (Some 500) (Some 450))).
    reflexivity.
  - apply Hcpu_ex. lia.
  - apply Htot_ex. reflexivity.
Defined.

(** ** C3, C4: the ranked filters of the offline trace query *)

Section Filters.
Import Perfetto.

Variables (tp : oracle) (cols : list string) (table : string) (duration_ms : Z).

(** A passed-over filter with a [where] clause leaves the loop state as
    it was. *)
Lemma scan_rejected (f : filter_t) (rest : list filter_t) (u : option (N * N * N)) :
  rejected tp cols f -> where_sql f <> EmptyString ->
  scan tp cols table duration_ms (f :: rest) u
  = scan tp cols table duration_ms rest u.
Proof.
  intros [H | (mn & mx & H)] Hw; simpl; rewrite H; [reflexivity|].
  apply String.eqb_neq in Hw. rewrite Hw. reflexivity.
Qed.

(** A passed-over filter never ends the loop. *)
Lemma scan_rejected_any (f : filter_t) (rest : list filter_t) (u : option (N * N * N)) :
  rejected tp cols f ->
  exists u', scan tp cols table duration_ms (f :: rest) u
             = scan tp cols table duration_ms rest u'.
Proof.
  intros [H | (mn & mx & H)]; simpl; rewrite H; eexists; reflexivity.
Qed.

Lemma scan_prefix_rejected (pre rest : list filter_t) :
  Forall (rejected tp cols) pre ->
  forall u, exists u',
    scan tp cols table duration_ms (pre ++ rest) u
    = scan tp cols table duration_ms rest u'.
Proof.
  induction 1 as [|f pre Hf Hpre IH]; intros u; [exists u; reflexivity|].
  destruct (scan_rejected_any f (pre ++ rest) u Hf) as [u1 E1].
  destruct (IH u1) as [u2 E2]. exists u2.
  change ((f :: pre) ++ rest) with (f :: (pre ++ rest)). congruence.
Qed.

Lemma scan_named_rejected (pre rest : list filter_t) :
  Forall (rejected tp cols) pre ->
  Forall (fun f => where_sql f <> EmptyString) pre ->
  forall u,
    scan tp cols table duration_ms (pre ++ rest) u
    = scan tp cols table duration_ms rest u.
Proof.
  induction 1 as [|f pre Hf Hpre IH]; intros Hw u; [reflexivity|].
  inversion Hw; subst.
  change ((f :: pre) ++ rest) with (f :: (pre ++ rest)).
  rewrite scan_rejected by assumption. apply IH. assumption.
Qed.

(** The first filter with a non-zero count ends the loop. *)
Lemma scan_accepted (f : filter_t) (rest : list filter_t) (u : option (N * N * N))
      (cnt mn mx : N) :
  query_c_min_max tp cols (where_sql f) = QStats cnt mn mx -> cnt <> 0%N ->
  scan tp cols table duration_ms (f :: rest) u
  = ScanBest (fst (accept table f cnt mn mx duration_ms))
             (snd (accept table f cnt mn mx duration_ms)).
Proof.
  intros H Hc. simpl. rewrite H.
  assert (E : (cnt <=? 0)%N = false) by (apply N.leb_gt; lia).
  rewrite E. destruct (accept table f cnt mn mx duration_ms). reflexivity.
Qed.

End Filters.

Lemma named_filters_where (cols : list string) (target_pkg layer_hint : string)
      (layer_candidates : list string) :
  Forall (fun f => Perfetto.where_sql f <> EmptyString)
         (Perfetto.named_filters cols target_pkg layer_hint layer_candidates).
Proof.
  unfold Perfetto.named_filters.
  assert (Heq : forall l, Forall (fun f => Perfetto.where_sql f <> EmptyString)
                                 (List.map Perfetto.layer_eq l)).
  { induction l; simpl; constructor; [discriminate|assumption]. }
  assert (Hlike : forall l, Forall (fun f => Perfetto.where_sql f <> EmptyString)
                                   (List.map Perfetto.layer_like l)).
  { induction l; simpl; constructor; [discriminate|assumption]. }
  destruct (str_in "layer_name" cols).
  - apply Forall_app. split; [apply Heq|].
    apply Forall_app. split; [apply Hlike|].
    destruct (nonempty _); repeat constructor. discriminate.
  - destruct (str_in "name" cols && nonempty _); repeat constructor. discriminate.
Qed.

(** C4. For a frame-timeline table with a [layer_name] column the filters
    are, in this order: an exact match on each layer-name candidate, a
    substring match on each candidate, a substring match on the target
    identifier (when it is not empty), and no filter. The candidates are
    the distinct non-blank strings among the layer hint and the layer
    candidates, at most the first 10. The first filter whose count is
    non-zero determines the returned FPS. For counts exact: 0, like: 12,
    unfiltered: 40 the substring match with its count 12 is selected. *)
Theorem C4_filter_order
        (tp : Perfetto.oracle) (table : string) (cols : list string)
        (target_pkg : string) (duration_ms : Z) (layer_hint : string)
        (layer_candidates : list string) :
  str_in "layer_name" cols = true ->
  let cands := take 10 (Perfetto.layer_cands layer_hint layer_candidates) in
  let pkg := Perfetto.strip target_pkg in
  let filters := Perfetto.build_filters cols target_pkg layer_hint layer_candidates in
  filters = List.map Perfetto.layer_eq cands
              ++ List.map Perfetto.layer_like cands
              ++ (if nonempty pkg then [Perfetto.pkg_like pkg] else [])
              ++ [Perfetto.unfiltered]
  /\
  (forall pre f post cnt mn mx,
      filters = pre ++ f :: post ->
      Forall (Perfetto.rejected tp cols) pre ->
      Perfetto.query_c_min_max tp cols (Perfetto.where_sql f) = Perfetto.QStats cnt mn mx ->
      cnt <> 0%N ->
      Perfetto.fps_from_table tp table cols target_pkg duration_ms layer_hint
                              layer_candidates
      = Perfetto.Returned
          (Some (fst (Perfetto.accept table f cnt mn mx duration_ms)))
          (snd (Perfetto.accept table f cnt mn mx duration_ms)))
  /\
  (exists fps span_s,
      Perfetto.fps_from_table Examples.like_trace "actual_frame_timeline_slice"
                              Examples.timeline_cols "pkg" 1500 EmptyString
                              ["SurfaceView[pkg]#0"%string]
      = Perfetto.Returned
          (Some fps)
          (Perfetto.DetailSpan "actual_frame_timeline_slice"
                               "layer_like=SurfaceView[pkg]#0" 12 span_s)
      /\ (fps == 12)%Q /\ (span_s == 1)%Q).
Proof.
  intros Hcol cands pkg filters. split; [|split].
  - subst filters cands pkg. unfold Perfetto.build_filters, Perfetto.named_filters.
    rewrite Hcol. rewrite <- !app_assoc. reflexivity.
  - intros pre f post cnt mn mx Hsplit Hpre Hq Hcnt.
    unfold Perfetto.fps_from_table. fold filters. rewrite Hsplit.
    destruct (scan_prefix_rejected tp cols table duration_ms pre (f :: post) Hpre None)
      as [u' ->].
    rewrite (scan_accepted tp cols table duration_ms f post u' cnt mn mx Hq Hcnt).
    reflexivity.
  - eexists. eexists. split; [vm_compute; reflexivity|].
    split; vm_compute; reflexivity.
Qed.

(** The theorem at the trace with counts exact: 0, like: 12,
    unfiltered: 40: the exact match is passed over and the substring match
    is accepted. *)
Lemma C4_witness :
  Perfetto.fps_from_table Examples.like_trace "actual_frame_timeline_slice"
                          Examples.timeline_cols "pkg" 1500 EmptyString
                          ["SurfaceView[pkg]#0"%string]
  = Perfetto.Returned
      (Some (fst (Perfetto.accept "actual_frame_timeline_slice"
                                  (Perfetto.layer_like "SurfaceView[pkg]#0")
                                  12 1000000000 2000000000 1500)))
      (snd (Perfetto.accept "actual_frame_timeline_slice"
                            (Perfetto.layer_like "SurfaceView[pkg]#0")
                            12 1000000000 2000000000 1500)).
Proof.
  destruct (C4_filter_order Examples.like_trace "actual_frame_timeline_slice"
                            Examples.timeline_cols "pkg" 1500 EmptyString
                            ["SurfaceView[pkg]#0"%string] eq_refl)
    as (_ & H & _).
  apply (H [Perfetto.layer_eq "SurfaceView[pkg]#0"]
           (Perfetto.layer_like "SurfaceView[pkg]#0")
           [Perfetto.pkg_like "pkg"; Perfetto.unfiltered]).
  - reflexivity.
  - constructor; [|constructor]. right. exists 0%N, 0%N. reflexivity.
  - reflexivity.
  - discriminate.
Defined.

(** C3 as stated fails: in a trace where every layer-name filter counts 0
    and the unfiltered count is 40, the function does not return "no FPS"
    with the count 40 in the diagnostic; it accepts the unfiltered filter
    and returns an FPS of 40. *)
Lemma C3_counterexample :
  Forall (fun f => Perfetto.query_c_min_max Examples.other_layers_trace
                     Examples.timeline_cols (Perfetto.where_sql f)
                   = Perfetto.QStats 0 0 0)
         (Perfetto.named_filters Examples.timeline_cols "pkg" EmptyString
                                 ["SurfaceView[pkg]#0"%string]) /\
  Perfetto.query_c_min_max Examples.other_layers_trace Examples.timeline_cols
                           EmptyString
  = Perfetto.QStats 40 1000000000 2000000000 /\
  Perfetto.fps_from_table Examples.other_layers_trace "actual_frame_timeline_slice"
                          Examples.timeline_cols "pkg" 1500 EmptyString
                          ["SurfaceView[pkg]#0"%string]
  <> Perfetto.Returned None (Perfetto.DetailZeroCount 40) /\
  (exists fps span_s,
      Perfetto.fps_from_table Examples.other_layers_trace
                              "actual_frame_timeline_slice"
                              Examples.timeline_cols "pkg" 1500 EmptyString
                              ["SurfaceView[pkg]#0"%string]
      = Perfetto.Returned
          (Some fps)
          (Perfetto.DetailSpan "actual_frame_timeline_slice" "unfiltered" 40 span_s)
      /\ (fps == 40)%Q).
Proof.
  split; [|split; [|split]].
  - repeat (constructor; [reflexivity|]). constructor.
  - reflexivity.
  - vm_compute. discriminate.
  - eexists. eexists. split; [vm_compute; reflexivity|]. vm_compute. reflexivity.
Qed.

(** C3, amended. When every filter with a [where] clause (exact, substring,
    package substring) is passed over with a zero count, the unfiltered
    count decides: if it is zero as well, the function returns no FPS value
    and a diagnostic that carries the unfiltered count (0); if it is
    non-zero, the unfiltered filter is accepted as the last resort and the
    FPS is computed from its count. *)
Theorem C3_unfiltered_last_resort
        (tp : Perfetto.oracle) (table : string) (cols : list string)
        (target_pkg : string) (duration_ms : Z) (layer_hint : string)
        (layer_candidates : list string) (cnt0 mn mx : N) :
  Forall (Perfetto.rejected tp cols)
         (Perfetto.named_filters cols target_pkg layer_hint layer_candidates) ->
  Perfetto.query_c_min_max tp cols EmptyString = Perfetto.QStats cnt0 mn mx ->
  Perfetto.fps_from_table tp table cols target_pkg duration_ms layer_hint
                          layer_candidates
  = if (cnt0 =? 0)%N
    then Perfetto.Returned None (Perfetto.DetailZeroCount 0)
    else Perfetto.Returned
           (Some (fst (Perfetto.accept table Perfetto.unfiltered cnt0 mn mx duration_ms)))
           (snd (Perfetto.accept table Perfetto.unfiltered cnt0 mn mx duration_ms)).
Proof.
  intros Hrej Hq. unfold Perfetto.fps_from_table, Perfetto.build_filters.
  rewrite scan_named_rejected by (assumption || apply named_filters_where).
  destruct (cnt0 =? 0)%N eqn:E.
  - apply N.eqb_eq in E. subst cnt0. simpl. rewrite Hq. reflexivity.
  - apply N.eqb_neq in E.
    rewrite (scan_accepted tp cols table duration_ms Perfetto.unfiltered [] None
                           cnt0 mn mx Hq E).
    reflexivity.
Qed.

(** The amended claim at the trace with 40 rows whose layers do not match,
    and at the empty trace. *)
Lemma C3_witness :
  Perfetto.fps_from_table Examples.other_layers_trace "actual_frame_timeline_slice"
                          Examples.timeline_cols "pkg" 1500 EmptyString
                          ["SurfaceView[pkg]#0"%string]
  = Perfetto.Returned
      (Some (fst (Perfetto.accept "actual_frame_timeline_slice" Perfetto.unfiltered
                                  40 1000000000 2000000000 1500)))
      (snd (Perfetto.accept "actual_frame_timeline_slice" Perfetto.unfiltered
                            40 1000000000 2000000000 1500))
  /\
  Perfetto.fps_from_table Examples.empty_trace "actual_frame_timeline_slice"
                          Examples.timeline_cols "pkg" 1500 EmptyString
                          ["SurfaceView[pkg]#0"%string]
  = Perfetto.Returned None (Perfetto.DetailZeroCount 0).
Proof.
  split.
  - apply (C3_unfiltered_last_resort
             Examples.other_layers_trace "actual_frame_timeline_slice"
             Examples.timeline_cols "pkg" 1500 EmptyString
             ["SurfaceView[pkg]#0"%string] 40 1000000000 2000000000).
    + repeat (constructor; [right; exists 0%N, 0%N; reflexivity|]). constructor.
    + reflexivity.
  - apply (C3_unfiltered_last_resort
             Examples.empty_trace "actual_frame_timeline_slice"
             Examples.timeline_cols "pkg" 1500 EmptyString
             ["SurfaceView[pkg]#0"%string] 0 0 0).
    + repeat (constructor; [right; exists 0%N, 0%N; reflexivity|]). constructor.
    + reflexivity.
Defined.

(** ** The sampler loop, one iteration at a time *)

Lemma cycle_cfg_path (hz cores : Z) (s : Sampler.state) (i : Sampler.inputs) :
  Sampler.cfg_path_mode (fst (Sampler.cycle hz cores s i))
  = Sampler.r_mode (Sampler.read_config (Sampler.cfg_path_mode s) (Sampler.cfg_read i)) /\
  Sampler.o_cfg_probes (snd (Sampler.cycle hz cores s i))
  = Sampler.r_probes (Sampler.read_config (Sampler.cfg_path_mode s) (Sampler.cfg_read i)).
Proof. cycle_cases; auto. Qed.

Lemma cycle_metrics_path (hz cores : Z) (s : Sampler.state) (i : Sampler.inputs) :
  (Sampler.o_phase (snd (Sampler.cycle hz cores s i)) = Sampler.Idle /\
   Sampler.metrics_path_mode (fst (Sampler.cycle hz cores s i)) = Sampler.metrics_path_mode s /\
   Sampler.o_write_probes (snd (Sampler.cycle hz cores s i)) = [])
  \/
  (Sampler.o_phase (snd (Sampler.cycle hz cores s i)) = Sampler.Sampling /\
   Sampler.metrics_path_mode (fst (Sampler.cycle hz cores s i))
   = Sampler.w_mode (Sampler.write_metrics (Sampler.metrics_path_mode s) (Sampler.metrics_write i)) /\
   Sampler.o_write_probes (snd (Sampler.cycle hz cores s i))
   = Sampler.w_probes (Sampler.write_metrics (Sampler.metrics_path_mode s) (Sampler.metrics_write i))).
Proof. cycle_cases; auto. Qed.

Lemma run_cons (hz cores : Z) (s : Sampler.state) (i : Sampler.inputs)
      (l : list Sampler.inputs) :
  Sampler.run hz cores s (i :: l)
  = (fst (Sampler.run hz cores (fst (Sampler.cycle hz cores s i)) l),
     snd (Sampler.cycle hz cores s i)
         :: snd (Sampler.run hz cores (fst (Sampler.cycle hz cores s i)) l)).
Proof.
  simpl. destruct (Sampler.cycle hz cores s i) as [s1 o]. cbn [fst snd].
  destruct (Sampler.run hz cores s1 l) as [s2 os]. reflexivity.
Qed.

(** ** C8: the cached path is tried first and, while it works, alone *)

Lemma read_success_cached (mode : Sampler.path_mode)
      (res : Sampler.path -> Sampler.read_result) (p : Sampler.path)
      (c : Sampler.cfg_fields) :
  In p (Sampler.r_probes (Sampler.read_config mode res)) ->
  res p = Sampler.ReadOk c ->
  Sampler.r_mode (Sampler.read_config mode res) = Sampler.Mode p.
Proof.
  unfold Sampler.read_config.
  destruct mode as [|[|]]; simpl;
    destruct (res Sampler.External) as [c1|e1] eqn:E1;
    destruct (res Sampler.RunAs) as [c2|e2] eqn:E2; simpl;
    split_ifs; simpl; destruct p; intuition congruence.
Qed.

Lemma read_cached_first (p : Sampler.path)
      (res : Sampler.path -> Sampler.read_result) :
  List.hd_error (Sampler.r_probes (Sampler.read_config (Sampler.Mode p) res)) = Some p.
Proof.
  unfold Sampler.read_config.
  destruct p; simpl;
    destruct (res Sampler.External) as [c1|e1];
    destruct (res Sampler.RunAs) as [c2|e2]; simpl; split_ifs; reflexivity.
Qed.

Lemma read_cached_alone (p : Sampler.path)
      (res : Sampler.path -> Sampler.read_result) (c : Sampler.cfg_fields) :
  res p = Sampler.ReadOk c ->
  Sampler.read_config (Sampler.Mode p) res
  = Sampler.ReadOut c (Sampler.source_of p) (Sampler.Mode p) [p].
Proof.
  intros H. unfold Sampler.read_config. destruct p; simpl; rewrite H; reflexivity.
Qed.

Lemma write_success_cached (mode : Sampler.path_mode)
      (res : Sampler.path -> option Sampler.exn) (p : Sampler.path) :
  In p (Sampler.w_probes (Sampler.write_metrics mode res)) ->
  res p = None ->
  Sampler.w_mode (Sampler.write_metrics mode res) = Sampler.Mode p.
Proof.
  unfold Sampler.write_metrics.
  destruct mode as [|[|]]; simpl;
    destruct (res Sampler.External) as [e1|] eqn:E1;
    destruct (res Sampler.RunAs) as [e2|] eqn:E2; simpl;
    split_ifs; simpl; destruct p; intuition congruence.
Qed.

Lemma write_cached_first (p : Sampler.path)
      (res : Sampler.path -> option Sampler.exn) :
  List.hd_error (Sampler.w_probes (Sampler.write_metrics (Sampler.Mode p) res)) = Some p.
Proof.
  unfold Sampler.write_metrics.
  destruct p; simpl;
    destruct (res Sampler.External) as [e1|];
    destruct (res Sampler.RunAs) as [e2|]; simpl; split_ifs; reflexivity.
Qed.

Lemma write_cached_alone (p : Sampler.path)
      (res : Sampler.path -> option Sampler.exn) :
  res p = None ->
  Sampler.write_metrics (Sampler.Mode p) res
  = Sampler.WriteOut true (Sampler.Mode p) [p].
Proof.
  intros H. unfold Sampler.write_metrics. destruct p; simpl; rewrite H; reflexivity.
Qed.

Lemma run_cfg_path_stable (hz cores : Z) (p : Sampler.path) (l : list Sampler.inputs) :
  forall s,
    Sampler.cfg_path_mode s = Sampler.Mode p ->
    Forall (fun i => exists c, Sampler.cfg_read i p = Sampler.ReadOk c) l ->
    Sampler.cfg_path_mode (fst (Sampler.run hz cores s l)) = Sampler.Mode p /\
    Forall (fun o => Sampler.o_cfg_probes o = [p]) (snd (Sampler.run hz cores s l)).
Proof.
  induction l as [|i l IH]; intros s Hs Hall.
  - simpl. split; [assumption|constructor].
  - inversion Hall as [|? ? [c Hc] Hl]; subst. rewrite run_cons. cbn [fst snd].
    destruct (cycle_cfg_path hz cores s i) as [Hm Hp].
    rewrite Hs, (read_cached_alone p _ c Hc) in Hm, Hp. simpl in Hm, Hp.
    destruct (IH _ Hm Hl) as [IH1 IH2].
    split; [exact IH1|]. constructor; assumption.
Qed.

Lemma run_metrics_path_stable (hz cores : Z) (p : Sampler.path) (l : list Sampler.inputs) :
  forall s,
    Sampler.metrics_path_mode s = Sampler.Mode p ->
    Forall (fun i => Sampler.metrics_write i p = None) l ->
    Sampler.metrics_path_mode (fst (Sampler.run hz cores s l)) = Sampler.Mode p /\
    Forall (fun o => forall q, In q (Sampler.o_write_probes o) -> q = p)
           (snd (Sampler.run hz cores s l)).
Proof.
  induction l as [|i l IH]; intros s Hs Hall.
  - simpl. split; [assumption|constructor].
  - inversion Hall as [|? ? Hw Hl]; subst. rewrite run_cons. cbn [fst snd].
    destruct (cycle_metrics_path hz cores s i) as [(_ & Hm & Hp) | (_ & Hm & Hp)].
    + rewrite Hs in Hm. destruct (IH _ Hm Hl) as [IH1 IH2].
      split; [exact IH1|]. constructor; [|assumption].
      rewrite Hp. intros q [].
    + rewrite Hs, (write_cached_alone p _ Hw) in Hm, Hp. simpl in Hm, Hp.
      destruct (IH _ Hm Hl) as [IH1 IH2].
      split; [exact IH1|]. constructor; [|assumption].
      rewrite Hp. intros q [<- | []]. reflexivity.
Qed.

(** C8. For the configuration read and for the metrics write: a path
    that succeeds becomes the cached path mode; the cached path is the
    first one tried in the next cycle; and when the cached path succeeds,
    it is the only path probed and the path mode does not change. Hence
    over any number of cycles in which the cached path keeps succeeding
    (in particular when the same configuration is read again) the path
    mode stays the same and the other path is never probed. *)
Theorem C8_cached_path_first :
  (forall mode res p c,
      In p (Sampler.r_probes (Sampler.read_config mode res)) ->
      res p = Sampler.ReadOk c ->
      Sampler.r_mode (Sampler.read_config mode res) = Sampler.Mode p) /\
  (forall p res,
      List.hd_error (Sampler.r_probes (Sampler.read_config (Sampler.Mode p) res))
      = Some p) /\
  (forall p res c,
      res p = Sampler.ReadOk c ->
      Sampler.read_config (Sampler.Mode p) res
      = Sampler.ReadOut c (Sampler.source_of p) (Sampler.Mode p) [p]) /\
  (forall mode res p,
      In p (Sampler.w_probes (Sampler.write_metrics mode res)) ->
      res p = None ->
      Sampler.w_mode (Sampler.write_metrics mode res) = Sampler.Mode p) /\
  (forall p res,
      List.hd_error (Sampler.w_probes (Sampler.write_metrics (Sampler.Mode p) res))
      = Some p) /\
  (forall p res,
      res p = None ->
      Sampler.write_metrics (Sampler.Mode p) res
      = Sampler.WriteOut true (Sampler.Mode p) [p]) /\
  (forall hz cores p l s,
      Sampler.cfg_path_mode s = Sampler.Mode p ->
      Forall (fun i => exists c, Sampler.cfg_read i p = Sampler.ReadOk c) l ->
      Sampler.cfg_path_mode (fst (Sampler.run hz cores s l)) = Sampler.Mode p /\
      Forall (fun o => Sampler.o_cfg_probes o = [p])
             (snd (Sampler.run hz cores s l))) /\
  (forall hz cores p l s,
      Sampler.metrics_path_mode s = Sampler.Mode p ->
      Forall (fun i => Sampler.metrics_write i p = None) l ->
      Sampler.metrics_path_mode (fst (Sampler.run hz cores s l)) = Sampler.Mode p /\
      Forall (fun o => forall q, In q (Sampler.o_write_probes o) -> q = p)
             (snd (Sampler.run hz cores s l))).
Proof.
  split; [exact read_success_cached|].
  split; [exact read_cached_first|].
  split; [exact read_cached_alone|].
  split; [exact write_success_cached|].
  split; [exact write_cached_first|].
  split; [exact write_cached_alone|].
  split; [exact run_cfg_path_stable|exact run_metrics_path_stable].
Qed.

(** The theorem at a session whose first cycle read the configuration
    from the external path: two more cycles that read the same
    configuration keep both path modes and probe only the external
    path. *)
Lemma C8_witness :
  let s := fst (Sampler.cycle 100 8 Sampler.init (Examples.sample_at 1000 100)) in
  let l := [Examples.sample_at 2000 110; Examples.sample_at 3000 120] in
  (Sampler.cfg_path_mode (fst (Sampler.run 100 8 s l)) = Sampler.Mode Sampler.External /\
   Forall (fun o => Sampler.o_cfg_probes o = [Sampler.External])
          (snd (Sampler.run 100 8 s l))) /\
  (Sampler.metrics_path_mode (fst (Sampler.run 100 8 s l)) = Sampler.Mode Sampler.External /\
   Forall (fun o => forall q, In q (Sampler.o_write_probes o) -> q = Sampler.External)
          (snd (Sampler.run 100 8 s l))) /\
  Sampler.r_mode (Sampler.read_config Sampler.ModeNone
                                      (Sampler.cfg_read (Examples.sample_at 1000 100)))
  = Sampler.Mode Sampler.External /\
  Sampler.w_mode (Sampler.write_metrics Sampler.ModeNone
                                        (Sampler.metrics_write (Examples.sample_at 1000 100)))
  = Sampler.Mode Sampler.External.
Proof.
  destruct C8_cached_path_first as (H1 & _ & _ & H4 & _ & _ & H7 & H8).
  split; [|split; [|split]].
  - apply H7; [reflexivity|]. repeat constructor; eexists; reflexivity.
  - apply H8; [reflexivity|]. repeat constructor.
  - apply (H1 Sampler.ModeNone _ Sampler.External Examples.cfg_x);
      [left; reflexivity|reflexivity].
  - apply (H4 Sampler.ModeNone _ Sampler.External); [left; reflexivity|reflexivity].
Defined.

(** ** C2: the last known good configuration *)

Lemma no_valid_cfg_read (m : Sampler.path_mode) (i : Sampler.inputs) :
  Sampler.no_valid_cfg i ->
  Sampler.valid (Sampler.r_cfg (Sampler.read_config m (Sampler.cfg_read i))) = false.
Proof.
  intros H. pose proof (H Sampler.External) as He. pose proof (H Sampler.RunAs) as Hr.
  unfold Sampler.read_config.
  destruct m as [|[|]]; simpl;
    destruct (Sampler.cfg_read i Sampler.External) as [c1|e1];
    destruct (Sampler.cfg_read i Sampler.RunAs) as [c2|e2]; simpl;
    split_ifs; simpl; auto.
Qed.

Lemma cycle_resolve (hz cores : Z) (s : Sampler.state) (i : Sampler.inputs) :
  let rc := Sampler.resolve
              (Sampler.good s)
              (Sampler.r_cfg (Sampler.read_config (Sampler.cfg_path_mode s)
                                                  (Sampler.cfg_read i))) in
  Sampler.good (fst (Sampler.cycle hz cores s i)) = fst rc /\
  Sampler.o_pkg (snd (Sampler.cycle hz cores s i)) = Sampler.target_pkg (snd rc) /\
  Sampler.o_phase (snd (Sampler.cycle hz cores s i))
  = if Sampler.valid (snd rc) then Sampler.Sampling else Sampler.Idle.
Proof.
  cycle_cases; unfold Sampler.valid;
    (split; [reflexivity|]; split; [reflexivity|]);
    destruct (Sampler.enabled _), (nonempty _); simpl in *; congruence.
Qed.

(** A failed read while a last good configuration is held. *)
Lemma resolve_failure (g : Sampler.last_good) (c : Sampler.cfg_fields) :
  Sampler.has_last_good g = true -> Sampler.valid c = false ->
  Sampler.resolve g c
  = if Sampler.cfg_read_fail_streak g + 1 <=? 10
    then (Sampler.LastGood (Sampler.last_good_enabled g) (Sampler.last_good_target_pkg g)
                           (Sampler.last_good_sampling_ms g) (Sampler.last_good_keys g)
                           (Sampler.cfg_read_fail_streak g + 1),
          Sampler.Cfg (Sampler.last_good_enabled g) (Sampler.last_good_target_pkg g)
                      (Sampler.last_good_sampling_ms g) (Sampler.last_good_keys g))
    else (Sampler.LastGood false EmptyString (Sampler.last_good_sampling_ms g)
                           (Sampler.last_good_keys g) 0, c).
Proof. intros Hg Hc. unfold Sampler.resolve. rewrite Hc, Hg. reflexivity. Qed.

Lemma run_failures (hz cores : Z) (l : list Sampler.inputs) :
  forall s,
    Sampler.has_last_good (Sampler.good s) = true ->
    Sampler.cfg_read_fail_streak (Sampler.good s) + Z.of_nat (length l) <= 10 ->
    Forall Sampler.no_valid_cfg l ->
    Forall (fun o => Sampler.o_phase o = Sampler.Sampling /\
                     Sampler.o_pkg o = Sampler.last_good_target_pkg (Sampler.good s))
           (snd (Sampler.run hz cores s l)) /\
    Sampler.has_last_good (Sampler.good (fst (Sampler.run hz cores s l))) = true /\
    Sampler.last_good_target_pkg (Sampler.good (fst (Sampler.run hz cores s l)))
    = Sampler.last_good_target_pkg (Sampler.good s) /\
    Sampler.cfg_read_fail_streak (Sampler.good (fst (Sampler.run hz cores s l)))
    = Sampler.cfg_read_fail_streak (Sampler.good s) + Z.of_nat (length l).
Proof.
  induction l as [|i l IH]; intros s Hg Hlen Hall.
  - simpl. repeat split; [constructor|assumption|lia].
  - inversion Hall as [|? ? Hi Hl]; subst. rewrite run_cons. cbn [fst snd].
    destruct (cycle_resolve hz cores s i) as (Hgood & Hpkg & Hphase).
    rewrite (resolve_failure _ _ Hg (no_valid_cfg_read _ i Hi)) in Hgood, Hpkg, Hphase.
    simpl length in Hlen.
    assert (E : (Sampler.cfg_read_fail_streak (Sampler.good s) + 1 <=? 10) = true)
      by (apply Z.leb_le; lia).
    rewrite E in Hgood, Hpkg, Hphase. cbn [fst snd] in Hgood, Hpkg, Hphase.
    assert (Hv : Sampler.valid
                   (Sampler.Cfg (Sampler.last_good_enabled (Sampler.good s))
                                (Sampler.last_good_target_pkg (Sampler.good s))
                                (Sampler.last_good_sampling_ms (Sampler.good s))
                                (Sampler.last_good_keys (Sampler.good s))) = true)
      by exact Hg.
    rewrite Hv in Hphase.
    destruct (IH (fst (Sampler.cycle hz cores s i))) as (I1 & I2 & I3 & I4).
    + rewrite Hgood. exact Hg.
    + rewrite Hgood. simpl. lia.
    + exact Hl.
    + rewrite Hgood in I1, I3, I4. simpl in I1, I3, I4.
      repeat split.
      * constructor; [split; assumption|exact I1].
      * exact I2.
      * exact I3.
      * rewrite I4. simpl length. lia.
Qed.

(** C2 as stated fails: in a session that read a valid configuration once
    and then fails to read it 10 times in a row, the 10th failure still
    samples with the last known good configuration, which is kept. *)
Lemma C2_counterexample :
  Forall Sampler.no_valid_cfg (List.tl (Examples.outage 10)) /\
  length (List.tl (Examples.outage 10)) = 10%nat /\
  Sampler.has_last_good
    (Sampler.good (fst (Sampler.cycle 100 8 Sampler.init (Examples.sample_at 1000 100))))
  = true /\
  nth 10 (List.map Sampler.o_phase
                   (snd (Sampler.run 100 8 Sampler.init (Examples.outage 10))))
      Sampler.Idle
  = Sampler.Sampling /\
  nth 10 (List.map Sampler.o_phase
                   (snd (Sampler.run 100 8 Sampler.init (Examples.outage 10))))
      Sampler.Idle
  <> Sampler.Idle /\
  Sampler.has_last_good
    (Sampler.good (fst (Sampler.run 100 8 Sampler.init (Examples.outage 10)))) = true.
Proof.
  split; [|split; [|split; [|split; [|split]]]].
  - repeat (constructor; [intros p; exact I|]). constructor.
  - reflexivity.
  - vm_compute. reflexivity.
  - vm_compute. reflexivity.
  - vm_compute. discriminate.
  - vm_compute. reflexivity.
Qed.

(** C2, amended. While a last known good configuration is held, counted
    from the read that stored it: each of up to 10 consecutive failed
    reads reuses the last known good configuration and the loop keeps
    sampling its package; the 11th consecutive failure discards the last
    known good configuration and the loop goes to Idle. *)
Theorem C2_last_good_ten_failures
        (hz cores : Z) (s : Sampler.state) (l : list Sampler.inputs) :
  Sampler.has_last_good (Sampler.good s) = true ->
  Sampler.cfg_read_fail_streak (Sampler.good s) = 0 ->
  Forall Sampler.no_valid_cfg l ->
  (length l <= 10)%nat ->
  let s' := fst (Sampler.run hz cores s l) in
  Forall (fun o => Sampler.o_phase o = Sampler.Sampling /\
                   Sampler.o_pkg o = Sampler.last_good_target_pkg (Sampler.good s))
         (snd (Sampler.run hz cores s l)) /\
  Sampler.has_last_good (Sampler.good s') = true /\
  Sampler.last_good_target_pkg (Sampler.good s')
  = Sampler.last_good_target_pkg (Sampler.good s) /\
  (length l = 10%nat ->
   forall i, Sampler.no_valid_cfg i ->
             Sampler.o_phase (snd (Sampler.cycle hz cores s' i)) = Sampler.Idle /\
             Sampler.has_last_good (Sampler.good (fst (Sampler.cycle hz cores s' i)))
             = false).
Proof.
  intros Hg Hz Hall Hlen s'.
  destruct (run_failures hz cores l s Hg ltac:(lia) Hall) as (R1 & R2 & R3 & R4).
  fold s' in R2, R3, R4.
  split; [exact R1|]. split; [exact R2|]. split; [exact R3|].
  intros Hten i Hi.
  destruct (cycle_resolve hz cores s' i) as (Hgood & _ & Hphase).
  pose proof (no_valid_cfg_read (Sampler.cfg_path_mode s') i Hi) as Hinv.
  rewrite (resolve_failure _ _ R2 Hinv) in Hgood, Hphase.
  assert (E : (Sampler.cfg_read_fail_streak (Sampler.good s') + 1 <=? 10) = false)
    by (apply Z.leb_gt; lia).
  rewrite E in Hgood, Hphase. cbn [fst snd] in Hgood, Hphase.
  rewrite Hinv in Hphase. split; [exact Hphase|]. rewrite Hgood. reflexivity.
Qed.

(** The amended claim at the session of the counterexample: the ten
    failures sample package [x], the eleventh goes to Idle and drops the
    last known good configuration. *)
Lemma C2_witness :
  let s := fst (Sampler.cycle 100 8 Sampler.init (Examples.sample_at 1000 100)) in
  let l := List.tl (Examples.outage 10) in
  let s' := fst (Sampler.run 100 8 s l) in
  Forall (fun o => Sampler.o_phase o = Sampler.Sampling /\
                   Sampler.o_pkg o = "x"%string)
         (snd (Sampler.run 100 8 s l)) /\
  Sampler.o_phase (snd (Sampler.cycle 100 8 s' (Examples.unreachable_at 23000)))
  = Sampler.Idle /\
  Sampler.has_last_good
    (Sampler.good (fst (Sampler.cycle 100 8 s' (Examples.unreachable_at 23000))))
  = false.
Proof.
  intros s l s'.
  assert (Hall : Forall Sampler.no_valid_cfg l).
  { repeat (constructor; [intros p; exact I|]). constructor. }
  destruct (C2_last_good_ten_failures 100 8 s l eq_refl eq_refl Hall ltac:(simpl; lia))
    as (H1 & _ & _ & H4).
  split; [exact H1|].
  apply (H4 eq_refl (Examples.unreachable_at 23000)). intros p. exact I.
Defined.

(** ** C5: what a transition into Idle resets *)

(** An iteration that goes to Idle resets the aggregate CPU counters, the
    byte counters and the frame counters, and leaves [cpu_state] as it
    was. *)
Lemma idle_resets (hz cores : Z) (s : Sampler.state) (i : Sampler.inputs) :
  Sampler.o_phase (snd (Sampler.cycle hz cores s i)) = Sampler.Idle ->
  let s' := fst (Sampler.cycle hz cores s i) in
  Sampler.cpu_total_state s' = Sampler.CpuTotalState0 /\
  Sampler.net_state s' = Sampler.NetState0 /\
  Sampler.gfx_state s' = Sampler.GfxState0 /\
  Sampler.sf_state s' = Sampler.SfLatencyState0 /\
  Sampler.fps_bg_producing s' = false /\
  Sampler.last_fps_bg_at_ms s' = 0 /\
  Sampler.cpu_state s' = Sampler.cpu_state s.
Proof. cycle_cases; intros H; [repeat split|discriminate]. Qed.

(** C5 fails on the code for [CpuState]: the Idle branch resets
    [cpu_total_state] and [net_state] (and the frame-rate state) but has no
    assignment to [cpu_state]. In a session that samples once (100 ticks at
    1000ms), loses the device for 11 cycles, the last of which goes to
    Idle, and samples again (150 ticks at 60000ms), the state after the
    Idle cycle still holds the old tick count, and the first sample after
    re-enabling reports [cpu_fg_app_pct], computed against it, while
    [cpu_total_pct] and [net_rx_kbps] are absent. *)
Theorem C5_idle_keeps_cpu_state :
  let idle := Sampler.run 100 8 Sampler.init (Examples.outage 11) in
  let back := Sampler.run 100 8 Sampler.init (Examples.outage_and_back 11) in
  nth 11 (List.map Sampler.o_phase (snd idle)) Sampler.Sampling = Sampler.Idle /\
  Sampler.cpu_state (fst idle) = Sampler.MkCpu (Some 100) (Some 1000) /\
  Sampler.cpu_total_state (fst idle) = Sampler.CpuTotalState0 /\
  Sampler.net_state (fst idle) = Sampler.NetState0 /\
  (exists o pct,
      last (snd back) = Some o /\
      Sampler.o_phase o = Sampler.Sampling /\
      Sampler.o_values o !! "cpu_fg_app_pct"%string = Some pct /\
      Sampler.o_values o !! "cpu_total_pct"%string = None /\
      Sampler.o_values o !! "net_rx_kbps"%string = None).
Proof.
  intros idle back. split; [|split; [|split; [|split]]]; try (vm_compute; reflexivity).
  eexists. eexists. split; [vm_compute; reflexivity|].
  split; [reflexivity|]. split; vm_compute; [reflexivity|split; reflexivity].
Qed.

(** ** C9: the legacy frame counter is disabled after three failures *)

Lemma sample_fps_disabled (now_ms : Z) (want_fps producing : bool) (last_at : Z)
      (g : Sampler.GfxState) (r : Sampler.gfx_result) (read : nat -> Sampler.latest) :
  Sampler.disabled g = true ->
  Sampler.f_gfx (Sampler._sample_fps now_ms want_fps producing last_at g r read) = g /\
  Sampler.f_gfx_called (Sampler._sample_fps now_ms want_fps producing last_at g r read)
  = false.
Proof.
  intros Hd. unfold Sampler._sample_fps. rewrite Hd.
  destruct want_fps; simpl; [|auto].
  destruct producing; simpl.
  - destruct (Sampler.wait_fresh read last_at 0 7 (None, 0)) as [[[v|] n] seen];
      simpl; auto.
  - destruct (Sampler.wait_fresh read last_at 0 11 (None, 0)) as [[v n] seen];
      simpl; auto.
Qed.

Lemma gfx_try_failure (g : Sampler.GfxState) (now_ms : Z) (r : Sampler.gfx_result) :
  Sampler.gfx_failure g r = true ->
  snd (Sampler.gfx_try g now_ms r) = None /\
  Sampler.fail_streak (fst (Sampler.gfx_try g now_ms r)) = Sampler.fail_streak g + 1 /\
  Sampler.disabled (fst (Sampler.gfx_try g now_ms r)) = Sampler.disabled g.
Proof.
  unfold Sampler.gfx_failure, Sampler.gfx_try.
  destruct r as [[[total|] janky]|]; simpl; auto.
  destruct (Sampler.gfx_prev_total g), (Sampler.gfx_prev_t_ms g); try discriminate.
  destruct (0 <? Z.max 0 (total - z)); simpl; [discriminate|auto].
Qed.

(** One failing call of the fallback chain: the counter is run, the streak
    grows by one, and the flag is set exactly when the streak reaches 3. *)
Lemma sample_fps_failure (now_ms last_at : Z) (g : Sampler.GfxState)
      (r : Sampler.gfx_result) (read : nat -> Sampler.latest) :
  Sampler.disabled g = false ->
  Sampler.gfx_failure g r = true ->
  let f := Sampler._sample_fps now_ms true false last_at g r read in
  Sampler.f_gfx_called f = true /\
  Sampler.fail_streak (Sampler.f_gfx f) = Sampler.fail_streak g + 1 /\
  Sampler.disabled (Sampler.f_gfx f) = (3 <=? Sampler.fail_streak g + 1).
Proof.
  intros Hd Hf. destruct (gfx_try_failure g now_ms r Hf) as (Hv & Hs & Hdis).
  unfold Sampler._sample_fps. rewrite Hd. simpl.
  destruct (Sampler.gfx_try g now_ms r) as [g' v]. simpl in Hv, Hs, Hdis. subst v.
  destruct (Sampler.wait_fresh read last_at 0 11 (None, 0)) as [[v n] seen]. simpl.
  unfold Sampler.gfx_disable. rewrite Hs, Hdis, Hd.
  destruct (3 <=? Sampler.fail_streak g + 1); simpl;
    repeat split; congruence.
Qed.

(** After a failing call the flag is set or the streak has grown. *)
Lemma sample_fps_failure_progress (now_ms last_at : Z) (g : Sampler.GfxState)
      (r : Sampler.gfx_result) (read : nat -> Sampler.latest) (k : Z) :
  Sampler.gfx_failure g r = true ->
  Sampler.disabled g = true \/ k <= Sampler.fail_streak g ->
  let g' := Sampler.f_gfx (Sampler._sample_fps now_ms true false last_at g r read) in
  Sampler.disabled g' = true \/ (k + 1 <= Sampler.fail_streak g' /\ k + 1 < 3).
Proof.
  intros Hf Hk g'. destruct (Sampler.disabled g) eqn:Hd.
  - left. subst g'.
    destruct (sample_fps_disabled now_ms true false last_at g r read Hd) as [-> _].
    exact Hd.
  - destruct Hk as [Hk|Hk]; [discriminate|].
    destruct (sample_fps_failure now_ms last_at g r read Hd Hf) as (_ & Hs & Hdis).
    fold g' in Hs, Hdis.
    destruct (3 <=? Sampler.fail_streak g + 1) eqn:E.
    + left. exact Hdis.
    + right. apply Z.leb_gt in E. lia.
Qed.

Lemma cycle_gfx_disabled (hz cores : Z) (s : Sampler.state) (i : Sampler.inputs) :
  Sampler.disabled (Sampler.gfx_state s) = true ->
  Sampler.o_phase (snd (Sampler.cycle hz cores s i)) = Sampler.Sampling ->
  Sampler.disabled (Sampler.gfx_state (fst (Sampler.cycle hz cores s i))) = true /\
  Sampler.o_gfx_called (snd (Sampler.cycle hz cores s i)) = false.
Proof.
  intros Hd. cycle_cases; intros H; [discriminate|].
  match goal with
  | |- context [Sampler._sample_fps ?a ?b ?c ?d ?e ?f ?g] =>
      destruct (sample_fps_disabled a b c d e f g Hd) as [-> ->]
  end.
  auto.
Qed.

Lemma run_gfx_disabled (hz cores : Z) (l : list Sampler.inputs) :
  forall s,
    Sampler.disabled (Sampler.gfx_state s) = true ->
    Forall (fun o => Sampler.o_phase o = Sampler.Sampling)
           (snd (Sampler.run hz cores s l)) ->
    Forall (fun o => Sampler.o_gfx_called o = false) (snd (Sampler.run hz cores s l)) /\
    Sampler.disabled (Sampler.gfx_state (fst (Sampler.run hz cores s l))) = true.
Proof.
  induction l as [|i l IH]; intros s Hd Hall.
  - simpl. split; [constructor|assumption].
  - rewrite run_cons in *. cbn [fst snd] in *.
    inversion Hall as [|? ? Hi Hl]; subst.
    destruct (cycle_gfx_disabled hz cores s i Hd Hi) as [Hd' Hc].
    destruct (IH _ Hd' Hl) as [I1 I2].
    split; [constructor; assumption|exact I2].
Qed.

(** C9. Three consecutive failures of the legacy frame counter (the
    command raises, no total is found, or the total has not grown) set its
    disabled flag; while the flag is set, no sampling cycle runs the
    counter and the flag stays set; a cycle that goes to Idle clears the
    flag. *)
Theorem C9_gfx_disabled_for_session :
  (forall g now1 now2 now3 la1 la2 la3 r1 r2 r3 rd1 rd2 rd3,
      0 <= Sampler.fail_streak g ->
      let g1 := Sampler.f_gfx (Sampler._sample_fps now1 true false la1 g r1 rd1) in
      let g2 := Sampler.f_gfx (Sampler._sample_fps now2 true false la2 g1 r2 rd2) in
      let g3 := Sampler.f_gfx (Sampler._sample_fps now3 true false la3 g2 r3 rd3) in
      Sampler.gfx_failure g r1 = true ->
      Sampler.gfx_failure g1 r2 = true ->
      Sampler.gfx_failure g2 r3 = true ->
      Sampler.disabled g3 = true) /\
  (forall hz cores s l,
      Sampler.disabled (Sampler.gfx_state s) = true ->
      Forall (fun o => Sampler.o_phase o = Sampler.Sampling)
             (snd (Sampler.run hz cores s l)) ->
      Forall (fun o => Sampler.o_gfx_called o = false)
             (snd (Sampler.run hz cores s l)) /\
      Sampler.disabled (Sampler.gfx_state (fst (Sampler.run hz cores s l))) = true) /\
  (forall hz cores s i,
      Sampler.o_phase (snd (Sampler.cycle hz cores s i)) = Sampler.Idle ->
      Sampler.disabled (Sampler.gfx_state (fst (Sampler.cycle hz cores s i))) = false).
Proof.
  split; [|split].
  - intros g now1 now2 now3 la1 la2 la3 r1 r2 r3 rd1 rd2 rd3 H0 g1 g2 g3 F1 F2 F3.
    pose proof (sample_fps_failure_progress now1 la1 g r1 rd1 0 F1 (or_intror H0)) as P1.
    fold g1 in P1.
    assert (Q1 : Sampler.disabled g1 = true \/ 1 <= Sampler.fail_streak g1)
      by (destruct P1 as [?|[? _]]; auto).
    pose proof (sample_fps_failure_progress now2 la2 g1 r2 rd2 1 F2 Q1) as P2.
    fold g2 in P2.
    assert (Q2 : Sampler.disabled g2 = true \/ 2 <= Sampler.fail_streak g2)
      by (destruct P2 as [?|[? _]]; auto).
    pose proof (sample_fps_failure_progress now3 la3 g2 r3 rd3 2 F3 Q2) as P3.
    fold g3 in P3. destruct P3 as [?|[_ ?]]; [assumption|lia].
  - intros hz cores s l. apply run_gfx_disabled.
  - intros hz cores s i H. destruct (idle_resets hz cores s i H) as (_ & _ & -> & _).
    reflexivity.
Qed.

(** The theorem at a fresh counter that fails three times, at the session
    with an outage (the counter is disabled by the third cycle without an
    answer, and the following cycles sample without running it), and at an
    Idle cycle. *)
Lemma C9_witness :
  Sampler.disabled
    (Sampler.f_gfx
       (Sampler._sample_fps
          3000 true false 0
          (Sampler.f_gfx
             (Sampler._sample_fps
                2000 true false 0
                (Sampler.f_gfx
                   (Sampler._sample_fps 1000 true false 0 Sampler.GfxState0 None
                                        Examples.no_latest))
                None Examples.no_latest))
          None Examples.no_latest)) = true /\
  (let s := fst (Sampler.run 100 8 Sampler.init (Examples.outage 3)) in
   let l := [Examples.unreachable_at 9000; Examples.sample_at 10000 120] in
   Forall (fun o => Sampler.o_gfx_called o = false) (snd (Sampler.run 100 8 s l)) /\
   Sampler.disabled (Sampler.gfx_state (fst (Sampler.run 100 8 s l))) = true) /\
  Sampler.disabled
    (Sampler.gfx_state
       (fst (Sampler.cycle 100 8 Sampler.init (Examples.unreachable_at 1000)))) = false.
Proof.
  destruct C9_gfx_disabled_for_session as (Ha & Hb & Hc).
  split; [|split].
  - apply (Ha Sampler.GfxState0 1000 2000 3000 0 0 0 None None None
              Examples.no_latest Examples.no_latest Examples.no_latest);
      [apply Z.le_refl|reflexivity|reflexivity|reflexivity].
  - apply Hb; [vm_compute; reflexivity|].
    vm_compute. repeat constructor.
  - apply Hc. vm_compute. reflexivity.
Defined.

(** ** C10: producing without a frame rate *)




Lemma values_fps (a b c f d : option Q) :
  Sampler.put "net_tx_kbps" a
    (Sampler.put "net_rx_kbps" b
       (Sampler.put "cpu_total_pct" c
          (Sampler.put "fps_app" f
             (Sampler.put "cpu_fg_app_pct" d (∅ : gmap string Q)))))
    !! "fps_app"%string = f.
Proof.
  destruct a, b, c, f, d; unfold Sampler.put; simplify_map_eq; reflexivity.
Qed.






(** * Further properties of the code *)

(** ** The events counted in a snapshot *)

Lemma dedup_from_incl (l : list Q) :
  forall prev x, In x (FrameEvents.dedup_from prev l) -> In x l.
Proof.
  induction l as [|t r IH]; intros prev x; simpl; [tauto|].
  destruct (Qgtb (Float64.sub t prev) FrameEvents.dedup_gap); simpl.
  - intros [H|H]; [left; exact H|right; eapply IH; exact H].
  - intros H. right. eapply IH; exact H.
Qed.

Lemma dedup_close_incl (l : list Q) (x : Q) :
  In x (FrameEvents.dedup_close l) -> In x l.
Proof.
  destruct l as [|t0 r]; simpl; [tauto|].
  intros [H|H]; [left; exact H|right; eapply dedup_from_incl; exact H].
Qed.

Lemma retained_incl (d : FrameEvents.dump) (since_ts x : Q) :
  In x (FrameEvents.retained d since_ts) ->
  In x (fst (FrameEvents.frame_timestamps d since_ts)).
Proof.
  unfold FrameEvents.retained. intros H. apply dedup_close_incl in H.
  eapply Permutation_in; [symmetry; apply sort_ts_perm|exact H].
Qed.

Lemma frame_timestamps_later (d : FrameEvents.dump) (since_ts x : Q) :
  In x (fst (FrameEvents.frame_timestamps d since_ts)) ->
  (since_ts < x)%Q /\
  (In x (List.map FrameEvents.mark_ts
                  (List.filter (fun m => FrameEvents.is_frame_marker (FrameEvents.mark_name m))
                               (FrameEvents.marks d)))
   \/ In x (FrameEvents.vsyncs d)).
Proof.
  unfold FrameEvents.frame_timestamps.
  destruct (FrameEvents.marker_timestamps d since_ts) as [|a la] eqn:Ea.
  - destruct (FrameEvents.vsync_timestamps d since_ts) as [|b lb] eqn:Eb;
      cbn [fst]; [intros []|].
    intros H. rewrite <- Eb in H. unfold FrameEvents.vsync_timestamps in H.
    apply filter_In in H. destruct H as [Hin Hgt]. apply Qgtb_true in Hgt. auto.
  - simpl fst. intros H. rewrite <- Ea in H. unfold FrameEvents.marker_timestamps in H.
    apply in_map_iff in H. destruct H as (m & <- & Hm).
    apply filter_In in Hm. destruct Hm as [Hin Hc].
    apply andb_true_iff in Hc. destruct Hc as [Hmk Hgt]. apply Qgtb_true in Hgt.
    split; [exact Hgt|]. left. apply in_map_iff. exists m. split; [reflexivity|].
    apply filter_In. auto.
Qed.

(** X1. Every event that [_count_frame_events] retains is a frame marker
    or a composition event of the dump and is strictly later than
    [since_ts]; the count is 0 exactly when the dump has no such event,
    and then the result is [(0, 0.0, 0.0, "no_events")]; otherwise the
    reported minimum is later than [since_ts] and not after the reported
    maximum. *)
Theorem X1_counted_events_are_new (d : FrameEvents.dump) (since_ts : Q) :
  let raw := fst (FrameEvents.frame_timestamps d since_ts) in
  let r := FrameEvents._count_frame_events d since_ts in
  Forall (fun x => (since_ts < x)%Q /\
                   (In x (List.map FrameEvents.mark_ts
                                   (List.filter
                                      (fun m => FrameEvents.is_frame_marker
                                                  (FrameEvents.mark_name m))
                                      (FrameEvents.marks d)))
                    \/ In x (FrameEvents.vsyncs d)))
         (FrameEvents.retained d since_ts) /\
  (raw = [] <-> fst (fst (fst r)) = 0%nat) /\
  (raw = [] -> r = (0%nat, 0%Q, 0%Q, FrameEvents.NoEvents)) /\
  (raw <> [] ->
   (since_ts < snd (fst (fst r)))%Q /\ (snd (fst (fst r)) <= snd (fst r))%Q).
Proof.
  intros raw r. split; [|split; [|split]].
  - apply List.Forall_forall. intros x Hx.
    apply frame_timestamps_later, retained_incl, Hx.
  - subst r raw. unfold FrameEvents._count_frame_events.
    destruct (fst (FrameEvents.frame_timestamps d since_ts)) as [|a l] eqn:E.
    + simpl. tauto.
    + cbn [fst]. split; [discriminate|]. intros H. exfalso.
      assert (Hne : FrameEvents.retained d since_ts <> []).
      { unfold FrameEvents.retained. rewrite E.
        apply dedup_close_nonempty, sort_ts_nonempty. discriminate. }
      destruct (FrameEvents.retained d since_ts); [congruence|discriminate].
  - subst r raw. unfold FrameEvents._count_frame_events. intros ->. reflexivity.
  - intros Hne.
    destruct (count_frame_events_some d since_ts Hne) as [Hcnt Hpos].
    subst r. rewrite Hcnt. cbn [fst snd].
    pose proof (apart_between _ (dedup_close_apart
                  (FrameEvents.sort_ts (fst (FrameEvents.frame_timestamps d since_ts)))))
      as Hb.
    fold (FrameEvents.retained d since_ts) in Hb.
    destruct (FrameEvents.retained d since_ts) as [|k0 kr] eqn:Ek;
      [simpl in Hpos; lia|].
    assert (Hin : In k0 (FrameEvents.retained d since_ts)) by (rewrite Ek; left; reflexivity).
    apply retained_incl, frame_timestamps_later in Hin. destruct Hin as [Hlt _].
    split; [exact Hlt|].
    inversion Hb as [|? ? [_ Hle] _]; subst. exact Hle.
Qed.

(** The theorem at the dump with four swaps read after 1.001s: the two
    later swaps are retained, the minimum is 1.020s. *)
Lemma X1_witness :
  (1001 # 1000 < snd (fst (fst (FrameEvents._count_frame_events
                                  Examples.four_swaps (1001 # 1000)))))%Q /\
  FrameEvents._count_frame_events (FrameEvents.Dump [] []) 0
  = (0%nat, 0%Q, 0%Q, FrameEvents.NoEvents).
Proof.
  split.
  - destruct (X1_counted_events_are_new Examples.four_swaps (1001 # 1000))
      as (_ & _ & _ & H).
    apply H. discriminate.
  - destruct (X1_counted_events_are_new (FrameEvents.Dump [] []) 0)
      as (_ & _ & H & _).
    apply H. reflexivity.
Defined.

(** ** Invariants of the background worker *)

Lemma natfloat_nonneg (n : nat) : (0 <= natfloat n)%Q.
Proof. unfold natfloat, Qle. simpl. lia. Qed.

Lemma natfloat_pos (n : nat) : (0 < natfloat (S n))%Q.
Proof. unfold natfloat, Qlt. simpl. lia. Qed.

Lemma Qdiv_nonneg (a b : Q) : (0 <= a -> 0 < b -> 0 <= a / b)%Q.
Proof.
  intros Ha Hb. apply Qle_shift_div_l; [exact Hb|]. lra.
Qed.

(** The result of [_count_frame_events]: nothing, or a positive count
    with a minimum later than [since_ts] and not after the maximum. *)
Lemma count_frame_events_shape (d : FrameEvents.dump) (since_ts : Q) :
  FrameEvents._count_frame_events d since_ts = (0%nat, 0%Q, 0%Q, FrameEvents.NoEvents)
  \/ exists n mn mx m,
      FrameEvents._count_frame_events d since_ts = (S n, mn, mx, m) /\
      (since_ts < mn)%Q /\ (mn <= mx)%Q.
Proof.
  destruct (fst (FrameEvents.frame_timestamps d since_ts)) as [|a l] eqn:E.
  - left. unfold FrameEvents._count_frame_events. rewrite E. reflexivity.
  - right.
    assert (Hne : fst (FrameEvents.frame_timestamps d since_ts) <> [])
      by (rewrite E; discriminate).
    destruct (count_frame_events_some d since_ts Hne) as [Hcnt Hpos].
    pose proof (apart_between _ (dedup_close_apart
                  (FrameEvents.sort_ts (fst (FrameEvents.frame_timestamps d since_ts)))))
      as Hb.
    fold (FrameEvents.retained d since_ts) in Hb.
    destruct (FrameEvents.retained d since_ts) as [|k0 kr] eqn:Ek;
      [simpl in Hpos; lia|].
    assert (Hin : In k0 (FrameEvents.retained d since_ts)) by (rewrite Ek; left; reflexivity).
    apply retained_incl, frame_timestamps_later in Hin. destruct Hin as [Hlt _].
    exists (length kr), k0, (List.last (k0 :: kr) 0%Q),
      (snd (FrameEvents.frame_timestamps d since_ts)).
    split; [exact Hcnt|]. split; [exact Hlt|].
    inversion Hb as [|? ? [_ Hle] _]; subst. exact Hle.
Qed.

Lemma iter_ok (w : Worker.worker) (t : Worker.tick) :
  Invariants.worker_ok w -> Invariants.worker_ok (Worker.iter w t).
Proof.
  intros Hw. pose proof Hw as (Hce & Hlim & Hsc & Hfps & Hts & Hrun).
  unfold Worker.iter. destruct (Worker._mode w) eqn:Hm; [exact Hw| |].
  - unfold Worker._loop_atrace_iter.
    destruct (negb (Worker.active w)); [exact Hw|].
    specialize (Hlim eq_refl).
    destruct (Worker.dump_res t) as [|d].
    + destruct (5 <=? Worker.consecutive_empty w + 1) eqn:E.
      * unfold Invariants.worker_ok, Worker.switch_to_perfetto, Worker.sample_count.
        simpl. repeat split; auto; try lia; discriminate.
      * apply Z.leb_gt in E.
        unfold Invariants.worker_ok, Worker.sample_count. simpl.
        repeat split; auto; lia.
    + destruct (count_frame_events_shape d (Worker.last_max_ts w))
        as [-> | (n & mn & mx & m & -> & Hlt & Hle)].
      * simpl.
        destruct (10 <=? Worker.consecutive_empty w + 1) eqn:E.
        -- unfold Invariants.worker_ok, Worker.switch_to_perfetto, Worker.sample_count.
           simpl. repeat split; auto; try lia; discriminate.
        -- apply Z.leb_gt in E.
           unfold Invariants.worker_ok, Worker.sample_count. simpl.
           repeat split; auto; lia.
      * assert (Hn : (0 <? Z.of_nat (S n)) = true) by (apply Z.ltb_lt; lia).
        rewrite Hn. cbn [andb].
        destruct (Qgtb mx mn) eqn:Eg.
        -- apply Qgtb_true in Eg.
           unfold Invariants.worker_ok, Worker.sample_count, Worker.publish.
           unfold Worker.sample_count in Hsc.
           simpl. repeat split; auto; try lia; try lra.
           intros f [= <-].
           destruct (Qgtb (Float64.sub mx mn) FrameEvents.min_span) eqn:Es.
           ++ apply Qgtb_true in Es. destruct min_span_double as [_ H5].
              unfold Float64.div. apply round_nonneg, Qdiv_nonneg;
                [apply natfloat_nonneg|lra].
           ++ apply natfloat_nonneg.
        -- unfold Invariants.worker_ok, Worker.sample_count, Worker.publish.
           unfold Worker.sample_count in Hsc.
           simpl. repeat split; auto; try lia.
           ++ intros f [= <-]. apply natfloat_nonneg.
           ++ destruct (Qgtb mx 0) eqn:E0; [apply Qgtb_true in E0; lra|exact Hts].
  - unfold Worker._loop_perfetto_iter.
    destruct (negb (Worker.active w)); [exact Hw|].
    destruct (Worker.offline_res t) as [|fps detail]; [exact Hw|].
    unfold Invariants.worker_ok, Worker.sample_count, Worker.publish_offline in *.
    destruct fps as [f|]; [destruct (Qle_bool 0 f) eqn:Ef|]; simpl;
      rewrite ?Hm; repeat split; auto; try lia; try congruence.
    intros f' [= <-]. apply Qle_bool_iff. exact Ef.
Qed.

Lemma apply_ok (w : Worker.worker) (e : Invariants.worker_event) :
  Invariants.worker_ok w -> Invariants.worker_ok (Invariants.worker_apply w e).
Proof.
  destruct e as [c|ok|t]; simpl; [| |apply iter_ok].
  - intros H. exact H.
  - intros (Hce & Hlim & Hsc & Hfps & Hts & Hrun).
    unfold Invariants.worker_ok, Worker.start, Worker.sample_count. simpl.
    repeat split; auto; try lia; try lra. intros ->. reflexivity.
Qed.

(** X2. Whatever happens to the background worker (calls of [configure],
    the start of its loop with or without atrace, iterations of the
    streaming and of the offline loop with any inputs): the counter of
    consecutive empty or failed reads is never negative and stays below 10
    while streaming, [sample_count] is never negative, a published FPS is
    never negative, the consumed boundary is never negative, and atrace is
    only left running in the streaming mode. *)
Theorem X2_worker_invariant (es : list Invariants.worker_event) :
  Invariants.worker_ok (Invariants.worker_trace Worker.init es).
Proof.
  unfold Invariants.worker_trace.
  assert (H0 : Invariants.worker_ok Worker.init).
  { unfold Invariants.worker_ok, Worker.sample_count. simpl.
    repeat split; try lia; try lra; discriminate. }
  revert H0. generalize Worker.init.
  induction es as [|e es IH]; intros w Hw; [exact Hw|].
  simpl. apply IH, apply_ok, Hw.
Qed.

(** X3. One iteration of the worker's loop never lowers [sample_count],
    never lowers the consumed boundary [last_max_ts] and never removes a
    published FPS. An iteration of the streaming loop whose snapshot holds
    frame events publishes: [sample_count] grows by exactly one, the slot
    is stamped with the current time, and the boundary moves strictly
    forward to the latest retained event. *)
Theorem X3_boundary_advances (w : Worker.worker) (t : Worker.tick) :
  (0 <= Worker.last_max_ts w)%Q ->
  Worker.sample_count w <= Worker.sample_count (Worker.iter w t) /\
  (Worker.last_max_ts w <= Worker.last_max_ts (Worker.iter w t))%Q /\
  (Worker._latest_fps (Worker.shared w) <> None ->
   Worker._latest_fps (Worker.shared (Worker.iter w t)) <> None) /\
  (Invariants.publishes w t ->
   Worker.sample_count (Worker.iter w t) = Worker.sample_count w + 1 /\
   Worker._latest_fps_at_ms (Worker.shared (Worker.iter w t)) = Worker.now_ms t /\
   (Worker.last_max_ts w < Worker.last_max_ts (Worker.iter w t))%Q /\
   exists d, Worker.dump_res t = Worker.DumpText d /\
             Worker.last_max_ts (Worker.iter w t)
             = snd (fst (FrameEvents._count_frame_events d (Worker.last_max_ts w)))).
Proof.
  intros Hts. unfold Worker.iter, Invariants.publishes, Worker.frames_of.
  destruct (Worker._mode w) eqn:Hm.
  - four_parts; [lia|lra|auto|not_publishing].
  - unfold Worker._loop_atrace_iter.
    destruct (Worker.active w) eqn:Ha; simpl negb; cbv iota;
      [|four_parts; [lia|lra|auto|not_publishing]].
    destruct (Worker.dump_res t) as [|d] eqn:Hd.
    + destruct (5 <=? Worker.consecutive_empty w + 1);
        unfold Worker.switch_to_perfetto, Worker.sample_count; simpl;
        (four_parts; [lia|lra|auto|not_publishing]).
    + destruct (count_frame_events_shape d (Worker.last_max_ts w))
        as [E | (n & mn & mx & m & E & Hlt & Hle)]; rewrite E.
      * simpl.
        destruct (10 <=? Worker.consecutive_empty w + 1);
          unfold Worker.switch_to_perfetto, Worker.sample_count; simpl;
          (four_parts; [lia|lra|auto|not_publishing]).
      * assert (Hn : (0 <? Z.of_nat (S n)) = true) by (apply Z.ltb_lt; lia).
        rewrite Hn. cbn [andb fst snd].
        destruct (Qgtb mx mn) eqn:Eg.
        -- apply Qgtb_true in Eg.
           unfold Worker.sample_count, Worker.publish. simpl.
           four_parts; [lia|lra|discriminate|].
           intros _. split; [reflexivity|]. split; [reflexivity|].
           split; [lra|]. exists d. split; [reflexivity|]. rewrite E. reflexivity.
        -- assert (E0 : Qgtb mx 0 = true) by (apply Qgtb_true; lra).
           unfold Worker.sample_count, Worker.publish. simpl. rewrite E0.
           four_parts; [lia|lra|discriminate|].
           intros _. split; [reflexivity|]. split; [reflexivity|].
           split; [lra|]. exists d. split; [reflexivity|]. rewrite E. reflexivity.
  - unfold Worker._loop_perfetto_iter.
    destruct (negb (Worker.active w));
      [four_parts; [lia|lra|auto|not_publishing]|].
    destruct (Worker.offline_res t) as [|fps detail];
      [four_parts; [lia|lra|auto|not_publishing]|].
    unfold Worker.sample_count, Worker.publish_offline.
    destruct fps as [f|]; [destruct (Qle_bool 0 f)|]; simpl;
      (four_parts; [lia|lra|auto; discriminate|not_publishing]).
Qed.

(** The theorem at the streaming worker reading the four swaps: the
    boundary moves from 0 to 1.500s. *)
Lemma X3_witness :
  Worker.sample_count (Worker.iter Examples.streaming_worker Examples.swaps_tick)
  = Worker.sample_count Examples.streaming_worker + 1 /\
  (Worker.last_max_ts Examples.streaming_worker
   < Worker.last_max_ts (Worker.iter Examples.streaming_worker Examples.swaps_tick))%Q.
Proof.
  destruct (X3_boundary_advances Examples.streaming_worker Examples.swaps_tick
                                 (Qle_refl 0))
    as (_ & _ & _ & H).
  destruct H as (H1 & _ & H3 & _).
  - split; [reflexivity|]. split; [reflexivity|]. exists 2%nat. reflexivity.
  - split; assumption.
Defined.

(** ** The two-path negotiation *)

Lemma nodup_paths (l : list Sampler.path) :
  l = [Sampler.External] \/ l = [Sampler.RunAs] \/
  l = [Sampler.External; Sampler.RunAs] \/ l = [Sampler.RunAs; Sampler.External] ->
  NoDup l /\ (1 <= length l <= 2)%nat.
Proof.
  assert (Hnd1 : forall p : Sampler.path, NoDup [p])
    by (intros p; apply NoDup_singleton).
  intros [-> | [-> | [-> | ->]]]; (split; [|simpl; lia]); auto;
    (constructor; [|apply Hnd1]); intros H; apply list_elem_of_In in H;
    destruct H as [H|[]]; discriminate.
Qed.

Lemma read_probes_shape (mode : Sampler.path_mode)
      (res : Sampler.path -> Sampler.read_result) :
  let l := Sampler.r_probes (Sampler.read_config mode res) in
  l = [Sampler.External] \/ l = [Sampler.RunAs] \/
  l = [Sampler.External; Sampler.RunAs] \/ l = [Sampler.RunAs; Sampler.External].
Proof. read_cases mode res; auto. Qed.

Lemma read_outcome (mode : Sampler.path_mode)
      (res : Sampler.path -> Sampler.read_result) :
  let o := Sampler.read_config mode res in
  (exists p c, last (Sampler.r_probes o) = Some p /\ res p = Sampler.ReadOk c /\
               Sampler.r_cfg o = c /\ Sampler.r_mode o = Sampler.Mode p /\
               Sampler.r_source o = Sampler.source_of p)
  \/
  ((forall p, In p (Sampler.r_probes o) -> exists e, res p = Sampler.ReadRaised e) /\
   Sampler.r_cfg o = Sampler.empty_cfg /\ Sampler.r_mode o = mode /\
   (Sampler.r_source o = Sampler.SrcMissing \/
    Sampler.r_source o = Sampler.SrcNotDebuggable)).
Proof.
  read_cases mode res;
    first
      [ left; eexists; eexists; split; [reflexivity|]; split; [eassumption|];
        repeat split; reflexivity
      | right; split;
        [ intros p Hp; simpl in Hp;
          repeat (destruct Hp as [<-|Hp]; [eexists; eassumption|]); destruct Hp
        | auto ] ].
Qed.

Lemma read_first_generic (mode : Sampler.path_mode)
      (res : Sampler.path -> Sampler.read_result) (p : Sampler.path) (e : Sampler.exn) :
  List.hd_error (Sampler.order mode) = Some p ->
  res p = Sampler.ReadRaised e ->
  Sampler.is_adb_error e = true ->
  Sampler.no_such_file e = false -> Sampler.permission_denied e = false ->
  Sampler.r_probes (Sampler.read_config mode res) = [p].
Proof.
  intros Hp He Ha Hn Hd. unfold Sampler.read_config.
  destruct mode as [|[|]]; simpl in *; injection Hp as <-; rewrite He; simpl;
    rewrite Ha, Hn, Hd; reflexivity.
Qed.

Lemma read_not_debuggable (mode : Sampler.path_mode)
      (res : Sampler.path -> Sampler.read_result) :
  let o := Sampler.read_config mode res in
  Sampler.r_source o = Sampler.SrcNotDebuggable ->
  length (Sampler.r_probes o) = 2%nat /\
  exists p e, last (Sampler.r_probes o) = Some p /\ res p = Sampler.ReadRaised e /\
              Sampler.is_adb_error e = true /\ Sampler.not_debuggable e = true.
Proof.
  read_cases mode res; intros Hs; try discriminate;
    (split; [reflexivity|]); eexists; eexists;
    (split; [reflexivity|]); (split; [eassumption|]);
    match goal with
    | H : (_ && _) = true |- _ => apply andb_true_iff in H; exact H
    end.
Qed.

(** X4. Reading the configuration probes one or two paths and never the
    same path twice. Either some probed path returned a configuration:
    it is the last one probed, its text is the one used, and it becomes
    the path mode; or none did: the empty configuration is used and the
    path mode is unchanged. When the first path raises an [AdbError] that
    is neither "no such file" nor "permission denied", the second path is
    not tried. The source "run-as:not-debuggable" is reported only after
    both paths were probed and the second raised an [AdbError] that says
    so. *)
Theorem X4_read_probes (mode : Sampler.path_mode)
        (res : Sampler.path -> Sampler.read_result) :
  let o := Sampler.read_config mode res in
  NoDup (Sampler.r_probes o) /\
  (1 <= length (Sampler.r_probes o) <= 2)%nat /\
  ((exists p c, last (Sampler.r_probes o) = Some p /\ res p = Sampler.ReadOk c /\
                Sampler.r_cfg o = c /\ Sampler.r_mode o = Sampler.Mode p /\
                Sampler.r_source o = Sampler.source_of p)
   \/
   ((forall p, In p (Sampler.r_probes o) -> exists e, res p = Sampler.ReadRaised e) /\
    Sampler.r_cfg o = Sampler.empty_cfg /\ Sampler.r_mode o = mode /\
    (Sampler.r_source o = Sampler.SrcMissing \/
     Sampler.r_source o = Sampler.SrcNotDebuggable))) /\
  (forall p e,
      List.hd_error (Sampler.order mode) = Some p ->
      res p = Sampler.ReadRaised e ->
      Sampler.is_adb_error e = true ->
      Sampler.no_such_file e = false -> Sampler.permission_denied e = false ->
      Sampler.r_probes o = [p]) /\
  (Sampler.r_source o = Sampler.SrcNotDebuggable ->
   length (Sampler.r_probes o) = 2%nat /\
   exists p e, last (Sampler.r_probes o) = Some p /\ res p = Sampler.ReadRaised e /\
               Sampler.is_adb_error e = true /\ Sampler.not_debuggable e = true).
Proof.
  intros o.
  destruct (nodup_paths _ (read_probes_shape mode res)) as [Hnd Hlen].
  split; [exact Hnd|]. split; [exact Hlen|].
  split; [apply read_outcome|].
  split; [apply read_first_generic|apply read_not_debuggable].
Qed.

(** The theorem at a device on which the external path times out (only
    the external path is probed) and at one on which the file is missing
    externally and run-as refuses a package that is not debuggable. *)
Lemma X4_witness :
  Sampler.r_probes (Sampler.read_config Sampler.ModeNone
                                        (fun _ => Sampler.ReadRaised Examples.adb_timeout))
  = [Sampler.External] /\
  length (Sampler.r_probes
            (Sampler.read_config
               (Sampler.Mode Sampler.External)
               (fun p => match p with
                         | Sampler.External =>
                             Sampler.ReadRaised (Sampler.Exn true false true false)
                         | Sampler.RunAs =>
                             Sampler.ReadRaised (Sampler.Exn true true false false)
                         end))) = 2%nat.
Proof.
  split.
  - destruct (X4_read_probes Sampler.ModeNone
                             (fun _ => Sampler.ReadRaised Examples.adb_timeout))
      as (_ & _ & _ & H & _).
    apply (H Sampler.External Examples.adb_timeout); reflexivity.
  - match goal with
    | |- length (Sampler.r_probes (Sampler.read_config ?m ?r)) = _ =>
        destruct (X4_read_probes m r) as (_ & _ & _ & _ & H)
    end.
    apply H. reflexivity.
Defined.

Lemma write_probes_shape (mode : Sampler.path_mode)
      (res : Sampler.path -> option Sampler.exn) :
  let l := Sampler.w_probes (Sampler.write_metrics mode res) in
  l = [Sampler.External] \/ l = [Sampler.RunAs] \/
  l = [Sampler.External; Sampler.RunAs] \/ l = [Sampler.RunAs; Sampler.External].
Proof. write_cases mode res; auto. Qed.

Lemma write_outcome (mode : Sampler.path_mode)
      (res : Sampler.path -> option Sampler.exn) :
  let o := Sampler.write_metrics mode res in
  (Sampler.w_wrote o = true /\
   exists p, last (Sampler.w_probes o) = Some p /\ res p = None /\
             Sampler.w_mode o = Sampler.Mode p)
  \/
  (Sampler.w_wrote o = false /\ Sampler.w_mode o = mode /\
   forall p, In p (Sampler.w_probes o) -> exists e, res p = Some e).
Proof.
  write_cases mode res;
    first
      [ left; split; [reflexivity|]; eexists; split; [reflexivity|];
        split; [eassumption|reflexivity]
      | right; split; [reflexivity|]; split; [reflexivity|];
        intros p Hp; simpl in Hp;
        repeat (destruct Hp as [<-|Hp]; [eexists; eassumption|]); destruct Hp ].
Qed.

Lemma write_first_generic (mode : Sampler.path_mode)
      (res : Sampler.path -> option Sampler.exn) (p : Sampler.path) (e : Sampler.exn) :
  List.hd_error (Sampler.order mode) = Some p ->
  res p = Some e ->
  Sampler.is_adb_error e = true ->
  Sampler.no_such_file e = false -> Sampler.permission_denied e = false ->
  Sampler.write_metrics mode res = Sampler.WriteOut false mode [p].
Proof.
  intros Hp He Ha Hn Hd. unfold Sampler.write_metrics.
  destruct mode as [|[|]]; simpl in *; injection Hp as <-; rewrite He; simpl;
    rewrite Ha, Hn, Hd; reflexivity.
Qed.

(** X5. Writing the metrics probes one or two paths and never the same
    path twice. [wrote] is true exactly when a probed path accepted the
    text: that path is the last one probed and becomes the path mode. When
    every probed path raised, [wrote] is false and the path mode is left
    as it was. When the first path raises an [AdbError] that is neither
    "no such file" nor "permission denied", the write is given up for this
    cycle without a second probe. *)
Theorem X5_write_probes (mode : Sampler.path_mode)
        (res : Sampler.path -> option Sampler.exn) :
  let o := Sampler.write_metrics mode res in
  NoDup (Sampler.w_probes o) /\
  (1 <= length (Sampler.w_probes o) <= 2)%nat /\
  ((Sampler.w_wrote o = true /\
    exists p, last (Sampler.w_probes o) = Some p /\ res p = None /\
              Sampler.w_mode o = Sampler.Mode p)
   \/
   (Sampler.w_wrote o = false /\ Sampler.w_mode o = mode /\
    forall p, In p (Sampler.w_probes o) -> exists e, res p = Some e)) /\
  (forall p e,
      List.hd_error (Sampler.order mode) = Some p ->
      res p = Some e ->
      Sampler.is_adb_error e = true ->
      Sampler.no_such_file e = false -> Sampler.permission_denied e = false ->
      o = Sampler.WriteOut false mode [p]).
Proof.
  intros o.
  destruct (nodup_paths _ (write_probes_shape mode res)) as [Hnd Hlen].
  split; [exact Hnd|]. split; [exact Hlen|].
  split; [apply write_outcome|apply write_first_generic].
Qed.

(** The theorem at a device on which the cached run-as path times out. *)
Lemma X5_witness :
  Sampler.write_metrics (Sampler.Mode Sampler.RunAs)
                        (fun _ => Some Examples.adb_timeout)
  = Sampler.WriteOut false (Sampler.Mode Sampler.RunAs) [Sampler.RunAs].
Proof.
  destruct (X5_write_probes (Sampler.Mode Sampler.RunAs)
                            (fun _ => Some Examples.adb_timeout))
    as (_ & _ & _ & H).
  apply (H Sampler.RunAs Examples.adb_timeout); reflexivity.
Defined.

(** ** Invariants of the sampler loop *)

Lemma resolve_ok (g : Sampler.last_good) (c : Sampler.cfg_fields) :
  Invariants.good_ok g -> Invariants.good_ok (fst (Sampler.resolve g c)).
Proof.
  intros Hg. pose proof Hg as (Hs & Hz & Hn). unfold Sampler.resolve.
  destruct (Sampler.valid c) eqn:Hv.
  - unfold Invariants.good_ok, Sampler.has_last_good. simpl.
    unfold Sampler.valid in Hv. apply andb_true_iff in Hv. destruct Hv as [He Hp].
    rewrite He, Hp. simpl. repeat split; try lia; auto; try discriminate.
  - destruct (Sampler.has_last_good g) eqn:Hh; [|exact Hg].
    destruct (Sampler.cfg_read_fail_streak g + 1 <=? 10) eqn:E.
    + apply Z.leb_le in E.
      unfold Invariants.good_ok, Sampler.has_last_good in *. simpl.
      rewrite Hh. repeat split; try lia; auto; try discriminate.
    + unfold Invariants.good_ok, Sampler.has_last_good. simpl.
      repeat split; try lia; auto; try discriminate.
Qed.

Lemma cycle_idle_outputs (hz cores : Z) (s : Sampler.state) (i : Sampler.inputs) :
  Sampler.o_phase (snd (Sampler.cycle hz cores s i)) = Sampler.Idle ->
  Sampler.o_values (snd (Sampler.cycle hz cores s i)) = ∅ /\
  Sampler.o_write_probes (snd (Sampler.cycle hz cores s i)) = [] /\
  Sampler.o_wrote (snd (Sampler.cycle hz cores s i)) = false /\
  Sampler.o_gfx_called (snd (Sampler.cycle hz cores s i)) = false /\
  Sampler.metrics_path_mode (fst (Sampler.cycle hz cores s i))
  = Sampler.metrics_path_mode s.
Proof. cycle_cases; intros H; [repeat split|discriminate]. Qed.

Lemma cycle_sampling_pkg (hz cores : Z) (s : Sampler.state) (i : Sampler.inputs) :
  Sampler.o_phase (snd (Sampler.cycle hz cores s i)) = Sampler.Sampling ->
  nonempty (Sampler.o_pkg (snd (Sampler.cycle hz cores s i))) = true.
Proof.
  destruct (cycle_resolve hz cores s i) as (_ & -> & ->).
  unfold Sampler.valid.
  destruct (Sampler.enabled _); simpl; [|discriminate].
  destruct (nonempty _); [reflexivity|discriminate].
Qed.

Lemma run_good_ok (hz cores : Z) (l : list Sampler.inputs) :
  forall s,
    Invariants.good_ok (Sampler.good s) ->
    Invariants.good_ok (Sampler.good (fst (Sampler.run hz cores s l))) /\
    Forall (fun o =>
              (Sampler.o_phase o = Sampler.Sampling -> nonempty (Sampler.o_pkg o) = true) /\
              (Sampler.o_phase o = Sampler.Idle ->
               Sampler.o_values o = ∅ /\ Sampler.o_write_probes o = [] /\
               Sampler.o_wrote o = false /\ Sampler.o_gfx_called o = false))
           (snd (Sampler.run hz cores s l)).
Proof.
  induction l as [|i l IH]; intros s Hs.
  - simpl. split; [exact Hs|constructor].
  - rewrite run_cons. cbn [fst snd].
    assert (Hs' : Invariants.good_ok (Sampler.good (fst (Sampler.cycle hz cores s i)))).
    { destruct (cycle_resolve hz cores s i) as (-> & _ & _). apply resolve_ok, Hs. }
    destruct (IH _ Hs') as [I1 I2]. split; [exact I1|].
    constructor; [|exact I2]. split.
    + apply cycle_sampling_pkg.
    + intros H. destruct (cycle_idle_outputs hz cores s i H) as (A & B & C & D & _).
      auto.
Qed.

(** X6. In every run of the sampler loop from its initial state, whatever
    the device answers: the counter of consecutive failed configuration
    reads stays between 0 and 10 and is 0 whenever no configuration is
    cached; a cached configuration always names a package; a cycle that
    samples always has a non-empty target package; and a cycle that is
    Idle puts nothing in [values], attempts no write and does not run the
    legacy frame counter. *)
Theorem X6_sampler_invariant (hz cores : Z) (l : list Sampler.inputs) :
  Invariants.good_ok (Sampler.good (fst (Sampler.run hz cores Sampler.init l))) /\
  Forall (fun o =>
            (Sampler.o_phase o = Sampler.Sampling -> nonempty (Sampler.o_pkg o) = true) /\
            (Sampler.o_phase o = Sampler.Idle ->
             Sampler.o_values o = ∅ /\ Sampler.o_write_probes o = [] /\
             Sampler.o_wrote o = false /\ Sampler.o_gfx_called o = false))
         (snd (Sampler.run hz cores Sampler.init l)).
Proof.
  apply run_good_ok. unfold Invariants.good_ok. simpl.
  repeat split; try lia; auto; try discriminate.
Qed.

(** The theorem at the session with an outage of 11 cycles: the cached
    configuration is dropped with a streak of 0, and the first cycle,
    which samples, has a package. *)
Lemma X6_witness :
  Invariants.good_ok
    (Sampler.good (fst (Sampler.run 100 8 Sampler.init (Examples.outage 11)))) /\
  nonempty (Sampler.o_pkg (snd (Sampler.cycle 100 8 Sampler.init
                                              (Examples.sample_at 1000 100)))) = true.
Proof.
  split.
  - apply (X6_sampler_invariant 100 8 (Examples.outage 11)).
  - destruct (X6_sampler_invariant 100 8 [Examples.sample_at 1000 100]) as [_ H].
    rewrite run_cons in H. cbn [fst snd] in H.
    inversion H as [|? ? [Hs _] _]; subst. apply Hs. reflexivity.
Defined.

(** ** Rate metrics need two samples *)

Lemma values_keys (a b c f d : option Q) :
  let m := Sampler.put "net_tx_kbps" a
             (Sampler.put "net_rx_kbps" b
                (Sampler.put "cpu_total_pct" c
                   (Sampler.put "fps_app" f
                      (Sampler.put "cpu_fg_app_pct" d (∅ : gmap string Q))))) in
  m !! "net_tx_kbps"%string = a /\
  m !! "net_rx_kbps"%string = b /\
  m !! "cpu_total_pct"%string = c /\
  m !! "cpu_fg_app_pct"%string = d.
Proof.
  destruct a, b, c, f, d; unfold Sampler.put; simplify_map_eq; auto.
Qed.

Lemma sample_cpu_sys_first (want : bool) (stat : option (option (list Z))) :
  fst (Sampler._sample_cpu_sys want Sampler.CpuTotalState0 stat) = None.
Proof.
  unfold Sampler._sample_cpu_sys. destruct want; [|reflexivity].
  destruct stat as [[vals|]|]; reflexivity.
Qed.

Lemma sample_net_first (now_ms : Z) (want : bool) (dev : option (Z * Z)) :
  fst (Sampler._sample_net now_ms want Sampler.NetState0 dev) = None.
Proof.
  unfold Sampler._sample_net. destruct want; [|reflexivity].
  destruct dev as [[rx tx]|]; [|reflexivity].
  destruct ((0 <? rx) || (0 <? tx)); reflexivity.
Qed.

Lemma sample_cpu_first (hz cores now_ms : Z) (want_cpu want_pss : bool)
      (pidof : option (option string)) (proc_stat : option (option Z)) :
  fst (Sampler._sample_pid_and_cpu hz cores now_ms want_cpu want_pss
                                   Sampler.CpuState0 pidof proc_stat) = None.
Proof.
  unfold Sampler._sample_pid_and_cpu.
  destruct (negb (want_cpu || want_pss)); [reflexivity|].
  destruct pidof as [[pid|]|]; try reflexivity.
  destruct want_cpu; [|reflexivity].
  destruct proc_stat as [[ticks|]|]; reflexivity.
Qed.

(** What a cycle reports for the rate metrics whose state is reset. *)
Lemma cycle_reset_rates (hz cores : Z) (s : Sampler.state) (i : Sampler.inputs) :
  let o := snd (Sampler.cycle hz cores s i) in
  (Sampler.cpu_total_state s = Sampler.CpuTotalState0 ->
   Sampler.o_values o !! "cpu_total_pct"%string = None) /\
  (Sampler.net_state s = Sampler.NetState0 ->
   Sampler.o_values o !! "net_rx_kbps"%string = None /\
   Sampler.o_values o !! "net_tx_kbps"%string = None) /\
  (Sampler.cpu_state s = Sampler.CpuState0 ->
   Sampler.o_values o !! "cpu_fg_app_pct"%string = None).
Proof.
  cycle_cases.
  - rewrite !lookup_empty. auto.
  - match goal with
    | |- context [Sampler.put "net_tx_kbps" ?a
                    (Sampler.put "net_rx_kbps" ?b
                       (Sampler.put "cpu_total_pct" ?c
                          (Sampler.put "fps_app" ?f
                             (Sampler.put "cpu_fg_app_pct" ?d _))))] =>
        destruct (values_keys a b c f d) as (-> & -> & -> & ->)
    end.
    repeat match goal with
           | H : Sampler._sample_cpu_sys ?w ?st ?x = (?v, _) |- _ =>
               assert (fst (Sampler._sample_cpu_sys w st x) = v)
                 by (rewrite H; reflexivity);
               clear H
           | H : Sampler._sample_net ?n ?w ?st ?x = (?v, _) |- _ =>
               assert (fst (Sampler._sample_net n w st x) = v)
                 by (rewrite H; reflexivity);
               clear H
           | H : Sampler._sample_pid_and_cpu ?a ?b ?c ?d ?e ?st ?x ?y = (?v, _) |- _ =>
               assert (fst (Sampler._sample_pid_and_cpu a b c d e st x y) = v)
                 by (rewrite H; reflexivity);
               clear H
           end.
    split; [|split].
    + intros E. rewrite E in *.
      match goal with
      | H : fst (Sampler._sample_cpu_sys _ _ _) = _ |- _ =>
          rewrite sample_cpu_sys_first in H; symmetry; exact H
      end.
    + intros E. rewrite E in *.
      match goal with
      | H : fst (Sampler._sample_net _ _ _ _) = _ |- _ =>
          rewrite sample_net_first in H; rewrite <- H; auto
      end.
    + intros E. rewrite E in *.
      match goal with
      | H : fst (Sampler._sample_pid_and_cpu _ _ _ _ _ _ _ _) = _ |- _ =>
          rewrite sample_cpu_first in H; symmetry; exact H
      end.
Qed.

(** X7. Rate metrics need two samples. The first cycle of the loop reports
    none of [cpu_fg_app_pct], [cpu_total_pct], [net_rx_kbps] and
    [net_tx_kbps], and the cycle that follows an Idle cycle reports none
    of [cpu_total_pct], [net_rx_kbps] and [net_tx_kbps], whatever the
    device answers in these cycles. *)
Theorem X7_first_sample_has_no_rate (hz cores : Z) :
  (forall i,
      let o := snd (Sampler.cycle hz cores Sampler.init i) in
      Sampler.o_values o !! "cpu_fg_app_pct"%string = None /\
      Sampler.o_values o !! "cpu_total_pct"%string = None /\
      Sampler.o_values o !! "net_rx_kbps"%string = None /\
      Sampler.o_values o !! "net_tx_kbps"%string = None) /\
  (forall s i1 i2,
      Sampler.o_phase (snd (Sampler.cycle hz cores s i1)) = Sampler.Idle ->
      let o := snd (Sampler.cycle hz cores (fst (Sampler.cycle hz cores s i1)) i2) in
      Sampler.o_values o !! "cpu_total_pct"%string = None /\
      Sampler.o_values o !! "net_rx_kbps"%string = None /\
      Sampler.o_values o !! "net_tx_kbps"%string = None).
Proof.
  split.
  - intros i o. destruct (cycle_reset_rates hz cores Sampler.init i) as (A & B & C).
    destruct (B eq_refl). auto.
  - intros s i1 i2 Hidle o.
    destruct (idle_resets hz cores s i1 Hidle) as (Ht & Hn & _).
    destruct (cycle_reset_rates hz cores (fst (Sampler.cycle hz cores s i1)) i2)
      as (A & B & _).
    destruct (B Hn). auto.
Qed.

(** The theorem at the cycle that follows the Idle cycle of the session
    with an outage. *)
Lemma X7_witness :
  Sampler.o_values
    (snd (Sampler.cycle 100 8
                        (fst (Sampler.cycle
                                100 8
                                (fst (Sampler.run 100 8 Sampler.init (Examples.outage 10)))
                                (Examples.unreachable_at 23000)))
                        (Examples.sample_at 60000 150)))
    !! "cpu_total_pct"%string = None.
Proof.
  destruct (X7_first_sample_has_no_rate 100 8) as [_ H].
  apply (H (fst (Sampler.run 100 8 Sampler.init (Examples.outage 10)))
           (Examples.unreachable_at 23000) (Examples.sample_at 60000 150)).
  vm_compute. reflexivity.
Defined.

(** ** Counters that go backwards *)

Lemma Zfloat_pos (z : Z) : 0 < z -> (0 < Zfloat z)%Q.
Proof. intros H. unfold Zfloat, Qlt. simpl. lia. Qed.

Lemma Qdiv_pos (a b : Q) : (0 < a -> 0 < b -> 0 < a / b)%Q.
Proof. intros Ha Hb. apply Qlt_shift_div_l; [exact Hb|]. lra. Qed.







(** ** The frame rate task *)

Lemma fresh_nonneg (r : Sampler.latest) (last_at : Z) (v : Q) :
  Sampler.fresh r last_at = Some v -> (0 <= v)%Q.
Proof.
  unfold Sampler.fresh. destruct r as [[pfps|] at_ms]; [|discriminate].
  destruct (Qle_bool 0 pfps && (last_at <? at_ms)); [|discriminate].
  intros [= <-]. apply py_max_lower.
Qed.

Lemma stale_nonneg (r : Sampler.latest) (v : Q) :
  Sampler.stale r = Some v -> (0 <= v)%Q.
Proof.
  unfold Sampler.stale. destruct r as [[pfps|] at_ms]; [|discriminate].
  destruct (Qle_bool 0 pfps); [|discriminate].
  intros [= <-]. apply py_max_lower.
Qed.

Lemma wait_fresh_S (read : nat -> Sampler.latest) (last_at : Z) (i n : nat)
      (seen : Sampler.latest) :
  Sampler.wait_fresh read last_at i (S n) seen
  = match Sampler.fresh (read i) last_at with
    | Some v => (Some v, S i, read i)
    | None => Sampler.wait_fresh read last_at (S i) n (read i)
    end.
Proof. reflexivity. Qed.

Lemma wait_fresh_bounds (read : nat -> Sampler.latest) (last_at : Z) (n : nat) :
  forall i seen,
    let r := Sampler.wait_fresh read last_at i n seen in
    (i <= snd (fst r) <= i + n)%nat /\
    (forall v, fst (fst r) = Some v -> (0 <= v)%Q).
Proof.
  induction n as [|n IH]; intros i seen.
  - unfold Sampler.wait_fresh. simpl. split; [lia|discriminate].
  - rewrite wait_fresh_S.
    destruct (Sampler.fresh (read i) last_at) as [v|] eqn:E.
    + simpl. split; [lia|]. intros v' [= <-]. eapply fresh_nonneg; exact E.
    + destruct (IH (S i) (read i)) as [Hb Hv]. split; [lia|exact Hv].
Qed.

Lemma gfx_try_nonneg (g : Sampler.GfxState) (now_ms : Z) (r : Sampler.gfx_result)
      (v : Q) :
  snd (Sampler.gfx_try g now_ms r) = Some v -> (0 <= v)%Q.
Proof.
  unfold Sampler.gfx_try. destruct r as [[[total|] janky]|]; try discriminate.
  destruct (Sampler.gfx_prev_total g), (Sampler.gfx_prev_t_ms g); try discriminate.
  destruct (0 <? _); [|discriminate].
  simpl. intros [= <-]. apply py_max_lower.
Qed.

(** X9. Whatever the worker and the device answer, the value returned by
    [_sample_fps] is never negative. The task calls [read_latest] at most
    7 times when the worker is producing and at most 11 times otherwise,
    and not at all when [fps_app] is not wanted. It runs the legacy frame
    counter only when [fps_app] is wanted, the worker is not producing and
    the counter is not disabled; in all other cases the counter's state is
    left untouched. *)
Theorem X9_fps_task_bounds
        (now_ms : Z) (want_fps producing : bool) (last_at : Z)
        (g : Sampler.GfxState) (r : Sampler.gfx_result) (read : nat -> Sampler.latest) :
  let f := Sampler._sample_fps now_ms want_fps producing last_at g r read in
  (forall v, Sampler.f_value f = Some v -> (0 <= v)%Q) /\
  (Sampler.f_reads f <= (if producing then 7 else 11))%nat /\
  (want_fps = false -> f = Sampler.FpsOut None g false 0) /\
  (Sampler.f_gfx_called f
   = want_fps && negb producing && negb (Sampler.disabled g)) /\
  (Sampler.f_gfx_called f = false -> Sampler.f_gfx f = g).
Proof.
  intros f. subst f. unfold Sampler._sample_fps.
  destruct want_fps; simpl.
  2:{ repeat split; auto; try discriminate. destruct producing; lia. }
  destruct producing; simpl.
  - pose proof (wait_fresh_bounds read last_at 7 0%nat (None, 0)) as [Hb Hv].
    destruct (Sampler.wait_fresh read last_at 0 7 (None, 0)) as [[[v|] n] seen];
      simpl in *; repeat split; auto; try discriminate; try lia.
    intros v'. apply stale_nonneg.
  - destruct (Sampler.disabled g) eqn:Hd; simpl.
    + pose proof (wait_fresh_bounds read last_at 11 0%nat (None, 0)) as [Hb Hv].
      destruct (Sampler.wait_fresh read last_at 0 11 (None, 0)) as [[v n] seen];
        simpl in *; repeat split; auto; try discriminate; try lia.
    + pose proof (gfx_try_nonneg g now_ms r) as Hg.
      destruct (Sampler.gfx_try g now_ms r) as [g' [v|]]; simpl in *.
      * repeat split; auto; try discriminate; try lia;
          try (intros v' [= <-]; apply Hg; reflexivity).
      * pose proof (wait_fresh_bounds read last_at 11 0%nat (None, 0)) as [Hb Hv].
        destruct (Sampler.wait_fresh read last_at 0 11 (None, 0)) as [[v n] seen];
          simpl in *; repeat split; auto; try discriminate; try lia.
Qed.

(** The theorem at a worker that holds a value of 58.7 FPS. *)
Lemma X9_witness :
  (0 <= py_max 0 (587 # 10))%Q /\
  Sampler._sample_fps 1000 false true 0 Sampler.GfxState0 None
                      (fun _ => (Some (587 # 10)%Q, 500))
  = Sampler.FpsOut None Sampler.GfxState0 false 0.
Proof.
  split.
  - destruct (X9_fps_task_bounds 1000 true true 0 Sampler.GfxState0 None
                                 (fun _ => (Some (587 # 10)%Q, 500)))
      as (H & _).
    apply H. reflexivity.
  - destruct (X9_fps_task_bounds 1000 false true 0 Sampler.GfxState0 None
                                 (fun _ => (Some (587 # 10)%Q, 500)))
      as (_ & _ & H & _).
    apply H. reflexivity.
Defined.

Lemma py_max_Qeq (f : Q) : (0 <= f)%Q -> (py_max 0 f == f)%Q.
Proof.
  intros H. unfold py_max. destruct (Qgtb f 0) eqn:E; [reflexivity|].
  apply Qgtb_false in E. lra.
Qed.

Lemma sample_fps_constant (now_ms last_at : Z) (g : Sampler.GfxState)
      (r : Sampler.gfx_result) (read : nat -> Sampler.latest) (f : Q) (at_ms : Z) :
  (forall k, read k = (Some f, at_ms)) -> (0 <= f)%Q ->
  let o := Sampler._sample_fps now_ms true true last_at g r read in
  Sampler.f_value o = Some (py_max 0 f) /\
  Sampler.f_gfx_called o = false /\ Sampler.f_gfx o = g /\
  Sampler.f_reads o = if last_at <? at_ms then 1%nat else 7%nat.
Proof.
  intros Hread Hf o. subst o. unfold Sampler._sample_fps. simpl.
  assert (Hq : Qle_bool 0 f = true) by (apply Qle_bool_iff; exact Hf).
  destruct (last_at <? at_ms) eqn:E.
  - rewrite wait_fresh_S, Hread. unfold Sampler.fresh. rewrite Hq, E. simpl. auto.
  - assert (Hn : Sampler.fresh (Some f, at_ms) last_at = None)
      by (unfold Sampler.fresh; rewrite Hq, E; reflexivity).
    repeat (rewrite wait_fresh_S, Hread, Hn).
    unfold Sampler.wait_fresh. simpl. unfold Sampler.stale. rewrite Hq. auto.
Qed.

(** X10. A cycle that samples [fps_app] while the worker is producing and
    holds the non-negative value [f] stamped [at] reports [fps_app =
    max(0.0, f)] without running the legacy frame counter: at once when
    the stamp is newer than the last one consumed, after 7 reads of the
    slot as a stale value otherwise. It then remembers the newest stamp
    consumed, so in the following cycle the same slot is not fresh
    again. *)
Theorem X10_fresh_value_consumed_once
        (hz cores : Z) (s : Sampler.state) (i : Sampler.inputs) (f : Q) (at_ms : Z) :
  Sampler.o_phase (snd (Sampler.cycle hz cores s i)) = Sampler.Sampling ->
  str_in "fps_app" (Sampler.keys (Invariants.effective s i)) = true ->
  Sampler.fps_bg_producing s = true \/ 2 <= Sampler.bg_sample_count i ->
  (forall k, Sampler.bg_read i k = (Some f, at_ms)) ->
  (0 <= f)%Q ->
  let s' := fst (Sampler.cycle hz cores s i) in
  let o := snd (Sampler.cycle hz cores s i) in
  Sampler.o_values o !! "fps_app"%string = Some (py_max 0 f) /\
  (py_max 0 f == f)%Q /\
  Sampler.o_gfx_called o = false /\
  Sampler.last_fps_bg_at_ms s' = Z.max (Sampler.last_fps_bg_at_ms s) at_ms /\
  Sampler.fresh (Some f, at_ms) (Sampler.last_fps_bg_at_ms s') = None.
Proof.
  intros Hphase Hwant Hprod Hread Hf s' o. subst s' o.
  revert Hphase Hwant. unfold Invariants.effective.
  assert (Hp : (if negb (Sampler.fps_bg_producing s) && (2 <=? Sampler.bg_sample_count i)
                then true else Sampler.fps_bg_producing s) = true).
  { destruct (Sampler.fps_bg_producing s); [reflexivity|].
    destruct Hprod as [H|H]; [discriminate|].
    apply Z.leb_le in H. rewrite H. reflexivity. }
  unfold Sampler.cycle. rewrite Hp.
  destruct (Sampler.resolve _ _) as [g c]. cbn [snd].
  destruct (negb (Sampler.enabled c) || negb (nonempty (Sampler.target_pkg c)));
    [discriminate|].
  destruct (Sampler._sample_pid_and_cpu _ _ _ _ _ _ _ _) as [cpu_val cpu'].
  destruct (Sampler._sample_cpu_sys _ _ _) as [tot_val tot'].
  destruct (Sampler._sample_net _ _ _ _) as [net_val net'].
  intros _ Hwant. rewrite Hwant.
  destruct (sample_fps_constant (Sampler.now_ms i) (Sampler.last_fps_bg_at_ms s)
                                (Sampler.gfx_state s) (Sampler.gfxinfo i)
                                (Sampler.bg_read i) f at_ms Hread Hf)
    as (Hv & Hc & Hg & Hr).
  cbn [fst snd Sampler.o_values Sampler.o_gfx_called Sampler.last_fps_bg_at_ms].
  rewrite values_fps, Hv, Hc, Hread.
  assert (Hq : Qle_bool 0 (py_max 0 f) = true)
    by (apply Qle_bool_iff, py_max_lower).
  assert (He : Qeq_bool f (py_max 0 f) = true)
    by (apply Qeq_bool_iff; symmetry; apply py_max_Qeq, Hf).
  rewrite Hq, He. cbn [andb].
  split; [reflexivity|]. split; [apply py_max_Qeq, Hf|]. split; [reflexivity|].
  assert (Hlast : (if Sampler.last_fps_bg_at_ms s <? at_ms
                   then at_ms else Sampler.last_fps_bg_at_ms s)
                  = Z.max (Sampler.last_fps_bg_at_ms s) at_ms).
  { destruct (Sampler.last_fps_bg_at_ms s <? at_ms) eqn:E.
    - apply Z.ltb_lt in E. lia.
    - apply Z.ltb_ge in E. lia. }
  rewrite Hlast. split; [reflexivity|].
  unfold Sampler.fresh.
  assert (E : (Z.max (Sampler.last_fps_bg_at_ms s) at_ms <? at_ms) = false)
    by (apply Z.ltb_ge; lia).
  rewrite E, andb_false_r. reflexivity.
Qed.

(** The theorem at the first cycle that sees a streaming worker which has
    published twice, the second time 1 FPS stamped 6000. *)
Lemma X10_witness :
  let i := Examples.sample_seeing Examples.producing_worker 7000 100 in
  Sampler.o_values (snd (Sampler.cycle 100 8 Sampler.init i)) !! "fps_app"%string
  = Some (py_max 0 (natfloat 1)) /\
  Sampler.last_fps_bg_at_ms (fst (Sampler.cycle 100 8 Sampler.init i))
  = Z.max (Sampler.last_fps_bg_at_ms Sampler.init) 6000.
Proof.
  intros i.
  destruct (X10_fresh_value_consumed_once 100 8 Sampler.init i (natfloat 1) 6000)
    as (H1 & _ & _ & H4 & _).
  - vm_compute. reflexivity.
  - reflexivity.
  - right. vm_compute. discriminate.
  - intros k. reflexivity.
  - apply natfloat_nonneg.
  - split; assumption.
Defined.

(** ** The candidates and filters of the offline trace query *)

Lemma str_in_In (s : string) (l : list string) : str_in s l = true <-> In s l.
Proof.
  unfold str_in. rewrite existsb_exists. split.
  - intros (x & Hx & E). apply String.eqb_eq in E. subst. exact Hx.
  - intros H. exists s. split; [exact H|apply String.eqb_refl].
Qed.

Lemma add_cand_spec (cands : list string) (x : string) :
  List.NoDup cands ->
  List.NoDup (Perfetto.add_cand cands x) /\
  (forall c, In c (Perfetto.add_cand cands x) <->
             In c cands \/ (c = Perfetto.strip x /\ nonempty c = true)) /\
  (length (Perfetto.add_cand cands x) <= S (length cands))%nat.
Proof.
  intros Hnd. unfold Perfetto.add_cand.
  destruct (nonempty (Perfetto.strip x)) eqn:Hne; simpl.
  - destruct (str_in (Perfetto.strip x) cands) eqn:Hin; simpl.
    + apply str_in_In in Hin. split; [exact Hnd|]. split; [|lia].
      intros c. split; [auto|]. intros [H|[-> _]]; assumption.
    + assert (Hnot : ~ In (Perfetto.strip x) cands).
      { intros H. apply str_in_In in H. congruence. }
      split; [|split].
      * apply List.NoDup_app; [exact Hnd| |].
        -- constructor; [intros []|constructor].
        -- intros a Ha [<-|[]]. contradiction.
      * intros c. rewrite in_app_iff. simpl. split.
        -- intros [H|[<-|[]]]; auto.
        -- intros [H|[-> _]]; auto.
      * rewrite length_app. simpl. lia.
  - split; [exact Hnd|]. split; [|lia].
    intros c. split; [auto|]. intros [H|[-> H]]; [exact H|congruence].
Qed.

Lemma fold_add_cand_spec (xs acc : list string) :
  List.NoDup acc ->
  List.NoDup (fold_left Perfetto.add_cand xs acc) /\
  (forall c, In c (fold_left Perfetto.add_cand xs acc) <->
             In c acc \/
             (nonempty c = true /\ exists x, In x xs /\ c = Perfetto.strip x)) /\
  (length (fold_left Perfetto.add_cand xs acc) <= length acc + length xs)%nat.
Proof.
  revert acc. induction xs as [|x xs IH]; intros acc Hnd; simpl.
  - split; [exact Hnd|]. split; [|lia].
    intros c. split; [auto|]. intros [H|(_ & y & [] & _)]. exact H.
  - destruct (add_cand_spec acc x Hnd) as (Hnd1 & Hin1 & Hlen1).
    destruct (IH _ Hnd1) as (Hnd2 & Hin2 & Hlen2).
    split; [exact Hnd2|]. split; [|lia].
    intros c. rewrite Hin2, Hin1. split.
    + intros [[H|[-> Hne]]|(Hne & y & Hy & ->)].
      * left. exact H.
      * right. split; [exact Hne|]. exists x. auto.
      * right. split; [exact Hne|]. exists y. auto.
    + intros [H|(Hne & y & [<-|Hy] & ->)].
      * left. left. exact H.
      * left. right. auto.
      * right. split; [exact Hne|]. exists y. auto.
Qed.

Lemma layer_cands_spec (layer_hint : string) (layer_candidates : list string) :
  List.NoDup (Perfetto.layer_cands layer_hint layer_candidates) /\
  (forall c, In c (Perfetto.layer_cands layer_hint layer_candidates) <->
             nonempty c = true /\
             exists x, In x (layer_hint :: layer_candidates) /\ c = Perfetto.strip x) /\
  (length (Perfetto.layer_cands layer_hint layer_candidates)
   <= S (length layer_candidates))%nat.
Proof.
  unfold Perfetto.layer_cands.
  destruct (fold_add_cand_spec (layer_hint :: layer_candidates) [])
    as (Hnd & Hin & Hlen); [constructor|].
  split; [exact Hnd|]. split; [|simpl in Hlen; simpl; lia].
  intros c. rewrite Hin. split.
  - intros [[]|H]. exact H.
  - intros H. right. exact H.
Qed.

Lemma named_filters_length (cols : list string) (target_pkg layer_hint : string)
      (layer_candidates : list string) :
  (length (Perfetto.named_filters cols target_pkg layer_hint layer_candidates)
   <= 21)%nat.
Proof.
  unfold Perfetto.named_filters.
  destruct (str_in "layer_name" cols).
  - rewrite !length_app, !length_map, length_take.
    destruct (nonempty _); cbn [length]; lia.
  - destruct (str_in "name" cols && nonempty _); simpl; lia.
Qed.

(** X11. The layer-name candidates of the offline query hold no entry
    twice; they are exactly the non-blank stripped forms of the layer hint
    and of the layer candidates. The list of filters has between 1 and 22
    entries, its last entry is the unfiltered one, and every entry before
    the last carries a [where] clause, so only the statistics of the last
    query are kept as [unfiltered_stats]. *)
Theorem X11_candidates_and_filters
        (cols : list string) (target_pkg layer_hint : string)
        (layer_candidates : list string) :
  let cands := Perfetto.layer_cands layer_hint layer_candidates in
  let filters := Perfetto.build_filters cols target_pkg layer_hint layer_candidates in
  List.NoDup cands /\
  (forall c, In c cands <->
             nonempty c = true /\
             exists x, In x (layer_hint :: layer_candidates) /\ c = Perfetto.strip x) /\
  (1 <= length filters <= 22)%nat /\
  List.last filters (Perfetto.layer_eq EmptyString) = Perfetto.unfiltered /\
  (forall pre f post, filters = pre ++ f :: post -> post <> [] ->
                      Perfetto.where_sql f <> EmptyString).
Proof.
  intros cands filters.
  destruct (layer_cands_spec layer_hint layer_candidates) as (Hnd & Hin & _).
  split; [exact Hnd|]. split; [exact Hin|].
  subst filters. unfold Perfetto.build_filters.
  pose proof (named_filters_length cols target_pkg layer_hint layer_candidates) as Hl.
  pose proof (named_filters_where cols target_pkg layer_hint layer_candidates) as Hw.
  split; [rewrite length_app; simpl; lia|].
  split; [apply List.last_last|].
  intros pre f post E Hpost.
  assert (Hf : In f (Perfetto.named_filters cols target_pkg layer_hint layer_candidates)).
  { destruct (exists_last Hpost) as (post' & g & ->).
    change (pre ++ f :: post' ++ [g]) with (pre ++ (f :: post') ++ [g]) in E.
    rewrite app_assoc in E. apply app_inj_tail in E. destruct E as [E _].
    rewrite E. apply in_or_app. right. left. reflexivity. }
  rewrite List.Forall_forall in Hw. apply Hw, Hf.
Qed.

(** ** The result of the offline trace query *)

Lemma Nfloat_pos (n : N) : n <> 0%N -> (0 < Perfetto.Nfloat n)%Q.
Proof. intros H. unfold Perfetto.Nfloat, Qlt. simpl. lia. Qed.

Lemma rate_pos (cnt : N) (duration_ms : Z) :
  cnt <> 0%N ->
  (0 < Perfetto.Nfloat cnt * inject_Z 1000 / Zfloat (Z.max 1 duration_ms))%Q.
Proof.
  intros H. apply Qdiv_pos; [|apply Zfloat_pos; lia].
  pose proof (Nfloat_pos cnt H) as Hc.
  assert (H1000 : (0 < inject_Z 1000)%Q) by (unfold Qlt; simpl; lia).
  nra.
Qed.

Lemma accept_pos (table : string) (f : Perfetto.filter_t) (cnt mn mx : N)
      (duration_ms : Z) :
  cnt <> 0%N -> (0 < fst (Perfetto.accept table f cnt mn mx duration_ms))%Q.
Proof.
  intros H. unfold Perfetto.accept.
  destruct (Qgtb (Perfetto.span_of mn mx) 0) eqn:E; cbn [fst].
  - apply Qgtb_true in E. apply Qdiv_pos; [apply Nfloat_pos, H|exact E].
  - apply rate_pos, H.
Qed.

Section Scan.
Import Perfetto.

Variables (tp : oracle) (cols : list string) (table : string) (duration_ms : Z).

(** What the filter loop has done when it ends, whatever the trace
    processor answers. *)
Lemma scan_spec (fs : list filter_t) (u : option (N * N * N)) :
  (u = None \/ exists mn mx, u = Some (0%N, mn, mx)) ->
  match scan tp cols table duration_ms fs u with
  | ScanRaised =>
      exists f, In f fs /\ query_c_min_max tp cols (where_sql f) = QRaised
  | ScanBest fps d =>
      exists pre f post cnt mn mx,
        fs = pre ++ f :: post /\ Forall (rejected tp cols) pre /\
        query_c_min_max tp cols (where_sql f) = QStats cnt mn mx /\
        cnt <> 0%N /\ accept table f cnt mn mx duration_ms = (fps, d)
  | ScanNone u' =>
      Forall (rejected tp cols) fs /\
      (u' = None \/ exists mn mx, u' = Some (0%N, mn, mx))
  end.
Proof.
  revert u. induction fs as [|f rest IH]; intros u Hu; simpl.
  - split; [constructor|exact Hu].
  - destruct (query_c_min_max tp cols (where_sql f)) as [| |cnt mn mx] eqn:Hq.
    + exists f. split; [left; reflexivity|exact Hq].
    + assert (Hrej : rejected tp cols f) by (left; exact Hq).
      specialize (IH u Hu).
      destruct (scan tp cols table duration_ms rest u) as [|fps d|u'].
      * destruct IH as (g & Hg & Hr). exists g. split; [right; exact Hg|exact Hr].
      * destruct IH as (pre & g & post & c & a & b & -> & Hpre & Hg & Hc & Ha).
        exists (f :: pre), g, post, c, a, b.
        split; [reflexivity|]. split; [constructor; assumption|]. auto.
      * destruct IH as [Hall Hu']. split; [constructor; assumption|exact Hu'].
    + destruct (cnt <=? 0)%N eqn:Hc.
      * apply N.leb_le in Hc. assert (cnt = 0%N) by lia. subst cnt.
        assert (Hrej : rejected tp cols f) by (right; exists mn, mx; exact Hq).
        match goal with
        | |- context [scan tp cols table duration_ms rest ?v] =>
            assert (Hv : v = None \/ exists a b, v = Some (0%N, a, b))
              by (destruct (String.eqb (where_sql f) EmptyString);
                  [right; exists mn, mx; reflexivity|exact Hu]);
            specialize (IH v Hv);
            destruct (scan tp cols table duration_ms rest v) as [|fps d|u']
        end.
        -- destruct IH as (g & Hg & Hr). exists g. split; [right; exact Hg|exact Hr].
        -- destruct IH as (pre & g & post & c & a & b & -> & Hpre & Hg & Hc' & Ha).
           exists (f :: pre), g, post, c, a, b.
           split; [reflexivity|]. split; [constructor; assumption|]. auto.
        -- destruct IH as [Hall Hu']. split; [constructor; assumption|exact Hu'].
      * apply N.leb_gt in Hc.
        destruct (accept table f cnt mn mx duration_ms) as [fps d] eqn:Ha.
        exists [], f, rest, cnt, mn, mx.
        split; [reflexivity|]. split; [constructor|].
        split; [exact Hq|]. split; [lia|exact Ha].
Qed.

End Scan.

Lemma query_raised (tp : Perfetto.oracle) (cols : list string) (w : string) :
  Perfetto.query_c_min_max tp cols w = Perfetto.QRaised -> tp w = Perfetto.QRaised.
Proof.
  unfold Perfetto.query_c_min_max.
  destruct (tp w); [reflexivity|discriminate|].
  destruct (str_in "ts" cols); discriminate.
Qed.

(** What [fps_from_table] gives, whatever the trace processor answers. *)
Lemma fps_from_table_spec
      (tp : Perfetto.oracle) (table : string) (cols : list string)
      (target_pkg : string) (duration_ms : Z) (layer_hint : string)
      (layer_candidates : list string) :
  let filters := Perfetto.build_filters cols target_pkg layer_hint layer_candidates in
  match Perfetto.fps_from_table tp table cols target_pkg duration_ms layer_hint
                                layer_candidates with
  | Perfetto.Raised =>
      exists f, In f filters /\ tp (Perfetto.where_sql f) = Perfetto.QRaised
  | Perfetto.Returned (Some fps) d =>
      (0 < fps)%Q /\
      exists pre f post cnt mn mx,
        filters = pre ++ f :: post /\ Forall (Perfetto.rejected tp cols) pre /\
        Perfetto.query_c_min_max tp cols (Perfetto.where_sql f)
        = Perfetto.QStats cnt mn mx /\
        cnt <> 0%N /\ Perfetto.accept table f cnt mn mx duration_ms = (fps, d)
  | Perfetto.Returned None d =>
      Forall (Perfetto.rejected tp cols) filters /\
      (d = Perfetto.DetailZeroCount 0 \/ d = Perfetto.DetailQueryFailed)
  end.
Proof.
  intros filters. unfold Perfetto.fps_from_table. fold filters.
  pose proof (scan_spec tp cols table duration_ms filters None (or_introl eq_refl)) as H.
  destruct (Perfetto.scan tp cols table duration_ms filters None) as [|fps d|u].
  - destruct H as (f & Hf & Hq). exists f. split; [exact Hf|].
    eapply query_raised, Hq.
  - split; [|exact H].
    destruct H as (pre & f & post & cnt & mn & mx & _ & _ & _ & Hc & Ha).
    pose proof (accept_pos table f cnt mn mx duration_ms Hc) as Hp.
    rewrite Ha in Hp. exact Hp.
  - destruct H as [Hall [->|(mn & mx & ->)]].
    + split; [exact Hall|]. right. reflexivity.
    + split; [exact Hall|]. left. reflexivity.
Qed.

(** X12. Whatever the trace processor answers, the filter loop of
    [perfetto_fps_from_trace] ends in one of three ways. It raises only
    when the query of one of its filters raises. A returned FPS is
    positive and comes from the first filter that is not passed over,
    whose count is not 0. When no FPS is returned every filter was passed
    over, and the diagnostic is the failure message or the zero-count
    message, whose unfiltered total is then always 0. *)
Theorem X12_query_result_shape
        (tp : Perfetto.oracle) (table : string) (cols : list string)
        (target_pkg : string) (duration_ms : Z) (layer_hint : string)
        (layer_candidates : list string) :
  let filters := Perfetto.build_filters cols target_pkg layer_hint layer_candidates in
  match Perfetto.fps_from_table tp table cols target_pkg duration_ms layer_hint
                                layer_candidates with
  | Perfetto.Raised =>
      exists f, In f filters /\ tp (Perfetto.where_sql f) = Perfetto.QRaised
  | Perfetto.Returned (Some fps) d =>
      (0 < fps)%Q /\
      exists pre f post cnt mn mx,
        filters = pre ++ f :: post /\ Forall (Perfetto.rejected tp cols) pre /\
        Perfetto.query_c_min_max tp cols (Perfetto.where_sql f)
        = Perfetto.QStats cnt mn mx /\
        cnt <> 0%N /\ Perfetto.accept table f cnt mn mx duration_ms = (fps, d)
  | Perfetto.Returned None d =>
      Forall (Perfetto.rejected tp cols) filters /\
      (d = Perfetto.DetailZeroCount 0 \/ d = Perfetto.DetailQueryFailed)
  end.
Proof. apply fps_from_table_spec. Qed.

(** ** The candidates that the sampler loop hands to the worker *)

Lemma lstrip_head (s : string) :
  Perfetto.lstrip s = EmptyString \/
  exists a r, Perfetto.lstrip s = String a r /\ Perfetto.is_space a = false.
Proof.
  induction s as [|a r IH]; simpl; [left; reflexivity|].
  destruct (Perfetto.is_space a) eqn:E; [exact IH|].
  right. exists a, r. split; [reflexivity|exact E].
Qed.

Lemma rstrip_cons (a : Ascii.ascii) (r : string) :
  Perfetto.rstrip (String a r)
  = match Perfetto.rstrip r with
    | EmptyString =>
        if Perfetto.is_space a then EmptyString else String a EmptyString
    | String b r' => String a (String b r')
    end.
Proof. simpl. destruct (Perfetto.rstrip r); reflexivity. Qed.

Lemma rstrip_idem (s : string) :
  Perfetto.rstrip (Perfetto.rstrip s) = Perfetto.rstrip s.
Proof.
  induction s as [|a r IH]; [reflexivity|].
  rewrite rstrip_cons. destruct (Perfetto.rstrip r) as [|b r'] eqn:E.
  - destruct (Perfetto.is_space a) eqn:Ha; [reflexivity|].
    rewrite rstrip_cons. simpl. rewrite Ha. reflexivity.
  - rewrite rstrip_cons, IH. reflexivity.
Qed.

Lemma rstrip_head (a : Ascii.ascii) (r : string) :
  Perfetto.is_space a = false ->
  exists r', Perfetto.rstrip (String a r) = String a r'.
Proof.
  intros Ha. rewrite rstrip_cons. destruct (Perfetto.rstrip r).
  - rewrite Ha. eexists. reflexivity.
  - eexists. reflexivity.
Qed.

(** [strip] of a stripped string changes nothing. *)
Lemma strip_idem (s : string) :
  Perfetto.strip (Perfetto.strip s) = Perfetto.strip s.
Proof.
  unfold Perfetto.strip.
  destruct (lstrip_head s) as [->|(a & r & -> & Ha)]; [reflexivity|].
  destruct (rstrip_head a r Ha) as [r' E]. rewrite E.
  simpl Perfetto.lstrip. rewrite Ha. rewrite <- E. apply rstrip_idem.
Qed.

(** One call of [add]: the list stays free of duplicates and of blank or
    unstripped entries, it grows by at most one entry, and it keeps its
    first entry. *)
Lemma add_cand_keeps (n : nat) (cands : list string) (x : string) :
  List.NoDup cands /\ (length cands <= n)%nat /\
  (forall c, In c cands -> nonempty c = true /\ Perfetto.strip c = c) ->
  List.NoDup (Perfetto.add_cand cands x) /\
  (length (Perfetto.add_cand cands x) <= S n)%nat /\
  (forall c, In c (Perfetto.add_cand cands x) ->
             nonempty c = true /\ Perfetto.strip c = c).
Proof.
  intros (Hnd & Hlen & Hall).
  destruct (add_cand_spec cands x Hnd) as (Hnd' & Hin & Hlen').
  split; [exact Hnd'|]. split; [lia|].
  intros c Hc. apply Hin in Hc. destruct Hc as [Hc|[-> Hne]].
  - apply Hall, Hc.
  - split; [exact Hne|apply strip_idem].
Qed.

Lemma add_cand_head (cands : list string) (x a : string) :
  head cands = Some a -> head (Perfetto.add_cand cands x) = Some a.
Proof.
  unfold Perfetto.add_cand. destruct (_ && _); [|auto].
  destruct cands; [discriminate|auto].
Qed.

Lemma add_cand_last (cands : list string) (x : string) :
  nonempty (Perfetto.strip x) = true -> In (Perfetto.strip x) (Perfetto.add_cand cands x).
Proof.
  intros Hne. unfold Perfetto.add_cand. rewrite Hne. simpl.
  destruct (str_in (Perfetto.strip x) cands) eqn:E; simpl.
  - apply str_in_In, E.
  - apply in_or_app. right. left. reflexivity.
Qed.

Lemma sf_latency_candidates_spec (layer target_pkg : string)
      (prefix inner : option string) :
  let cs := Candidates.sf_latency_candidates layer target_pkg prefix inner in
  List.NoDup cs /\ (length cs <= 6)%nat /\
  (forall c, In c cs -> nonempty c = true /\ Perfetto.strip c = c) /\
  (nonempty (Perfetto.strip target_pkg) = true -> In (Perfetto.strip target_pkg) cs) /\
  (nonempty (Perfetto.strip layer) = true -> head cs = Some (Perfetto.strip layer)).
Proof.
  unfold Candidates.sf_latency_candidates.
  set (base := Perfetto.strip layer).
  set (c1 := Perfetto.add_cand [] base).
  set (c2 := match prefix with Some g => Perfetto.add_cand c1 g | None => c1 end).
  set (c3 := match inner with
             | Some g => Perfetto.add_cand (Perfetto.add_cand (Perfetto.add_cand c2 _) _) _
             | None => c2
             end).
  assert (H0 : List.NoDup (@nil string) /\ (length (@nil string) <= 0)%nat /\
               (forall c, In c (@nil string) ->
                          nonempty c = true /\ Perfetto.strip c = c)).
  { split; [constructor|]. split; [simpl; lia|]. intros c []. }
  assert (H1 : List.NoDup c1 /\ (length c1 <= 1)%nat /\
               (forall c, In c c1 -> nonempty c = true /\ Perfetto.strip c = c))
    by (apply add_cand_keeps, H0).
  assert (H2 : List.NoDup c2 /\ (length c2 <= 2)%nat /\
               (forall c, In c c2 -> nonempty c = true /\ Perfetto.strip c = c)).
  { subst c2. destruct prefix; [apply add_cand_keeps, H1|].
    destruct H1 as (A & B & C). split; [exact A|]. split; [lia|exact C]. }
  assert (H3 : List.NoDup c3 /\ (length c3 <= 5)%nat /\
               (forall c, In c c3 -> nonempty c = true /\ Perfetto.strip c = c)).
  { subst c3. destruct inner; [do 3 apply add_cand_keeps; exact H2|].
    destruct H2 as (A & B & C). split; [exact A|]. split; [lia|exact C]. }
  pose proof (add_cand_keeps 5 c3 target_pkg H3) as (A & B & C).
  rewrite take_ge by lia.
  split; [exact A|]. split; [exact B|]. split; [exact C|].
  split; [apply add_cand_last|].
  intros Hne.
  assert (E1 : head c1 = Some base).
  { subst c1. unfold Perfetto.add_cand.
    replace (Perfetto.strip base) with base by (symmetry; apply strip_idem).
    fold base in Hne. rewrite Hne. reflexivity. }
  assert (E2 : head c2 = Some base)
    by (subst c2; destruct prefix; [apply add_cand_head|]; exact E1).
  assert (E3 : head c3 = Some base)
    by (subst c3; destruct inner; [do 3 apply add_cand_head|]; exact E2).
  apply add_cand_head, E3.
Qed.

(** X13. The list returned by [sf_latency_candidates] holds no entry
    twice and at most 6 entries, so that the cut [cands[:8]] never drops
    one; every entry is non-blank and stripped; the stripped target
    package is among them when it is not blank, and the stripped layer is
    the first entry when it is not blank. *)
Theorem X13_layer_candidates
        (layer target_pkg : string) (prefix inner : option string) :
  let cs := Candidates.sf_latency_candidates layer target_pkg prefix inner in
  List.NoDup cs /\ (length cs <= 6)%nat /\
  (forall c, In c cs -> nonempty c = true /\ Perfetto.strip c = c) /\
  (nonempty (Perfetto.strip target_pkg) = true -> In (Perfetto.strip target_pkg) cs) /\
  (nonempty (Perfetto.strip layer) = true -> head cs = Some (Perfetto.strip layer)).
Proof. apply sf_latency_candidates_spec. Qed.

(** The candidates of the query for the candidates of the loop. *)
Lemma loop_cands_spec (layer_hint target_pkg : string) (prefix inner : option string) :
  let cands := Perfetto.layer_cands
                 layer_hint
                 (Candidates.loop_candidates layer_hint target_pkg prefix inner) in
  take 10 cands = cands /\
  (nonempty (Perfetto.strip target_pkg) = true -> In (Perfetto.strip target_pkg) cands).
Proof.
  intros cands.
  destruct (layer_cands_spec
              layer_hint
              (Candidates.loop_candidates layer_hint target_pkg prefix inner))
    as (_ & Hin & Hlen).
  fold cands in Hin, Hlen.
  assert (Hl : (length (Candidates.loop_candidates layer_hint target_pkg prefix inner)
                <= 6)%nat).
  { unfold Candidates.loop_candidates. destruct (nonempty layer_hint); [|simpl; lia].
    apply sf_latency_candidates_spec. }
  split; [apply take_ge; lia|].
  intros Hne. apply Hin. split; [exact Hne|].
  unfold Candidates.loop_candidates. destruct (nonempty layer_hint).
  - exists (Perfetto.strip target_pkg). split; [|symmetry; apply strip_idem].
    right. apply sf_latency_candidates_spec, Hne.
  - exists target_pkg. split; [|reflexivity]. right. left. reflexivity.
Qed.

Lemma first_occurrence {A : Type} (pre post l1 l2 : list A) (f : A) :
  pre ++ f :: post = l1 ++ f :: l2 -> ~ In f pre -> ~ In f l1 -> pre = l1.
Proof.
  revert l1. induction pre as [|a pre IH]; intros [|b l1] E Hp Hl; simpl in *.
  - reflexivity.
  - inversion E; subst. exfalso. apply Hl. left. reflexivity.
  - inversion E; subst. exfalso. apply Hp. left. reflexivity.
  - inversion E; subst. f_equal. apply (IH l1); auto.
Qed.

Lemma rejected_not_accepted (tp : Perfetto.oracle) (cols : list string)
      (f g : Perfetto.filter_t) (cnt mn mx : N) :
  Perfetto.rejected tp cols g ->
  Perfetto.query_c_min_max tp cols (Perfetto.where_sql f) = Perfetto.QStats cnt mn mx ->
  cnt <> 0%N ->
  Perfetto.where_sql g <> Perfetto.where_sql f.
Proof.
  intros [H|(a & b & H)] Hq Hc E; rewrite E in H; congruence.
Qed.

(** X14. With the layer candidates that [run_sampler_loop] hands to the
    worker, the cut [cands[:10]] of the offline query drops nothing, and a
    returned FPS never comes from the filter [pkg_like]: the target
    package is one of the candidates, so the substring filter on it has
    been tried before with the same [where] clause. The trace processor is
    a function of the query here. *)
Theorem X14_package_filter_shadowed
        (tp : Perfetto.oracle) (table : string) (cols : list string)
        (target_pkg : string) (duration_ms : Z) (layer_hint : string)
        (prefix inner : option string) (fps : Q) (d : Perfetto.detail_t) :
  let cs := Candidates.loop_candidates layer_hint target_pkg prefix inner in
  let cands := Perfetto.layer_cands layer_hint cs in
  Perfetto.fps_from_table tp table cols target_pkg duration_ms layer_hint cs
  = Perfetto.Returned (Some fps) d ->
  take 10 cands = cands /\
  exists f cnt mn mx,
    In f (Perfetto.build_filters cols target_pkg layer_hint cs) /\
    Perfetto.human f <> ("pkg_like=" ++ Perfetto.strip target_pkg)%string /\
    Perfetto.query_c_min_max tp cols (Perfetto.where_sql f)
    = Perfetto.QStats cnt mn mx /\
    cnt <> 0%N /\
    Perfetto.accept table f cnt mn mx duration_ms = (fps, d).
Proof.
  intros cs cands Hret.
  destruct (loop_cands_spec layer_hint target_pkg prefix inner) as [Htake Hpkg].
  fold cs in Htake, Hpkg. fold cands in Htake, Hpkg.
  split; [exact Htake|].
  pose proof (fps_from_table_spec tp table cols target_pkg duration_ms layer_hint cs)
    as H.
  rewrite Hret in H. cbv zeta in H.
  destruct H as (_ & pre & f & post & cnt & mn & mx & Hsplit & Hpre & Hq & Hc & Ha).
  exists f, cnt, mn, mx.
  split; [rewrite Hsplit; apply in_or_app; right; left; reflexivity|].
  split; [|auto].
  intros Hh.
  (* the accepted filter would be the package filter *)
  unfold Perfetto.build_filters, Perfetto.named_filters in Hsplit.
  fold cands in Hsplit. rewrite Htake in Hsplit.
  assert (Hnotpre : ~ In f pre).
  { intros Hin. rewrite List.Forall_forall in Hpre.
    apply (rejected_not_accepted tp cols f f cnt mn mx (Hpre f Hin) Hq Hc).
    reflexivity. }
  assert (Heq : forall l, ~ In f (List.map Perfetto.layer_eq l)).
  { intros l Hin. apply in_map_iff in Hin. destruct Hin as (c & <- & _).
    discriminate. }
  assert (Hlike : forall l, ~ In f (List.map Perfetto.layer_like l)).
  { intros l Hin. apply in_map_iff in Hin. destruct Hin as (c & <- & _).
    discriminate. }
  destruct (str_in "layer_name" cols).
  - destruct (nonempty (Perfetto.strip target_pkg)) eqn:Hne.
    + assert (Hin : In f (pre ++ f :: post))
        by (apply in_or_app; right; left; reflexivity).
      rewrite <- Hsplit in Hin. rewrite !in_app_iff in Hin.
      assert (Hf : f = Perfetto.pkg_like (Perfetto.strip target_pkg)).
      { destruct Hin as [[Hin|[Hin|[Hin|[]]]]|[Hin|[]]].
        - exfalso. apply (Heq _ Hin).
        - exfalso. apply (Hlike _ Hin).
        - symmetry. exact Hin.
        - subst f. discriminate. }
      clear Hin. subst f.
      assert (Hp : pre = List.map Perfetto.layer_eq cands
                         ++ List.map Perfetto.layer_like cands).
      { eapply (first_occurrence pre post _ [Perfetto.unfiltered]).
        - rewrite <- Hsplit. rewrite <- !app_assoc. reflexivity.
        - exact Hnotpre.
        - intros Hin. apply in_app_or in Hin. destruct Hin as [Hin|Hin].
          + apply (Heq _ Hin).
          + apply (Hlike _ Hin). }
      assert (Hrej : Perfetto.rejected tp cols
                       (Perfetto.layer_like (Perfetto.strip target_pkg))).
      { rewrite List.Forall_forall in Hpre. apply Hpre. rewrite Hp.
        apply in_or_app. right. apply in_map. apply Hpkg. reflexivity. }
      apply (rejected_not_accepted tp cols _ _ cnt mn mx Hrej Hq Hc).
      reflexivity.
    + assert (Hin : In f (pre ++ f :: post))
        by (apply in_or_app; right; left; reflexivity).
      rewrite <- Hsplit in Hin. rewrite !in_app_iff in Hin.
      destruct Hin as [[Hin|[Hin|[]]]|[Hin|[]]];
        [apply (Heq _ Hin)|apply (Hlike _ Hin)|subst f; discriminate].
  - assert (Hin : In f (pre ++ f :: post))
      by (apply in_or_app; right; left; reflexivity).
    rewrite <- Hsplit in Hin. rewrite in_app_iff in Hin.
    destruct (str_in "name" cols && nonempty (Perfetto.strip target_pkg));
      simpl in Hin.
    + destruct Hin as [[Hin|[]]|[Hin|[]]]; subst f; discriminate.
    + destruct Hin as [[]|[Hin|[]]]; subst f; discriminate.
Qed.

(** The theorem at a trace in which 12 rows have a layer name that
    contains [pkg]: with the candidates of the loop for an unknown layer,
    the substring filter on the candidate [pkg] is the accepted one. *)
Lemma X14_witness :
  Candidates.loop_candidates EmptyString "pkg" None None = ["pkg"%string] /\
  exists f cnt mn mx,
    In f (Perfetto.build_filters Examples.timeline_cols "pkg" EmptyString
                                 ["pkg"%string]) /\
    Perfetto.human f <> "pkg_like=pkg"%string /\
    Perfetto.query_c_min_max Examples.pkg_trace Examples.timeline_cols
                             (Perfetto.where_sql f)
    = Perfetto.QStats cnt mn mx /\
    cnt <> 0%N /\
    Perfetto.accept "actual_frame_timeline_slice" f cnt mn mx 1500
    = Perfetto.accept "actual_frame_timeline_slice" (Perfetto.layer_like "pkg")
                      12 1000000000 2000000000 1500.
Proof.
  split; [reflexivity|].
  destruct (X14_package_filter_shadowed
              Examples.pkg_trace "actual_frame_timeline_slice"
              Examples.timeline_cols "pkg" 1500 EmptyString None None
              (fst (Perfetto.accept "actual_frame_timeline_slice"
                                    (Perfetto.layer_like "pkg")
                                    12 1000000000 2000000000 1500))
              (snd (Perfetto.accept "actual_frame_timeline_slice"
                                    (Perfetto.layer_like "pkg")
                                    12 1000000000 2000000000 1500)))
    as (_ & f & cnt & mn & mx & Hin & Hh & Hq & Hc & Ha).
  - vm_compute. reflexivity.
  - exists f, cnt, mn, mx.
    split; [exact Hin|]. split; [exact Hh|]. split; [exact Hq|].
    split; [exact Hc|]. rewrite Ha. symmetry. apply surjective_pairing.
Defined.

(** ** The marker scan of the slice table *)

Lemma marker_fps_pos (cnt : N) (span_s : Q) (duration_ms : Z) :
  cnt <> 0%N -> (0 < Ftrace.marker_fps cnt span_s duration_ms)%Q.
Proof.
  intros H. unfold Ftrace.marker_fps.
  destruct (Qgtb span_s 0) eqn:E.
  - apply Qgtb_true in E. apply Qdiv_pos; [apply Nfloat_pos, H|exact E].
  - apply rate_pos, H.
Qed.

Lemma scan_markers_spec (q : string -> Ftrace.marker_result) (duration_ms : Z)
      (markers : list string) :
  match Ftrace.scan_markers q duration_ms markers with
  | (Some fps, d) =>
      exists pre marker post cnt mn mx,
        markers = pre ++ marker :: post /\ Forall (Ftrace.skipped q) pre /\
        q marker = Ftrace.MStats cnt mn mx /\ (1 < cnt)%N /\
        fps = Ftrace.marker_fps cnt (Ftrace.span_of mn mx) duration_ms /\
        d = Ftrace.DetailMarker marker cnt (Ftrace.span_of mn mx)
  | (None, d) => Forall (Ftrace.skipped q) markers /\ d = Ftrace.DetailNoMarker
  end.
Proof.
  induction markers as [|m rest IH]; simpl.
  - split; [constructor|reflexivity].
  - assert (Hskip : Ftrace.skipped q m ->
                    match Ftrace.scan_markers q duration_ms rest with
                    | (Some fps, d) =>
                        exists pre marker post cnt mn mx,
                          m :: rest = pre ++ marker :: post /\
                          Forall (Ftrace.skipped q) pre /\
                          q marker = Ftrace.MStats cnt mn mx /\ (1 < cnt)%N /\
                          fps = Ftrace.marker_fps cnt (Ftrace.span_of mn mx) duration_ms /\
                          d = Ftrace.DetailMarker marker cnt (Ftrace.span_of mn mx)
                    | (None, d) =>
                        Forall (Ftrace.skipped q) (m :: rest) /\
                        d = Ftrace.DetailNoMarker
                    end).
    { intros Hm. destruct (Ftrace.scan_markers q duration_ms rest) as [[fps|] d].
      - destruct IH as (pre & marker & post & cnt & mn & mx & -> & Hpre & Hq & R).
        exists (m :: pre), marker, post, cnt, mn, mx.
        split; [reflexivity|]. split; [constructor; assumption|]. auto.
      - destruct IH as [Hall ->]. split; [constructor; assumption|reflexivity]. }
    destruct (q m) as [| |cnt mn mx] eqn:Hq.
    + apply Hskip. unfold Ftrace.skipped. rewrite Hq. exact I.
    + apply Hskip. unfold Ftrace.skipped. rewrite Hq. exact I.
    + destruct (cnt <=? 1)%N eqn:Hc.
      * apply Hskip. unfold Ftrace.skipped. rewrite Hq. apply N.leb_le, Hc.
      * apply N.leb_gt in Hc.
        exists [], m, rest, cnt, mn, mx.
        split; [reflexivity|]. split; [constructor|]. auto.
Qed.

(** X15. Whatever the trace processor answers, [_ftrace_slice_fps]
    returns. A returned FPS is positive and comes from the first marker
    of [frame_markers] whose query gives more than one event; the markers
    before it raised, did not match or counted at most one event; the
    check of the slice table did not raise and did not count 0. When no
    FPS is returned, the check raised, or it counted 0, or every marker
    was passed over, each with its own message. *)
Theorem X15_marker_scan
        (check : Ftrace.check_result) (q : string -> Ftrace.marker_result)
        (duration_ms : Z) :
  match Ftrace._ftrace_slice_fps check q duration_ms with
  | (Some fps, d) =>
      (0 < fps)%Q /\
      check <> Ftrace.CheckRaised /\ check <> Ftrace.CheckCount (Some 0%N) /\
      exists pre marker post cnt mn mx,
        Ftrace.frame_markers = pre ++ marker :: post /\
        Forall (Ftrace.skipped q) pre /\
        q marker = Ftrace.MStats cnt mn mx /\ (1 < cnt)%N /\
        fps = Ftrace.marker_fps cnt (Ftrace.span_of mn mx) duration_ms /\
        d = Ftrace.DetailMarker marker cnt (Ftrace.span_of mn mx)
  | (None, d) =>
      (check = Ftrace.CheckRaised /\ d = Ftrace.DetailSliceFailed) \/
      (check = Ftrace.CheckCount (Some 0%N) /\ d = Ftrace.DetailNoSlice) \/
      (Forall (Ftrace.skipped q) Ftrace.frame_markers /\ d = Ftrace.DetailNoMarker)
  end.
Proof.
  pose proof (scan_markers_spec q duration_ms Ftrace.frame_markers) as H.
  assert (Hscan :
    check <> Ftrace.CheckRaised -> check <> Ftrace.CheckCount (Some 0%N) ->
    match Ftrace.scan_markers q duration_ms Ftrace.frame_markers with
    | (Some fps, d) =>
        (0 < fps)%Q /\
        check <> Ftrace.CheckRaised /\ check <> Ftrace.CheckCount (Some 0%N) /\
        exists pre marker post cnt mn mx,
          Ftrace.frame_markers = pre ++ marker :: post /\
          Forall (Ftrace.skipped q) pre /\
          q marker = Ftrace.MStats cnt mn mx /\ (1 < cnt)%N /\
          fps = Ftrace.marker_fps cnt (Ftrace.span_of mn mx) duration_ms /\
          d = Ftrace.DetailMarker marker cnt (Ftrace.span_of mn mx)
    | (None, d) =>
        (check = Ftrace.CheckRaised /\ d = Ftrace.DetailSliceFailed) \/
        (check = Ftrace.CheckCount (Some 0%N) /\ d = Ftrace.DetailNoSlice) \/
        (Forall (Ftrace.skipped q) Ftrace.frame_markers /\ d = Ftrace.DetailNoMarker)
    end).
  { intros H1 H2.
    destruct (Ftrace.scan_markers q duration_ms Ftrace.frame_markers) as [[fps|] d].
    - split; [|split; [exact H1|split; [exact H2|exact H]]].
      destruct H as (pre & marker & post & cnt & mn & mx & _ & _ & _ & Hc & -> & _).
      apply marker_fps_pos. lia.
    - right. right. exact H. }
  unfold Ftrace._ftrace_slice_fps.
  destruct check as [|[[|p]|]].
  - left. split; reflexivity.
  - right. left. split; reflexivity.
  - apply Hscan; discriminate.
  - apply Hscan; discriminate.
Qed.

(** ** The choice of the table *)

Lemma find_spec {A : Type} (p : A -> bool) (l : list A) :
  match List.find p l with
  | Some x => exists pre post, l = pre ++ x :: post /\ p x = true /\
                               Forall (fun y => p y = false) pre
  | None => Forall (fun y => p y = false) l
  end.
Proof.
  induction l as [|a l IH]; simpl; [constructor|].
  destruct (p a) eqn:E.
  - exists [], l. split; [reflexivity|]. split; [exact E|constructor].
  - destruct (List.find p l) as [x|].
    + destruct IH as (pre & post & -> & Hx & Hpre).
      exists (a :: pre), post. split; [reflexivity|]. split; [exact Hx|].
      constructor; assumption.
    + constructor; assumption.
Qed.

(** X16. The table chosen among the frame-timeline tables is one of
    them. It is the first entry of [prefer] that is among them; when no
    entry of [prefer] is among them it is the first table. *)
Theorem X16_preferred_table (t0 : string) (ts : list string) :
  let table := Ftrace.choose_table t0 ts in
  In table (t0 :: ts) /\
  ((exists pre post,
       Ftrace.prefer = pre ++ table :: post /\
       forall t, In t pre -> ~ In t (t0 :: ts)) \/
   (table = t0 /\ forall t, In t Ftrace.prefer -> ~ In t (t0 :: ts))).
Proof.
  intros table. subst table. unfold Ftrace.choose_table.
  pose proof (find_spec (fun t => str_in t (t0 :: ts)) Ftrace.prefer) as H.
  destruct (List.find _ Ftrace.prefer) as [t|].
  - destruct H as (pre & post & E & Ht & Hpre).
    split; [apply str_in_In, Ht|].
    left. exists pre, post. split; [exact E|].
    intros t' Hin Hin'. rewrite List.Forall_forall in Hpre.
    apply str_in_In in Hin'. rewrite (Hpre t' Hin) in Hin'. discriminate.
  - split; [left; reflexivity|]. right. split; [reflexivity|].
    intros t' Hin Hin'. rewrite List.Forall_forall in H.
    apply str_in_In in Hin'. rewrite (H t' Hin) in Hin'. discriminate.
Qed.

(** ** The analysis of a pulled trace *)

Lemma perfetto_fps_from_trace_spec
      (tr : Ftrace.trace) (target_pkg : string) (duration_ms : Z)
      (layer_hint : string) (layer_candidates : list string) :
  match Ftrace.perfetto_fps_from_trace tr target_pkg duration_ms layer_hint
                                       layer_candidates with
  | Ftrace.Raised =>
      Ftrace.file_exists tr = true /\
      (Ftrace.tables tr = None \/
       exists t0 ts,
         Ftrace.tables tr = Some (t0 :: ts) /\
         (Ftrace.table_cols tr (Ftrace.choose_table t0 ts) = None \/
          exists w, Ftrace.table_stats tr (Ftrace.choose_table t0 ts) w
                    = Perfetto.QRaised))
  | Ftrace.Returned (Some fps) d =>
      (0 < fps)%Q /\ Ftrace.file_exists tr = true /\
      ((Ftrace.tables tr = Some [] /\ exists m, d = Ftrace.FromMarkers m) \/
       ((exists t0 ts, Ftrace.tables tr = Some (t0 :: ts)) /\
        exists t, d = Ftrace.FromTable t))
  | Ftrace.Returned None d =>
      (Ftrace.file_exists tr = false /\ d = Ftrace.TraceMissing) \/
      (Ftrace.file_exists tr = true /\ Ftrace.tables tr = Some [] /\
       d = Ftrace.NoTimeline) \/
      (Ftrace.file_exists tr = true /\
       (exists t0 ts, Ftrace.tables tr = Some (t0 :: ts)) /\
       (d = Ftrace.FromTable (Perfetto.DetailZeroCount 0) \/
        d = Ftrace.FromTable Perfetto.DetailQueryFailed))
  end.
Proof.
  unfold Ftrace.perfetto_fps_from_trace.
  destruct (Ftrace.file_exists tr); simpl; [|left; split; reflexivity].
  destruct (Ftrace.tables tr) as [[|t0 ts]|].
    pose proof (scan_markers_spec (Ftrace.marker_query tr) duration_ms
                                  Ftrace.frame_markers) as Hs.
    unfold Ftrace._ftrace_slice_fps.
    destruct (Ftrace.slice_check tr) as [|[[|p]|]];
      try (right; left; repeat split; reflexivity);
      destruct (Ftrace.scan_markers _ _ _) as [[fps|] d];
      try (right; left; repeat split; reflexivity);
      (split; [|split; [reflexivity|left; split; [reflexivity|eexists; reflexivity]]]);
      destruct Hs as (pre & marker & post & cnt & mn & mx & _ & _ & _ & Hc & -> & _);
      apply marker_fps_pos; lia.
  - destruct (Ftrace.table_cols tr (Ftrace.choose_table t0 ts)) as [cols|] eqn:Hcols.
    + pose proof (fps_from_table_spec
                    (Ftrace.table_stats tr (Ftrace.choose_table t0 ts))
                    (Ftrace.choose_table t0 ts) cols target_pkg duration_ms
                    layer_hint layer_candidates) as H.
      cbv zeta in H.
      destruct (Perfetto.fps_from_table _ _ _ _ _ _ _) as [|[fps|] d].
      * split; [reflexivity|]. right. exists t0, ts. split; [reflexivity|].
        right. destruct H as (f & _ & Hf). eexists. exact Hf.
      * destruct H as [Hpos _]. split; [exact Hpos|]. split; [reflexivity|].
        right. split; [exists t0, ts; reflexivity|eexists; reflexivity].
      * destruct H as [_ [->| ->]]; right; right;
          (split; [reflexivity|]); (split; [exists t0, ts; reflexivity|]); auto.
    + split; [reflexivity|]. right. exists t0, ts. split; [reflexivity|].
      left. exact Hcols.
  - split; [reflexivity|]. left. reflexivity.
Qed.

(** X17. Whatever the trace and the trace processor:
    [perfetto_fps_from_trace] raises only for an existing trace file
    whose table query, column query or one of the statistics queries
    raises (a failing query on the slice table never makes it raise); any
    FPS it returns is positive and comes from the markers exactly when no
    frame-timeline table was found; when it returns no FPS the detail is
    one of the four messages, the zero-count message with the total 0. *)
Theorem X17_trace_analysis
        (tr : Ftrace.trace) (target_pkg : string) (duration_ms : Z)
        (layer_hint : string) (layer_candidates : list string) :
  match Ftrace.perfetto_fps_from_trace tr target_pkg duration_ms layer_hint
                                       layer_candidates with
  | Ftrace.Raised =>
      Ftrace.file_exists tr = true /\
      (Ftrace.tables tr = None \/
       exists t0 ts,
         Ftrace.tables tr = Some (t0 :: ts) /\
         (Ftrace.table_cols tr (Ftrace.choose_table t0 ts) = None \/
          exists w, Ftrace.table_stats tr (Ftrace.choose_table t0 ts) w
                    = Perfetto.QRaised))
  | Ftrace.Returned (Some fps) d =>
      (0 < fps)%Q /\ Ftrace.file_exists tr = true /\
      ((Ftrace.tables tr = Some [] /\ exists m, d = Ftrace.FromMarkers m) \/
       ((exists t0 ts, Ftrace.tables tr = Some (t0 :: ts)) /\
        exists t, d = Ftrace.FromTable t))
  | Ftrace.Returned None d =>
      (Ftrace.file_exists tr = false /\ d = Ftrace.TraceMissing) \/
      (Ftrace.file_exists tr = true /\ Ftrace.tables tr = Some [] /\
       d = Ftrace.NoTimeline) \/
      (Ftrace.file_exists tr = true /\
       (exists t0 ts, Ftrace.tables tr = Some (t0 :: ts)) /\
       (d = Ftrace.FromTable (Perfetto.DetailZeroCount 0) \/
        d = Ftrace.FromTable Perfetto.DetailQueryFailed))
  end.
Proof. apply perfetto_fps_from_trace_spec. Qed.

(** ** The commands of a capture *)

(** X18. Whatever the device answers to a capture: the first command is
    [perfetto]; at most 3 captures are started; [cmd perfetto] is tried
    exactly when [perfetto] failed with a no-such-file error that is not
    a permission error; the fallback location is used exactly for a
    command that failed with a permission error; the copy is run exactly
    when a capture into the fallback location succeeded, the link exactly
    when the copy failed; the function returns exactly when a capture into
    the requested location succeeded or the copy was run. The duration is
    at least 800 ms and at least the one asked for, and the file write
    period lies between 500 ms and the duration. *)
Theorem X18_capture_commands (dev : Capture.device) :
  let ok := fst (Capture.perfetto_capture_frame_timeline dev) in
  let steps := snd (Capture.perfetto_capture_frame_timeline dev) in
  head steps = Some (Capture.RunPrimary Capture.PerfettoCmd) /\
  (length (List.filter Capture.is_capture steps) <= 3)%nat /\
  (In (Capture.RunPrimary Capture.CmdPerfettoCmd) steps <->
   exists e, Capture.primary dev Capture.PerfettoCmd = Some e /\
             Sampler.permission_denied e = false /\ Sampler.no_such_file e = true) /\
  (forall c, In (Capture.RunAlt c) steps <->
             In (Capture.RunPrimary c) steps /\
             exists e, Capture.primary dev c = Some e /\
                       Sampler.permission_denied e = true) /\
  (In Capture.Copy steps <->
   exists c, In (Capture.RunAlt c) steps /\ Capture.alt dev c = None) /\
  (In Capture.Link steps <-> In Capture.Copy steps /\ Capture.cp dev <> None) /\
  (ok = true <->
   (exists c, In (Capture.RunPrimary c) steps /\ Capture.primary dev c = None) \/
   In Capture.Copy steps) /\
  (forall duration_ms,
      800 <= Capture.dur duration_ms /\ duration_ms <= Capture.dur duration_ms /\
      500 <= Capture.file_write_period_ms duration_ms <= Capture.dur duration_ms).
Proof.
  intros ok steps. subst ok steps.
  unfold Capture.perfetto_capture_frame_timeline. simpl.
  assert (Hdur : forall duration_ms,
             800 <= Capture.dur duration_ms /\ duration_ms <= Capture.dur duration_ms /\
             500 <= Capture.file_write_period_ms duration_ms
                 <= Capture.dur duration_ms).
  { intros d. unfold Capture.file_write_period_ms, Capture.dur.
    pose proof (Z.div_mod (Z.max 800 d) 2 ltac:(lia)).
    pose proof (Z.mod_pos_bound (Z.max 800 d) 2 ltac:(lia)). lia. }
  destruct (Capture.primary dev Capture.PerfettoCmd) as [e1|] eqn:P1;
    [destruct (Sampler.permission_denied e1) eqn:D1;
     [destruct (Capture.alt dev Capture.PerfettoCmd) as [a1|] eqn:A1;
      [|destruct (Capture.cp dev) as [x|] eqn:C]
     |destruct (Sampler.no_such_file e1) eqn:N1;
      [destruct (Capture.primary dev Capture.CmdPerfettoCmd) as [e2|] eqn:P2;
       [destruct (Sampler.permission_denied e2) eqn:D2;
        [destruct (Capture.alt dev Capture.CmdPerfettoCmd) as [a2|] eqn:A2;
         [|destruct (Capture.cp dev) as [x|] eqn:C]
        |destruct (Sampler.no_such_file e2) eqn:N2]
       |]
      |]]
    |];
    simpl;
    (split; [reflexivity|]); (split; [lia|]);
    (split; [capture_iff|]); (split; [intros c; capture_iff|]);
    (split; [capture_iff|]); (split; [capture_iff|]);
    (split; [capture_iff|exact Hdur]).
Qed.

(** ** Quoting *)

Lemma replace_char_other (c a : Ascii.ascii) (rep r : string) :
  Ascii.eqb a c = false ->
  Quote.replace_char c rep (String a r) = String a (Quote.replace_char c rep r).
Proof. intros H. simpl. rewrite H. reflexivity. Qed.

(** The four replacements of [sh_double_quote], one after the other, put
    one backslash before each of the four special characters. *)
Lemma four_replaces (s : string) :
  Quote.replace_char Quote.backquote (Quote.escaped Quote.backquote)
    (Quote.replace_char Quote.dollar (Quote.escaped Quote.dollar)
       (Quote.replace_char Quote.dquote (Quote.escaped Quote.dquote)
          (Quote.replace_char Quote.backslash (Quote.escaped Quote.backslash) s)))
  = Quote.escape s.
Proof.
  induction s as [|a r IH]; [reflexivity|].
  unfold Quote.escape; fold Quote.escape. unfold Quote.special.
  destruct (Ascii.eqb a Quote.backslash) eqn:E1.
  { apply Ascii.eqb_eq in E1. subst a. rewrite <- IH. reflexivity. }
  destruct (Ascii.eqb a Quote.dquote) eqn:E2.
  { apply Ascii.eqb_eq in E2. subst a. rewrite <- IH. reflexivity. }
  destruct (Ascii.eqb a Quote.dollar) eqn:E3.
  { apply Ascii.eqb_eq in E3. subst a. rewrite <- IH. reflexivity. }
  destruct (Ascii.eqb a Quote.backquote) eqn:E4.
  { apply Ascii.eqb_eq in E4. subst a. rewrite <- IH. reflexivity. }
  cbn [orb].
  rewrite (replace_char_other _ _ _ _ E1), (replace_char_other _ _ _ _ E2),
    (replace_char_other _ _ _ _ E3), (replace_char_other _ _ _ _ E4).
  rewrite IH. reflexivity.
Qed.

Lemma append_inj_last (s1 s2 : string) (c : Ascii.ascii) :
  (s1 ++ String c EmptyString)%string = (s2 ++ String c EmptyString)%string ->
  s1 = s2.
Proof.
  revert s2. induction s1 as [|a r IH]; intros [|b r2] H; simpl in H.
  - reflexivity.
  - inversion H as [[Ha Hr]]. destruct r2; discriminate.
  - inversion H as [[Ha Hr]]. destruct r; discriminate.
  - inversion H as [[Ha Hr]]. f_equal. apply IH, Hr.
Qed.

Lemma escape_inj (s1 s2 : string) : Quote.escape s1 = Quote.escape s2 -> s1 = s2.
Proof.
  assert (Hb : Quote.special Quote.backslash = true) by reflexivity.
  revert s2. induction s1 as [|a r IH]; intros [|b r2] H; simpl in H.
  - reflexivity.
  - destruct (Quote.special b); discriminate.
  - destruct (Quote.special a); discriminate.
  - destruct (Quote.special a) eqn:Ea, (Quote.special b) eqn:Eb.
    + inversion H as [[Ha Hr]]. f_equal. apply IH, Hr.
    + inversion H as [[Ha Hr]]. subst b. congruence.
    + inversion H as [[Ha Hr]]. subst a. congruence.
    + inversion H as [[Ha Hr]]. f_equal. apply IH, Hr.
Qed.

Lemma single_inj (s1 s2 : string) :
  Quote.replace_char Quote.squote
    (String Quote.squote (String Quote.backslash
       (String Quote.squote (String Quote.squote EmptyString)))) s1
  = Quote.replace_char Quote.squote
      (String Quote.squote (String Quote.backslash
         (String Quote.squote (String Quote.squote EmptyString)))) s2 ->
  s1 = s2.
Proof.
  revert s2. induction s1 as [|a r IH]; intros [|b r2] H; simpl in H.
  - reflexivity.
  - destruct (Ascii.eqb b Quote.squote); discriminate.
  - destruct (Ascii.eqb a Quote.squote); discriminate.
  - destruct (Ascii.eqb a Quote.squote) eqn:Ea, (Ascii.eqb b Quote.squote) eqn:Eb;
      simpl in H.
    + apply Ascii.eqb_eq in Ea, Eb. subst a b.
      inversion H as [Hr]. f_equal. apply IH, Hr.
    + inversion H as [[Hb Hr]]. subst b. discriminate.
    + inversion H as [[Ha Hr]]. subst a. discriminate.
    + inversion H as [[Ha Hr]]. f_equal. apply IH, Hr.
Qed.

Lemma double_quotes_inj (s1 s2 : string) :
  Perfetto.double_quotes s1 = Perfetto.double_quotes s2 -> s1 = s2.
Proof.
  revert s2. induction s1 as [|a r IH]; intros [|b r2] H; simpl in H.
  - reflexivity.
  - destruct (Ascii.eqb b "'"); discriminate.
  - destruct (Ascii.eqb a "'"); discriminate.
  - destruct (Ascii.eqb a "'") eqn:Ea, (Ascii.eqb b "'") eqn:Eb.
    + apply Ascii.eqb_eq in Ea, Eb. subst a b.
      inversion H as [Hr]. f_equal. apply IH, Hr.
    + inversion H as [[Hb Hr]]. subst b. discriminate.
    + inversion H as [[Ha Hr]]. subst a. discriminate.
    + inversion H as [[Ha Hr]]. f_equal. apply IH, Hr.
Qed.

Lemma sql_quote_inj (s1 s2 : string) :
  Perfetto.sql_quote s1 = Perfetto.sql_quote s2 -> s1 = s2.
Proof.
  unfold Perfetto.sql_quote. intros H. simpl in H. inversion H as [Hr].
  apply append_inj_last in Hr. apply double_quotes_inj, Hr.
Qed.

(** X19. The four replacements of [sh_double_quote], one after the other,
    put exactly one backslash before each backslash, double quote, dollar
    and backquote and change nothing else (a backslash added by one
    replacement is not touched by the next ones). [sh_double_quote] and
    [sh_single_quote] give different texts for different strings. *)
Theorem X19_shell_quoting (s1 s2 : string) :
  Quote.sh_double_quote s1
  = String Quote.dquote (Quote.escape s1 ++ String Quote.dquote EmptyString) /\
  (Quote.sh_double_quote s1 = Quote.sh_double_quote s2 -> s1 = s2) /\
  (Quote.sh_single_quote s1 = Quote.sh_single_quote s2 -> s1 = s2).
Proof.
  split; [|split].
  - unfold Quote.sh_double_quote. rewrite four_replaces. reflexivity.
  - unfold Quote.sh_double_quote. rewrite !four_replaces. intros H.
    inversion H as [Hr]. apply append_inj_last in Hr. apply escape_inj, Hr.
  - unfold Quote.sh_single_quote. intros H.
    inversion H as [Hr]. apply append_inj_last in Hr. apply single_inj, Hr.
Qed.

Lemma NoDup_map_inj {A B : Type} (f : A -> B) (l : list A) :
  (forall x y, f x = f y -> x = y) -> List.NoDup l -> List.NoDup (List.map f l).
Proof.
  intros Hinj. induction 1 as [|a l Ha Hl IH]; simpl; constructor; [|exact IH].
  intros Hin. apply in_map_iff in Hin. destruct Hin as (y & Hy & Hin).
  apply Hinj in Hy. subst y. apply Ha. exact Hin.
Qed.

Lemma layer_eq_inj (c1 c2 : string) :
  Perfetto.where_sql (Perfetto.layer_eq c1) = Perfetto.where_sql (Perfetto.layer_eq c2) ->
  c1 = c2.
Proof.
  simpl. intros H. inversion H as [Hr].
  apply append_inj_last in Hr. apply double_quotes_inj, Hr.
Qed.

Lemma layer_like_inj (c1 c2 : string) :
  Perfetto.where_sql (Perfetto.layer_like c1)
  = Perfetto.where_sql (Perfetto.layer_like c2) ->
  c1 = c2.
Proof.
  intros H. simpl in H. inversion H as [Hr].
  apply append_inj_last in Hr. apply double_quotes_inj in Hr.
  apply append_inj_last in Hr. exact Hr.
Qed.

(** X20. [sql_quote] gives different literals for different strings, and
    therefore the exact-match queries of the offline query are pairwise
    different, and so are its substring queries on the candidates: no
    candidate is queried twice in the same way. *)
Theorem X20_distinct_queries
        (cols : list string) (target_pkg layer_hint : string)
        (layer_candidates : list string) (s1 s2 : string) :
  let cands := take 10 (Perfetto.layer_cands layer_hint layer_candidates) in
  (Perfetto.sql_quote s1 = Perfetto.sql_quote s2 -> s1 = s2) /\
  List.NoDup (List.map Perfetto.where_sql (List.map Perfetto.layer_eq cands)) /\
  List.NoDup (List.map Perfetto.where_sql (List.map Perfetto.layer_like cands)).
Proof.
  intros cands.
  assert (Hnd : List.NoDup cands).
  { subst cands.
    destruct (layer_cands_spec layer_hint layer_candidates) as (Hnd & _ & _).
    rewrite <- (take_drop 10 (Perfetto.layer_cands layer_hint layer_candidates)) in Hnd.
    apply List.NoDup_app_remove_r in Hnd. exact Hnd. }
  split; [apply sql_quote_inj|].
  rewrite !List.map_map. split.
  - apply NoDup_map_inj; [apply layer_eq_inj|exact Hnd].
  - apply NoDup_map_inj; [apply layer_like_inj|exact Hnd].
Qed.

(** ** One offline attempt and the loop that publishes its result *)

Lemma perfetto_once_spec (tp_set : bool) (c : Worker.conf) (a : Once.attempt) :
  let r := Once._perfetto_once tp_set c a in
  (fst r = true <-> tp_set = true \/ Once.tp_lookup a = Once.LookupFound) /\
  match snd r with
  | Once.Raised =>
      (tp_set = false /\ Once.tp_lookup a = Once.LookupRaised) \/
      (fst r = true /\
       (fst (Capture.perfetto_capture_frame_timeline (Once.dev a)) = false \/
        Once.pull a <> None \/
        Ftrace.perfetto_fps_from_trace
          (Once.pulled a) (Worker._target_pkg c) Once.dur_ms
          (Worker._layer_hint c) (Worker._layer_candidates c) = Ftrace.Raised))
  | Once.Returned (Some f) d =>
      (0 < f)%Q /\ fst r = true /\
      fst (Capture.perfetto_capture_frame_timeline (Once.dev a)) = true /\
      Once.pull a = None /\
      exists d', d = Once.Analysed d' /\
                 Ftrace.perfetto_fps_from_trace
                   (Once.pulled a) (Worker._target_pkg c) Once.dur_ms
                   (Worker._layer_hint c) (Worker._layer_candidates c)
                 = Ftrace.Returned (Some f) d'
  | Once.Returned None d =>
      (d = Once.NoProcessor /\ fst r = false) \/
      (fst r = true /\ exists d', d = Once.Analysed d')
  end.
Proof.
  unfold Once._perfetto_once.
  destruct tp_set; [|destruct (Once.tp_lookup a) eqn:L]; cbn [fst snd].
  2: { split; [split; [discriminate|intros [H|H]; discriminate]|].
       left. split; reflexivity. }
  2: { split; [split; [discriminate|intros [H|H]; discriminate]|].
       left. split; reflexivity. }
  all: (split; [split; [intros _; auto|reflexivity]|]).
  all: destruct (fst (Capture.perfetto_capture_frame_timeline (Once.dev a)));
    [|right; split; [reflexivity|left; reflexivity]].
  all: destruct (Once.pull a) as [e|];
    [right; split; [reflexivity|right; left; discriminate]|].
  all: pose proof (perfetto_fps_from_trace_spec
                     (Once.pulled a) (Worker._target_pkg c) Once.dur_ms
                     (Worker._layer_hint c) (Worker._layer_candidates c)) as H.
  all: destruct (Ftrace.perfetto_fps_from_trace _ _ _ _ _) as [|[f|] d].
  all: try (right; split; [reflexivity|right; right; reflexivity]).
  all: try (destruct H as [Hpos _]; split; [exact Hpos|];
            repeat (split; [reflexivity|]); eexists; split; reflexivity).
  all: right; split; [reflexivity|eexists; reflexivity].
Qed.

(** X21. When [_perfetto_once] returns an FPS to an active worker, this
    FPS is positive, the trace processor is remembered, the capture
    returned and the pull did not raise; the test [fps >= 0] of
    [_loop_perfetto] then holds, and the iteration publishes the value
    with the current time and the returned detail and counts the sample. *)
Theorem X21_offline_value_published
        (w : Worker.worker) (tp_set : bool) (a : Once.attempt)
        (render : Once.detail -> string) (dr : Worker.dump_result) (now : Z)
        (f : Q) (d : Once.detail) :
  Worker.active w = true ->
  snd (Once._perfetto_once tp_set (Worker.config w) a) = Once.Returned (Some f) d ->
  (0 < f)%Q /\
  fst (Once._perfetto_once tp_set (Worker.config w) a) = true /\
  fst (Capture.perfetto_capture_frame_timeline (Once.dev a)) = true /\
  Once.pull a = None /\
  Worker.shared
    (Worker._loop_perfetto_iter
       w (Worker.Tick dr (Once.offline_res render (Once.Returned (Some f) d)) now))
  = Worker.Slot (Some f) now (Worker.DetailOffline (render d))
                (Worker.sample_count w + 1).
Proof.
  intros Hact Hret.
  pose proof (perfetto_once_spec tp_set (Worker.config w) a) as H.
  cbv zeta in H. destruct H as [_ H]. rewrite Hret in H.
  destruct H as (Hpos & Hset & Hcap & Hpull & _).
  split; [exact Hpos|]. split; [exact Hset|]. split; [exact Hcap|].
  split; [exact Hpull|].
  unfold Worker._loop_perfetto_iter. rewrite Hact. simpl.
  assert (Hle : Qle_bool 0 f = true) by (apply Qle_bool_iff; lra).
  rewrite Hle. reflexivity.
Qed.

(** The theorem at a worker in the offline strategy and an attempt whose
    pulled trace holds 40 rows over one second. *)
Lemma X21_witness :
  exists f d,
    snd (Once._perfetto_once false (Worker.config Examples.offline_worker)
                             Examples.good_attempt)
    = Once.Returned (Some f) d /\
    (0 < f)%Q /\
    Worker.shared
      (Worker._loop_perfetto_iter
         Examples.offline_worker
         (Worker.Tick Worker.DumpRaised
                      (Once.offline_res (fun _ => "detail"%string)
                                        (Once.Returned (Some f) d)) 7000))
    = Worker.Slot (Some f) 7000 (Worker.DetailOffline "detail") 1.
Proof.
  eexists. eexists. split; [vm_compute; reflexivity|].
  match goal with
  | |- (0 < ?f)%Q /\ Worker.shared (Worker._loop_perfetto_iter _ (Worker.Tick _ (Once.offline_res ?r (Once.Returned _ ?d)) _)) = _ =>
      destruct (X21_offline_value_published
                  Examples.offline_worker false Examples.good_attempt
                  r Worker.DumpRaised 7000 f d)
        as (H1 & _ & _ & _ & H5)
  end.
  - reflexivity.
  - vm_compute. reflexivity.
  - split; [exact H1|exact H5].
Defined.

(** ** The default device *)

Lemma no_space_lstrip (s : string) :
  Devices.no_space s = true -> Perfetto.lstrip s = s.
Proof.
  destruct s as [|a r]; simpl; [reflexivity|].
  destruct (Perfetto.is_space a); [discriminate|reflexivity].
Qed.

Lemma no_space_rstrip (s : string) :
  Devices.no_space s = true -> Perfetto.rstrip s = s.
Proof.
  induction s as [|a r IH]; [reflexivity|].
  intros H. simpl in H. apply andb_prop in H. destruct H as [Ha Hr].
  rewrite rstrip_cons, (IH Hr). apply negb_true_iff in Ha. rewrite Ha.
  destruct r; reflexivity.
Qed.

Lemma non_space_supported (s : string) :
  Devices.non_space_text s -> Devices.is_supported_serial s = true.
Proof.
  intros [Hne Hns]. unfold Devices.is_supported_serial, Perfetto.strip.
  rewrite (no_space_lstrip s Hns), (no_space_rstrip s Hns). exact Hne.
Qed.

(** X22. For lines of [adb devices -l] whose serial matches [\S+],
    [pick_default_serial] returns the serial of the first line in the
    state [device], and raises the no-device error exactly when no line is
    in this state; the error about unusable devices is never raised. *)
Theorem X22_default_device (lines : list Devices.device_line) :
  Forall (fun l => Devices.non_space_text (Devices.serial l)) lines ->
  match Devices.pick_default_serial (Some lines) with
  | Devices.Picked s =>
      exists pre l post,
        lines = pre ++ l :: post /\ Devices.serial l = s /\
        Devices.state l = "device"%string /\
        Forall (fun l' => Devices.state l' <> "device"%string) pre
  | Devices.NoDevice =>
      Forall (fun l => Devices.state l <> "device"%string) lines
  | Devices.NoSupportedDevice => False
  | Devices.AdbRaised => False
  end.
Proof.
  unfold Devices.pick_default_serial.
  induction lines as [|l rest IH]; intros Hall; simpl; [constructor|].
  inversion Hall as [|? ? Hl Hrest]; subst. specialize (IH Hrest).
  destruct (String.eqb (Devices.state l) "device") eqn:E; simpl.
  - rewrite (non_space_supported _ Hl).
    apply String.eqb_eq in E.
    exists [], l, rest. split; [reflexivity|]. split; [reflexivity|].
    split; [exact E|constructor].
  - apply String.eqb_neq in E.
    destruct (List.map Devices.serial
                       (List.filter (fun l0 => String.eqb (Devices.state l0) "device")
                                    rest)) as [|s0 ss].
    + constructor; assumption.
    + destruct (List.filter Devices.is_supported_serial (s0 :: ss)) as [|s ss'].
      * contradiction.
      * destruct IH as (pre & l' & post & -> & Hs & Hst & Hpre).
        exists (l :: pre), l', post. split; [reflexivity|]. split; [exact Hs|].
        split; [exact Hst|constructor; assumption].
Qed.

(** The theorem at an emulator that is offline followed by a phone. *)
Lemma X22_witness :
  Devices.pick_default_serial (Some Examples.device_lines)
  = Devices.Picked "R58M12345" /\
  exists pre l post,
    Examples.device_lines = pre ++ l :: post /\ Devices.serial l = "R58M12345"%string /\
    Devices.state l = "device"%string /\
    Forall (fun l' => Devices.state l' <> "device"%string) pre.
Proof.
  split; [reflexivity|].
  assert (H : Forall (fun l => Devices.non_space_text (Devices.serial l))
                     Examples.device_lines).
  { repeat constructor. }
  exact (X22_default_device Examples.device_lines H).
Defined.
